(** * Lilia-backend: the donation ledger API of [server.js]

    A shallow embedding of the handlers of [server.js] that use the
    database
    ([GET /api/state], [POST /api/donations], [GET /api/export.csv],
    [POST /api/admin/state]) over an explicit model of the two tables
    the handlers query, and the properties of that embedding.

    Layout: the JavaScript values a parsed JSON body can hold and the
    conversions the handlers apply to them; the fragment of the
    PostgreSQL and node-postgres behaviour the queries rely on; the
    tables; the handlers; the script of the page, as far as it builds
    the requests; then the theorems. *)

From Stdlib Require Import ZArith String Ascii List Bool Lia.
From Stdlib Require Import DecimalString DecimalPos DecimalN.
From stdpp Require Import gmap strings sorting.

Local Open Scope Z_scope.

(** ** Characters and decimal text *)

Module Text.

(** A text is carried by the bytes of its UTF-8 encoding, which is
    what the request body, the wire protocol of the database and the
    columns hold; an ASCII character is one byte.  The texts are the
    well-formed ones: a JavaScript string with an unpaired surrogate
    has no UTF-8 encoding and is not among them. *)

(** C [isspace] in the "C" locale: HT, LF, VT, FF, CR, space. *)
Definition is_space (c : ascii) : bool :=
  let n := nat_of_ascii c in
  ((9 <=? n)%nat && (n <=? 13)%nat) || (n =? 32)%nat.

(** The white space of JavaScript ([WhiteSpace] and [LineTerminator]
    of ECMA-262), which [parseInt] skips and [trim] removes: the six
    ASCII characters above, and in two bytes U+00A0 (C2 A0), in three
    bytes U+1680 (E1 9A 80), U+2000 to U+200A, U+2028, U+2029 and
    U+202F (E2 80 and 80 to 8A, A8, A9, AF), U+205F (E2 81 9F), U+3000
    (E3 80 80) and U+FEFF (EF BB BF). *)
Definition white2 (a b : ascii) : bool :=
  (nat_of_ascii a =? 194)%nat && (nat_of_ascii b =? 160)%nat.

Definition white3 (a b c : ascii) : bool :=
  let x := nat_of_ascii a in
  let y := nat_of_ascii b in
  let z := nat_of_ascii c in
  ((x =? 225) && (y =? 154) && (z =? 128))%nat
  || ((x =? 226) && (y =? 128)
      && (((128 <=? z) && (z <=? 138)) || (z =? 168) || (z =? 169) || (z =? 175)))%nat
  || ((x =? 226) && (y =? 129) && (z =? 159))%nat
  || ((x =? 227) && (y =? 128) && (z =? 128))%nat
  || ((x =? 239) && (y =? 187) && (z =? 191))%nat.

(** Drops the characters at the head that are white space of one
    byte ([w1]), of two ([w2]) or of three ([w3]). *)
Fixpoint skip_chars (w1 : ascii -> bool) (w2 : ascii -> ascii -> bool)
    (w3 : ascii -> ascii -> ascii -> bool) (s : string) : string :=
  match s with
  | String a r =>
      if w1 a then skip_chars w1 w2 w3 r
      else match r with
           | String b r2 =>
               if w2 a b then skip_chars w1 w2 w3 r2
               else match r2 with
                    | String c r3 => if w3 a b c then skip_chars w1 w2 w3 r3 else s
                    | EmptyString => s
                    end
           | EmptyString => s
           end
  | EmptyString => s
  end.

(** White space skipped at the head of a text. *)
Definition skip_white (s : string) : string := skip_chars is_space white2 white3 s.

(** The same on a text read from its last byte to its first. *)
Definition skip_white_rev (s : string) : string :=
  skip_chars is_space (fun a b => white2 b a) (fun a b c => white3 c b a) s.

Definition rev_string (s : string) : string :=
  string_of_list_ascii (rev (list_ascii_of_string s)).

(** [String.prototype.trim]: white space removed at both ends. *)
Definition trim (s : string) : string :=
  rev_string (skip_white_rev (rev_string (skip_white s))).

Definition digit (c : ascii) : option Z :=
  let n := nat_of_ascii c in
  if ((48 <=? n)%nat && (n <=? 57)%nat) then Some (Z.of_nat n - 48) else None.

Fixpoint skip_space (s : string) : string :=
  match s with
  | String c r => if is_space c then skip_space r else s
  | EmptyString => s
  end.

(** Reads the longest prefix of decimal digits, most significant
    first, into the accumulator; returns the value and what is left. *)
Fixpoint digits_acc (s : string) (acc : Z) : Z * string :=
  match s with
  | String c r =>
      match digit c with
      | Some d => digits_acc r (10 * acc + d)
      | None => (acc, s)
      end
  | EmptyString => (acc, s)
  end.

(** At least one digit is required. *)
Definition read_digits (s : string) : option (Z * string) :=
  match s with
  | String c _ => if digit c is Some _ then Some (digits_acc s 0) else None
  | EmptyString => None
  end.

Definition hex_digit (c : ascii) : option Z :=
  let n := nat_of_ascii c in
  if ((48 <=? n)%nat && (n <=? 57)%nat) then Some (Z.of_nat n - 48)
  else if ((97 <=? n)%nat && (n <=? 102)%nat) then Some (Z.of_nat n - 87)
  else if ((65 <=? n)%nat && (n <=? 70)%nat) then Some (Z.of_nat n - 55)
  else None.

Definition oct_digit (c : ascii) : option Z :=
  let n := nat_of_ascii c in
  if ((48 <=? n)%nat && (n <=? 55)%nat) then Some (Z.of_nat n - 48) else None.

Definition bin_digit (c : ascii) : option Z :=
  let n := nat_of_ascii c in
  if ((48 <=? n)%nat && (n <=? 49)%nat) then Some (Z.of_nat n - 48) else None.

(** Digits of a base with single underscores between them, most
    significant first, into the accumulator: the value and what is
    left, or [None] for an underscore that no digit follows. *)
Fixpoint digits_us (dig : ascii -> option Z) (base : Z) (s : string) (acc : Z)
    : option (Z * string) :=
  match s with
  | String c r =>
      match dig c with
      | Some d => digits_us dig base r (base * acc + d)
      | None =>
          if Ascii.eqb c "_" then
            match r with
            | String c2 _ =>
                if dig c2 is Some _ then digits_us dig base r acc else None
            | EmptyString => None
            end
          else Some (acc, s)
      end
  | EmptyString => Some (acc, s)
  end.

(** An optional sign: [(negative, rest)]. *)
Definition read_sign (s : string) : bool * string :=
  match s with
  | String "-" r => (true, r)
  | String "+" r => (false, r)
  | _ => (false, s)
  end.

(** The decimal digits of a natural number, no leading zero. *)
Definition dec (n : N) : string := NilEmpty.string_of_uint (N.to_uint n).

(** A signed decimal numeral. *)
Definition dec_Z (z : Z) : string :=
  if z <? 0 then String "-" (dec (Z.abs_N z)) else dec (Z.abs_N z).

Fixpoint zeros (n : nat) : string :=
  match n with O => EmptyString | S n' => String "0" (zeros n') end.

(** Drops the zeros a digit string ends with. *)
Fixpoint strip_zeros (s : string) : string :=
  match s with
  | EmptyString => EmptyString
  | String c r =>
      match strip_zeros r with
      | EmptyString => if Ascii.eqb c "0" then EmptyString else String c EmptyString
      | r' => String c r'
      end
  end.

Fixpoint join (sep : string) (l : list string) : string :=
  match l with
  | [] => EmptyString
  | [x] => x
  | x :: r => x +:+ sep +:+ join sep r
  end.

(** Splits at every occurrence of the one-character separator:
    [n] separators give [n + 1] pieces, some possibly empty. *)
Fixpoint split (sep : ascii) (s : string) : list string :=
  match s with
  | EmptyString => [EmptyString]
  | String c r =>
      if Ascii.eqb c sep then EmptyString :: split sep r
      else match split sep r with
           | p :: ps => String c p :: ps
           | [] => [String c EmptyString]
           end
  end.

Fixpoint contains (c : ascii) (s : string) : bool :=
  match s with
  | EmptyString => false
  | String d r => Ascii.eqb c d || contains c r
  end.

Fixpoint map_chars (f : ascii -> string) (s : string) : string :=
  match s with
  | EmptyString => EmptyString
  | String c r => f c +:+ map_chars f r
  end.

(** The value of a decimal numeral of the standard library, read
    most significant digit first into an accumulator, as [digits_acc]
    reads its text. *)
Fixpoint uint_acc (d : Decimal.uint) (acc : Z) : Z :=
  match d with
  | Decimal.Nil => acc
  | Decimal.D0 d => uint_acc d (10 * acc + 0)
  | Decimal.D1 d => uint_acc d (10 * acc + 1)
  | Decimal.D2 d => uint_acc d (10 * acc + 2)
  | Decimal.D3 d => uint_acc d (10 * acc + 3)
  | Decimal.D4 d => uint_acc d (10 * acc + 4)
  | Decimal.D5 d => uint_acc d (10 * acc + 5)
  | Decimal.D6 d => uint_acc d (10 * acc + 6)
  | Decimal.D7 d => uint_acc d (10 * acc + 7)
  | Decimal.D8 d => uint_acc d (10 * acc + 8)
  | Decimal.D9 d => uint_acc d (10 * acc + 9)
  end.

End Text.

(** ** JavaScript values *)

Module JS.
Import Text.

(** A Number, represented by the decimal numeral that identifies it:
    an integral value, or [m / 10^k] with [m] not a multiple of ten.
    The handlers never do arithmetic on request numbers; they test
    them ([Number.isInteger], [<= 0], [Set.has], truthiness) and turn
    them into text, which this representation determines.  The
    infinite value that a numeral beyond the double range parses to is
    left out. *)
Inductive Number :=
| Int (z : Z)
| Frac (m : Z) (k : positive).

(** What a field of a parsed JSON body, or an element of an array in
    it, can be.  An object is carried by its [JSON.stringify] text
    and by whether it has a property of its own named [toString],
    which is all the handlers can observe of it besides its type: a
    property that came out of JSON is not callable, so the conversion
    of such an object to a string finds no method to call (the
    inherited [valueOf] returns the object) and throws a TypeError.
    Arrays are flat: an array inside an array is outside the model. *)
Inductive Atom :=
| Undefined
| Null
| Bool (b : bool)
| Num (n : Number)
| Str (s : string)
| Obj (json : string) (own_toString : bool).

(** The outcome of an operation that may throw. *)
Inductive Completion (A : Type) : Type :=
| Returns (a : A)
| Throws.
Arguments Returns {A} a.
Arguments Throws {A}.

Inductive Value :=
| Atomic (a : Atom)
| Arr (elems : list Atom).

Coercion Atomic : Atom >-> Value.

(** [Number::toString] with radix 10.  With [s] the significant
    digits, [k] their count and [n] the position of the decimal
    point, the standard prints plain digits when [k <= n <= 21], a
    point inside them when [0 < n <= 21], ["0."] and zeros when
    [-6 < n <= 0], and the exponent form otherwise. *)
Definition exponent_form (s : string) (n : Z) : string :=
  match s with
  | EmptyString => EmptyString
  | String d r =>
      let mant := match r with
                  | EmptyString => String d EmptyString
                  | _ => String d (String "." r)
                  end in
      let e := n - 1 in
      mant +:+ "e" +:+ (if e <? 0 then "-" else "+") +:+ dec (Z.abs_N e)
  end.

Definition fraction_form (s : string) (n : Z) : string :=
  let k := Z.of_nat (String.length s) in
  if (0 <? n) && (n <=? 21) then
    substring 0 (Z.to_nat n) s +:+ "." +:+ substring (Z.to_nat n) (Z.to_nat (k - n)) s
  else if (-6 <? n) && (n <=? 0) then "0." +:+ zeros (Z.to_nat (- n)) +:+ s
  else exponent_form s n.

(** An integral value below [10^21] in magnitude is the case
    [k <= n <= 21]: its plain decimal numeral. *)
Definition Number_toString (x : Number) : string :=
  match x with
  | Int z =>
      if Z.abs z <? 10 ^ 21 then dec_Z z
      else
        let ds := dec (Z.abs_N z) in
        (if z <? 0 then "-" else "")
          +:+ exponent_form (strip_zeros ds) (Z.of_nat (String.length ds))
  | Frac m k =>
      let ds := dec (Z.abs_N m) in
      (if m <? 0 then "-" else "")
        +:+ fraction_form ds (Z.of_nat (String.length ds) - Z.pos k)
  end.

(** The text of a value whose conversion to a string does not
    throw. *)
Definition Atom_toString (a : Atom) : string :=
  match a with
  | Undefined => "undefined"
  | Null => "null"
  | Bool true => "true"
  | Bool false => "false"
  | Num n => Number_toString n
  | Str s => s
  | Obj _ _ => "[object Object]"
  end.

(** Whether the conversion to a string throws. *)
Definition throws (a : Atom) : bool :=
  match a with
  | Obj _ own_toString => own_toString
  | _ => false
  end.

(** [Array.prototype.join]: [undefined] and [null] elements give the
    empty string, every other element is converted to a string. *)
Definition join_elem (a : Atom) : string :=
  match a with
  | Undefined | Null => EmptyString
  | _ => Atom_toString a
  end.

Definition Array_join (sep : string) (l : list Atom) : Completion string :=
  if existsb throws l then Throws else Returns (join sep (map join_elem l)).

(** [String(v)]. *)
Definition ToString (v : Value) : Completion string :=
  match v with
  | Atomic a => if throws a then Throws else Returns (Atom_toString a)
  | Arr l => Array_join "," l
  end.

(** [!v] is false: a parsed JSON value is falsy when it is
    [undefined], [null], [false], zero or the empty string. *)
Definition truthy (v : Value) : bool :=
  match v with
  | Atomic Undefined | Atomic Null | Atomic (Bool false) => false
  | Atomic (Num (Int 0)) => false
  | Atomic (Str EmptyString) => false
  | _ => true
  end.

(** [v === undefined]. *)
Definition is_undefined (v : Value) : bool :=
  match v with Atomic Undefined => true | _ => false end.

Definition Array_isArray (v : Value) : bool :=
  match v with Arr _ => true | Atomic _ => false end.

(** The elements that [numbers.length], [numbers.filter],
    [numbers.join] and the array parameter read, for a value that
    passed [Array.isArray]. *)
Definition elements_of (v : Value) : list Atom :=
  match v with Arr l => l | Atomic _ => [] end.

Definition Number_isInteger (v : Value) : bool :=
  match v with Atomic (Num (Int _)) => true | _ => false end.

(** [v <= 0] for a value that passed [Number.isInteger]. *)
Definition le_zero (v : Value) : bool :=
  match v with Atomic (Num (Int z)) => z <=? 0 | _ => false end.

(** [list.includes(v)] for a list of string literals: strict
    equality, so only a string can be found. *)
Definition includes (l : list string) (v : Value) : bool :=
  match v with
  | Atomic (Str s) => bool_decide (s ∈ l)
  | _ => false
  end.

(** [parseInt(v, 10)]: the text of [v], leading white space skipped,
    an optional sign, then the longest run of decimal digits; [None]
    is NaN. *)
Definition parseInt (v : Value) : Completion (option Z) :=
  match ToString v with
  | Throws => Throws
  | Returns t =>
      let (neg, s) := read_sign (skip_white t) in
      Returns match read_digits s with
              | Some (n, _) => Some (if neg then - n else n)
              | None => None
              end
  end.

(** [x || d] for a [parseInt] result: NaN and zero are falsy. *)
Definition or_default (x : option Z) (d : Z) : Z :=
  match x with
  | Some 0 | None => d
  | Some z => z
  end.

End JS.

(** ** The database, as far as the queries go *)

Module PG.
Import Text JS.

(** A query either yields a value or rejects (the handler's [catch]
    then hands the error to the error middleware). *)
Inductive Result (A : Type) : Type :=
| Ok (a : A)
| Rejected.
Arguments Ok {A} a.
Arguments Rejected {A}.

#[global] Instance result_ret : MRet Result := fun A a => Ok a.

#[global] Instance result_bind : MBind Result := fun A B f r =>
  match r with
  | Ok a => f a
  | Rejected => Rejected
  end.

(** Every row or element must convert; the first failure rejects. *)
Fixpoint traverse {A B} (f : A -> Result B) (l : list A) : Result (list B) :=
  match l with
  | [] => Ok []
  | a :: r => b ← f a; bs ← traverse f r; Ok (b :: bs)
  end.

(** The SQL type [integer] ([int], [int4]) is 32 bits wide. *)
Definition int4_min : Z := -2147483648.
Definition int4_max : Z := 2147483647.

Definition in_int4 (z : Z) : bool := (int4_min <=? z) && (z <=? int4_max).

(** A cast of a wider integer ([bigint]) to [integer]. *)
Definition to_int4 (z : Z) : Result Z := if in_int4 z then Ok z else Rejected.

(** The digits of an integer literal as PostgreSQL 16 and later read
    them ([pg_strtoint32_safe]): hexadecimal, octal or binary digits
    after [0x], [0o] or [0b], decimal digits otherwise, with single
    underscores between digits; a decimal literal starts with a
    digit, the others may start with an underscore. *)
Definition decimal (s : string) : option (Z * string) :=
  match s with
  | String c _ => if digit c is Some _ then digits_us digit 10 s 0 else None
  | EmptyString => None
  end.

Definition based (dig : ascii -> option Z) (base : Z) (s : string) : option (Z * string) :=
  match s with
  | String c _ =>
      if (if dig c is Some _ then true else false) || Ascii.eqb c "_"
      then digits_us dig base s 0
      else None
  | EmptyString => None
  end.

Definition int_literal (s : string) : option (Z * string) :=
  match s with
  | String c r =>
      if Ascii.eqb c "0" then
        match r with
        | String x r2 =>
            if Ascii.eqb x "x" || Ascii.eqb x "X" then based hex_digit 16 r2
            else if Ascii.eqb x "o" || Ascii.eqb x "O" then based oct_digit 8 r2
            else if Ascii.eqb x "b" || Ascii.eqb x "B" then based bin_digit 2 r2
            else decimal s
        | EmptyString => decimal s
        end
      else decimal s
  | EmptyString => None
  end.

(** The input function of [integer], applied by [text::int] and to
    the elements of an [int[]] parameter: white space, an optional
    sign, the digits, white space, and the value must fit. *)
Definition int4in (s : string) : Result Z :=
  let (neg, s1) := read_sign (skip_space s) in
  match int_literal s1 with
  | Some (n, rest) =>
      match skip_space rest with
      | EmptyString => to_int4 (if neg then - n else n)
      | _ => Rejected
      end
  | None => Rejected
  end.

(** node-postgres [prepareValue] on a scalar: the text sent for a
    query parameter, [None] for SQL NULL. *)
Definition prepareAtom (a : Atom) : option string :=
  match a with
  | Undefined | Null => None
  | Obj json _ => Some json
  | _ => Some (Atom_toString a)
  end.

Definition backslash : ascii := "092".
Definition dquote : ascii := "034".
Definition nul : ascii := "000".

(** node-postgres [escapeElement] and [arrayString]. *)
Definition escapeElement (s : string) : string :=
  String dquote
    (map_chars (fun c => if Ascii.eqb c backslash || Ascii.eqb c dquote
                         then String backslash (String c EmptyString)
                         else String c EmptyString) s
     +:+ String dquote EmptyString).

Definition arrayString (l : list Atom) : string :=
  "{" +:+ join "," (map (fun a => match prepareAtom a with
                                  | None => "NULL"
                                  | Some t => escapeElement t
                                  end) l) +:+ "}".

Definition prepareValue (v : Value) : option string :=
  match v with
  | Atomic a => prepareAtom a
  | Arr l => Some (arrayString l)
  end.

(** A parameter bound to a [text not null] column: the server
    refuses a text that holds U+0000. *)
Definition text_param (v : Value) : Result string :=
  match prepareValue v with
  | Some t => if contains nul t then Rejected else Ok t
  | None => Rejected
  end.

(** A parameter bound to an [integer not null] column. *)
Definition int_param (v : Value) : Result Z :=
  match prepareValue v with
  | Some t => int4in t
  | None => Rejected
  end.

(** A JavaScript array bound to [$1::int[]]: NULL for [null], and
    every other element goes through the [integer] input function. *)
Definition int_array_param (l : list Atom) : Result (list (option Z)) :=
  traverse (fun a => match prepareAtom a with
                 | None => Ok None
                 | Some t => z ← int4in t; Ok (Some z)
                 end) l.

(** [string_to_array(s, ',')]: no element for the empty string. *)
Definition string_to_array (s : string) : list string :=
  match s with
  | EmptyString => []
  | _ => split "," s
  end.

(** [n = any(arr)] in a [where] clause: true for a non-NULL element
    equal to [n]. *)
Definition eq_any (n : Z) (arr : list (option Z)) : bool :=
  bool_decide (Some n ∈ arr).

(** ** Tables *)

(** A row of [donations]. [created_at] is the insertion instant in
    milliseconds since the epoch, as [Date.getTime] reports it. *)
Record Donation := {
  id : Z;
  amount : Z;
  numbers : string;
  method : string;
  donor_name : string;
  donor_phone : string;
  donor_address : string;
  created_at : Z
}.

(** The row of [state] with [id = 1]. *)
Record State := {
  goal : Z;
  bio : string
}.

Record Db := {
  donations : list Donation;
  donations_id_seq : Z;
  state : option State
}.

Definition default_bio : string :=
  "I'm passionate about serving others and making a difference in the lives of children. This Tanzania mission is close to my heart!".

(** The common table expression of both number queries:
    [select unnest(string_to_array(numbers, ','))::int n from donations]. *)
Definition unnest_numbers (d : Donation) : Result (list Z) :=
  traverse int4in (string_to_array (numbers d)).

Definition e (db : Db) : Result (list Z) :=
  ls ← traverse unnest_numbers (donations db); Ok (concat ls).

(** [select coalesce(sum(amount),0)::int as raised, count( * )::int
    as donations from donations]. *)
Definition select_totals (db : Db) : Result (Z * Z) :=
  raised ← to_int4 (foldr Z.add 0 (map amount (donations db)));
  count ← to_int4 (Z.of_nat (length (donations db)));
  Ok (raised, count).

(** [select n from e group by n]: one row per distinct value, in an
    order SQL leaves open. *)
Definition select_taken (db : Db) : Result (list Z) :=
  ns ← e db; Ok (elements (list_to_set ns : gset Z)).

(** [select n from e where n = any($1::int[])]. *)
Definition select_conflicts (db : Db) (numbers : list Atom) : Result (list Z) :=
  arr ← int_array_param numbers;
  ns ← e db;
  Ok (List.filter (fun n => eq_any n arr) ns).

(** [insert into donations (amount, numbers, method, donor_name,
    donor_phone, donor_address) values ($1,$2,$3,$4,$5,$6)]: the
    [id] comes from the sequence and [created_at] from [now()]. *)
Definition insert_donation (db : Db) (now : Z)
    (p_amount p_numbers p_method p_name p_phone p_address : Value) : Result Db :=
  a ← int_param p_amount;
  ns ← text_param p_numbers;
  m ← text_param p_method;
  dn ← text_param p_name;
  dp ← text_param p_phone;
  da ← text_param p_address;
  let i := donations_id_seq db + 1 in
  Ok {| donations := donations db ++
          [{| id := i; amount := a; numbers := ns; method := m;
              donor_name := dn; donor_phone := dp; donor_address := da;
              created_at := now |}];
        donations_id_seq := i;
        state := state db |}.

(** [update state set bio=$1 where id=1]. *)
Definition update_bio (db : Db) (p : Value) : Result Db :=
  b ← text_param p;
  Ok {| donations := donations db;
        donations_id_seq := donations_id_seq db;
        state := (fun st => {| goal := goal st; bio := b |}) <$> state db |}.

(** [update state set goal=$1 where id=1]. *)
Definition update_goal (db : Db) (p : Value) : Result Db :=
  g ← int_param p;
  Ok {| donations := donations db;
        donations_id_seq := donations_id_seq db;
        state := (fun st => {| goal := g; bio := bio st |}) <$> state db |}.

(** [insert into state (id) values (1) on conflict (id) do nothing],
    with the column defaults of [create table state]. *)
Definition insert_state_default (db : Db) : Db :=
  {| donations := donations db;
     donations_id_seq := donations_id_seq db;
     state := match state db with
              | Some st => Some st
              | None => Some {| goal := 3500; bio := default_bio |}
              end |}.

(** [select * from donations order by id desc]. *)
Fixpoint insert_desc (d : Donation) (l : list Donation) : list Donation :=
  match l with
  | [] => [d]
  | x :: r => if id x <? id d then d :: l else x :: insert_desc d r
  end.

Definition order_by_id_desc (l : list Donation) : list Donation :=
  foldr insert_desc [] l.

End PG.

(** ** csv-stringify, as [stringify(records, { header: true })] uses it *)

Module Csv.
Import Text JS PG.

(** The property values of the exported objects, by JavaScript type:
    node-postgres hands [bigint] over as a string, [integer] as a
    number, [text] as a string and [timestamptz] as a [Date]. *)
Inductive Cell :=
| CString (s : string)
| CNumber (z : Z)
| CDate (ms : Z).

(** An object literal: its properties in insertion order. *)
Definition Record_ : Type := list (string * Cell).

(** The default casts: a string as it is, a number through
    [String], a date through [getTime]. *)
Definition cast (c : Cell) : string :=
  match c with
  | CString s => s
  | CNumber z => Number_toString (Int z)
  | CDate ms => Number_toString (Int ms)
  end.

Definition newline : ascii := "010".
Definition carriage_return : ascii := "013".

(** A field is quoted when it holds the delimiter, the quote, the
    record delimiter or a carriage return; quotes inside are
    doubled. *)
Definition needs_quote (s : string) : bool :=
  contains dquote s || contains "," s || contains newline s
  || contains carriage_return s.

Definition double_quotes (s : string) : string :=
  map_chars (fun c => if Ascii.eqb c dquote
                      then String dquote (String dquote EmptyString)
                      else String c EmptyString) s.

Definition quote_field (s : string) : string :=
  if needs_quote s
  then String dquote (double_quotes s +:+ String dquote EmptyString)
  else s.

Definition line (fields : list string) : string :=
  join "," (map quote_field fields) +:+ String newline EmptyString.

(** The property of a record under a column key, cast to text; the
    empty string when the record lacks it. *)
Fixpoint get (r : Record_) (key : string) : string :=
  match r with
  | [] => EmptyString
  | (k, c) :: r' => if String.eqb k key then cast c else get r' key
  end.

(** Columns are discovered from the keys of the first record; with
    no record nothing is written, not even a header. *)
Definition stringify (records : list Record_) : string :=
  match records with
  | [] => EmptyString
  | first :: _ =>
      let columns := map fst first in
      line columns +:+
      String.concat EmptyString (map (fun r => line (map (get r) columns)) records)
  end.

End Csv.

(** ** The handlers *)

Module Server.
Import Text JS PG Csv.

(** What the handler sends. *)
Inductive Body :=
| BError (error : string)
| BConflict (error : string) (conflicts : list Atom)
| BOk
| BState (raised donationCount goal : Z) (bio : string) (takenNumbers : list Z)
| BCsv (text : string).

Record Response := Reply { status : Z; body : Body }.

(** The error middleware: [res.status(500).json({ error: "server_error" })]. *)
Definition server_error : Response := Reply 500 (BError "server_error").

(** The fields [POST /api/donations] destructures from [req.body || {}];
    a field the body lacks is [Undefined]. *)
Record DonationBody := {
  b_amount : Value;
  b_numbers : Value;
  b_method : Value;
  b_donorName : Value;
  b_donorPhone : Value;
  b_donorAddress : Value
}.

(** The fields [POST /api/admin/state] destructures. *)
Record StateBody := {
  b_bio : Value;
  b_goal : Value
}.

Definition methods : list string := ["venmo"; "cashapp"; "paypal"; "zelle"; "manual"].

(** [already.has(n)] for a [Set] of numbers that came out of an
    [integer] column: only an integral Number can be in it. *)
Definition has (already : gset Z) (a : Atom) : bool :=
  match a with
  | Num (Int z) => bool_decide (z ∈ already)
  | _ => false
  end.

(** [init()] after the two [create table if not exists]. *)
Definition init (db : Db) : Db := insert_state_default db.

(** [GET /api/state]. *)
Definition getState (db : Db) : Response :=
  match select_totals db, select_taken db with
  | Ok (raised, count), Ok taken =>
      Reply 200 (BState raised count
                   (match state db with Some st => goal st | None => 3500 end)
                   (match state db with Some st => bio st | None => EmptyString end)
                   taken)
  | _, _ => server_error
  end.

(** [POST /api/donations]; [now] is the instant of the insertion.
    The forwarding to the Apps Script URL, when one is configured,
    happens after the insertion and its failure is caught: it changes
    neither the database nor the answer. *)
Definition recordDonation (db : Db) (now : Z) (req : DonationBody) : Db * Response :=
  let amount := b_amount req in
  let numbers := b_numbers req in
  let method := b_method req in
  let donorName := b_donorName req in
  let donorPhone := b_donorPhone req in
  let donorAddress := b_donorAddress req in
  if negb (Array_isArray numbers) || (length (elements_of numbers) =? 0)%nat
  then (db, Reply 400 (BError "numbers[] required"))
  else if negb (Number_isInteger amount) || le_zero amount
  then (db, Reply 400 (BError "invalid amount"))
  else if negb (includes methods method)
  then (db, Reply 400 (BError "invalid method"))
  else if negb (truthy donorName) || negb (truthy donorPhone) || negb (truthy donorAddress)
  then (db, Reply 400 (BError "donor info required"))
  else
    match select_conflicts db (elements_of numbers) with
    | Rejected => (db, server_error)
    | Ok rows =>
        let already : gset Z := list_to_set rows in
        let conflicts := List.filter (has already) (elements_of numbers) in
        if negb (length conflicts =? 0)%nat
        then (db, Reply 409 (BConflict "numbers already taken" conflicts))
        else
          match Array_join "," (elements_of numbers) with
          | Throws => (db, server_error)
          | Returns csv =>
              match insert_donation db now amount (Str csv) method
                      donorName donorPhone donorAddress with
              | Rejected => (db, server_error)
              | Ok db' => (db', Reply 201 BOk)
              end
          end
    end.

Section Admin.

(** The shared secret, from the environment (["lilia#2024"] when
    the variable is not set). *)
Variable ADMIN_PASSWORD : string.

(** [(req.headers["x-admin-key"] || "") === ADMIN_PASSWORD]; the
    header is [None] when the request does not carry it. *)
Definition isAuthed (x_admin_key : option string) : bool :=
  String.eqb (match x_admin_key with
              | Some EmptyString | None => EmptyString
              | Some k => k
              end) ADMIN_PASSWORD.

Definition unauthorized : Response := Reply 401 (BError "unauthorized").

(** The object built for each row in [rows.map]. *)
Definition export_record (r : Donation) : Record_ :=
  [ ("id", CString (dec_Z (id r)));
    ("amount", CNumber (amount r));
    ("numbers", CString (numbers r));
    ("method", CString (method r));
    ("donor_name", CString (donor_name r));
    ("donor_phone", CString (donor_phone r));
    ("donor_address", CString (donor_address r));
    ("created_at", CDate (created_at r)) ].

(** [GET /api/export.csv]. *)
Definition exportCsv (db : Db) (x_admin_key : option string) : Response :=
  if negb (isAuthed x_admin_key) then unauthorized
  else
    let rows := order_by_id_desc (donations db) in
    let out := map export_record rows in
    Reply 200 (BCsv (stringify out)).

(** [POST /api/admin/state]. *)
Definition updateState (db : Db) (x_admin_key : option string) (req : StateBody)
    : Db * Response :=
  if negb (isAuthed x_admin_key) then (db, unauthorized)
  else
    let bio := b_bio req in
    let goal := b_goal req in
    match (if negb (is_undefined bio)
           then match ToString bio with
                | Throws => Rejected
                | Returns text => update_bio db (Str text)
                end
           else Ok db) with
    | Rejected => (db, server_error)
    | Ok db1 =>
        match (if negb (is_undefined goal)
               then match parseInt goal with
                    | Throws => Rejected
                    | Returns n => update_goal db1 (Num (Int (or_default n 3500)))
                    end
               else Ok db1) with
        | Rejected => (db1, server_error)
        | Ok db2 => (db2, Reply 200 BOk)
        end
    end.

End Admin.

End Server.

(** ** The page script

    The script of the page the server sends, as far as it decides
    what is sent back to the API: the cleaning of typed text, the
    selection of numbers on the grid, and the bodies of the requests.
    What it does to the document is left out. *)

Module Page.
Import Text JS PG Server.

(** The secret typed into the script, sent as [x-admin-key] by
    [apiExportCSV] and [apiUpdateState]. *)
Definition ADMIN_PASSWORD : string := "lilia#2024".

(** The replacement function of [input.replace]: the entity for each
    of the five characters of the pattern (less than, greater than,
    double quote, single quote, ampersand), and every other character
    as it is. *)
Definition entity (c : ascii) : string :=
  if Ascii.eqb c "<" then "&lt;"
  else if Ascii.eqb c ">" then "&gt;"
  else if Ascii.eqb c dquote then "&quot;"
  else if Ascii.eqb c "'" then "&#x27;"
  else if Ascii.eqb c "&" then "&amp;"
  else String c EmptyString.

(** [sanitizeInput] on the value of a text field, which is always a
    string. *)
Definition sanitizeInput (input : string) : string :=
  trim (map_chars entity input).

(** *** The grid *)

(** [selectedNumbers.indexOf(n)]; [None] is [-1]. *)
Fixpoint indexOf (l : list Z) (n : Z) : option nat :=
  match l with
  | [] => None
  | x :: r => if x =? n then Some O else S <$> indexOf r n
  end.

(** [toggleNumber(n)]: the new [selectedNumbers].  [donations] is
    [fundraiserData.donations], the object whose keys are the taken
    numbers of the last state read. *)
Definition toggleNumber (donations : gset Z) (selectedNumbers : list Z) (n : Z)
    : list Z :=
  if bool_decide (n ∈ donations) then selectedNumbers
  else match indexOf selectedNumbers n with
       | Some i => delete i selectedNumbers
       | None => selectedNumbers ++ [n]
       end.

(** The numbers of the buttons [generateNumberGrid] makes. *)
Definition grid : list Z := map Z.of_nat (seq 1 80).

(** [selectedNumbers.reduce((s,n)=>s+n,0)]. *)
Definition total (selectedNumbers : list Z) : Z := foldl Z.add 0 selectedNumbers.

(** The keys of the [methods] table of [showPaymentModal].
    [selectedPayment] is the empty string or one of the three names
    [selectPayment] is called with. *)
Definition modal_methods : list string := ["venmo"; "cashapp"; "paypal"; "zelle"].

(** [processDonation]: the method and the amount the modal is opened
    with, [None] when it stays closed. *)
Definition processDonation (selectedNumbers : list Z) (selectedPayment : string)
    : option (string * Z) :=
  if (length selectedNumbers =? 0)%nat || String.eqb selectedPayment EmptyString
  then None
  else if bool_decide (selectedPayment ∈ modal_methods)
  then Some (selectedPayment, total selectedNumbers)
  else None.

(** [confirmDonation]: the body handed to [apiDonate], [None] when
    the donor fields are refused. *)
Definition confirmDonation (selectedNumbers : list Z) (selectedPayment : string)
    (name phone address : string) : option DonationBody :=
  let donorName := sanitizeInput name in
  let donorPhone := sanitizeInput phone in
  let donorAddress := sanitizeInput address in
  if String.eqb donorName EmptyString || String.eqb donorPhone EmptyString
     || String.eqb donorAddress EmptyString
  then None
  else
    Some {| b_amount := Num (Int (total selectedNumbers));
            b_numbers := Arr (map (fun n => Num (Int n)) selectedNumbers);
            b_method := Str selectedPayment;
            b_donorName := Str donorName;
            b_donorPhone := Str donorPhone;
            b_donorAddress := Str donorAddress |}.

(** *** The admin panel *)

(** [authenticateAdmin]: the new [isAuthenticated]. *)
Definition authenticateAdmin (isAuthenticated : bool) (password : string) : bool :=
  if String.eqb password ADMIN_PASSWORD then true else isAuthenticated.

Fixpoint hex_acc (s : string) (acc : Z) : Z :=
  match s with
  | String c r =>
      match hex_digit c with
      | Some d => hex_acc r (16 * acc + d)
      | None => acc
      end
  | EmptyString => acc
  end.

(** [parseInt(s)] with no radix: leading white space, an optional
    sign, then hexadecimal digits after [0x] or [0X] and decimal
    digits otherwise; [None] is NaN. *)
Definition parseInt_no_radix (s : string) : option Z :=
  let (neg, s1) := read_sign (skip_white s) in
  let signed := fun n : Z => if neg then - n else n in
  match s1 with
  | String c (String x r) =>
      if Ascii.eqb c "0" && (Ascii.eqb x "x" || Ascii.eqb x "X")
      then match r with
           | String h _ => if hex_digit h is Some _ then Some (signed (hex_acc r 0)) else None
           | EmptyString => None
           end
      else (fun p => signed p.1) <$> read_digits s1
  | _ => (fun p => signed p.1) <$> read_digits s1
  end.

(** [!isNaN(n) && n >= 1 && n <= 80]. *)
Definition on_grid (n : option Z) : bool :=
  match n with
  | Some z => (1 <=? z) && (z <=? 80)
  | None => false
  end.

(** [s + n] on Numbers that are integers or NaN. *)
Definition plus (s n : option Z) : option Z :=
  match s, n with
  | Some a, Some b => Some (a + b)
  | _, _ => None
  end.

(** A Number in a body after [JSON.stringify] and the server's
    parsing: NaN is written as [null]. *)
Definition json_number (n : option Z) : Atom :=
  match n with
  | Some z => Num (Int z)
  | None => Null
  end.

(** [markNumbersAsDonated]: the body handed to [apiDonate], [None]
    when nothing is sent. *)
Definition markNumbersAsDonated (isAuthenticated : bool) (manualNumbers : string)
    : option DonationBody :=
  if negb isAuthenticated then None
  else
    let input := sanitizeInput manualNumbers in
    if String.eqb input EmptyString then None
    else
      let nums := List.filter on_grid
                    (map (fun n => parseInt_no_radix (trim n)) (split "," input)) in
      if (length nums =? 0)%nat then None
      else
        let total := foldl plus (Some 0) nums in
        Some {| b_amount := json_number total;
                b_numbers := Arr (map json_number nums);
                b_method := Str "manual";
                b_donorName := Str "Manual Entry (Admin)";
                b_donorPhone := Str "N/A";
                b_donorAddress := Str "N/A" |}.

(** [updateBio]: the body handed to [apiUpdateState]. *)
Definition updateBio (isAuthenticated : bool) (bioText : string) : option StateBody :=
  if negb isAuthenticated then None
  else Some {| b_bio := Str (sanitizeInput bioText); b_goal := Undefined |}.

(** [resetAllData]: the body handed to [apiUpdateState] once the
    question is answered with [confirmed]. *)
Definition resetAllData (isAuthenticated confirmed : bool) : option StateBody :=
  if negb isAuthenticated then None
  else if negb confirmed then None
  else Some {| b_bio := Str "I'm passionate about serving others and making a difference in the lives of children. This Tanzania mission is close to my heart!";
               b_goal := Num (Int 3500) |}.

End Page.

(** * The vocabulary of the statements *)

Module Terms.
Import Text JS PG Csv Server.

(** An integral Number as an array element. *)
Definition int (z : Z) : Atom := Num (Int z).

(** [nss] lists, record by record, the integers the [numbers] column
    of the stored donations holds. *)
Definition ledger_numbers (db : Db) (nss : list (list Z)) : Prop :=
  Forall2 (fun d ns => unnest_numbers d = Ok ns) (donations db) nss.

(** The record holds the integers [ns]: its [numbers] column is their
    decimal numerals joined by commas, and each fits the 32-bit
    [integer] type. *)
Definition holds (d : Donation) (ns : list Z) : Prop :=
  numbers d = join "," (map dec_Z ns) /\ Forall (fun n => in_int4 n = true) ns.

(** The ledger holds, record by record, the integers [nss]. *)
Definition ledger_holds (db : Db) (nss : list (list Z)) : Prop :=
  Forall2 holds (donations db) nss.

(** The sum of [amount] over the records. *)
Definition total_amount (l : list Donation) : Z := foldr Z.add 0 (map amount l).

(** What the four checks of [POST /api/donations] accept. *)
Definition nonempty_array (v : Value) : Prop :=
  exists a l, v = Arr (a :: l).

Definition positive_integer (v : Value) : Prop :=
  exists z, v = Atomic (Num (Int z)) /\ 0 < z.

Definition known_method (v : Value) : Prop :=
  exists m, v = Atomic (Str m) /\ m ∈ methods.

(** A donor field counts as empty when it is falsy: absent, [null],
    [false], zero or the empty string. *)
Definition empty_donor_field (req : DonationBody) : Prop :=
  truthy (b_donorName req) = false \/
  truthy (b_donorPhone req) = false \/
  truthy (b_donorAddress req) = false.

(** A donor field the [text] column takes: a non-empty string that
    holds no U+0000. *)
Definition free_text (v : Value) : Prop :=
  exists s, v = Atomic (Str s) /\ s <> EmptyString /\ contains nul s = false.

Definition donor_info (req : DonationBody) : Prop :=
  free_text (b_donorName req) /\ free_text (b_donorPhone req)
  /\ free_text (b_donorAddress req).

(** A request whose amount, method and donor fields are as the data
    model describes them. *)
Definition valid_fields (req : DonationBody) : Prop :=
  positive_integer (b_amount req) /\ known_method (b_method req) /\ donor_info req.

(** The three field checks that precede the conflict check. *)
Definition passes_field_checks (req : DonationBody) : Prop :=
  positive_integer (b_amount req) /\
  known_method (b_method req) /\
  truthy (b_donorName req) = true /\
  truthy (b_donorPhone req) = true /\
  truthy (b_donorAddress req) = true.

(** The [bio] of the request, when it has one, can be stored: its
    conversion to a string does not throw and the text holds no
    U+0000. *)
Definition bio_accepted (req : StateBody) : Prop :=
  b_bio req = Atomic Undefined
  \/ exists s, ToString (b_bio req) = Returns s /\ contains nul s = false.

(** The text [isAuthed] compares with the secret: the header's value,
    the empty string when the request has no such header. *)
Definition header_text (x_admin_key : option string) : string :=
  default EmptyString x_admin_key.

(** *** Reading a CSV text

    Fields are separated by commas and records end with a line feed; a
    field may be enclosed in double quotes, inside which commas and
    line feeds are data and a double quote is written twice. *)
Inductive Mode := FieldStart | Unquoted | Quoted | QuoteInQuoted.

Fixpoint read (s : string) (m : Mode) (field : string) (row : list string)
    : list (list string) :=
  match s with
  | EmptyString =>
      match m, row with
      | FieldStart, [] => []
      | _, _ => [row ++ [field]]
      end
  | String c r =>
      match m with
      | FieldStart =>
          if Ascii.eqb c dquote then read r Quoted EmptyString row
          else if Ascii.eqb c "," then read r FieldStart EmptyString (row ++ [EmptyString])
          else if Ascii.eqb c newline then (row ++ [EmptyString]) :: read r FieldStart EmptyString []
          else read r Unquoted (String c EmptyString) row
      | Unquoted =>
          if Ascii.eqb c "," then read r FieldStart EmptyString (row ++ [field])
          else if Ascii.eqb c newline then (row ++ [field]) :: read r FieldStart EmptyString []
          else read r Unquoted (field +:+ String c EmptyString) row
      | Quoted =>
          if Ascii.eqb c dquote then read r QuoteInQuoted field row
          else read r Quoted (field +:+ String c EmptyString) row
      | QuoteInQuoted =>
          if Ascii.eqb c dquote then read r Quoted (field +:+ String dquote EmptyString) row
          else if Ascii.eqb c "," then read r FieldStart EmptyString (row ++ [field])
          else if Ascii.eqb c newline then (row ++ [field]) :: read r FieldStart EmptyString []
          else read r Unquoted (field +:+ String c EmptyString) row
      end
  end.

(** The records of a CSV text, each the list of its fields. *)
Definition records (s : string) : list (list string) :=
  read s FieldStart EmptyString [].

(** The column names, in the order of the exported object's keys. *)
Definition header : list string :=
  ["id"; "amount"; "numbers"; "method"; "donor_name"; "donor_phone";
   "donor_address"; "created_at"].

(** The text of each column for a stored donation. *)
Definition fields (d : Donation) : list string :=
  [dec_Z (id d); Number_toString (Int (amount d)); numbers d; method d;
   donor_name d; donor_phone d; donor_address d;
   Number_toString (Int (created_at d))].

(** [x] may come before [y] in [order by id desc]. *)
Definition id_ge (x y : Donation) : Prop := id y <= id x.

(** *** Sample data for the examples *)

(** The database right after [init()] on empty tables. *)
Definition empty_db : Db :=
  init {| donations := []; donations_id_seq := 0; state := None |}.

Definition donation (a : Z) (numbers : list Atom) : DonationBody :=
  {| b_amount := Num (Int a); b_numbers := Arr numbers; b_method := Str "venmo";
     b_donorName := Str "A"; b_donorPhone := Str "1"; b_donorAddress := Str "X" |}.

(** The ledger after the first submission of the specification's
    scenario: [{amount:10, numbers:[3,7], ...}] at instant 1000. *)
Definition db_3_7 : Db := (recordDonation empty_db 1000 (donation 10 [int 3; int 7])).1.

(** A settings row with a goal other than the default. *)
Definition db_goal_5000 : Db :=
  {| donations := donations db_3_7;
     donations_id_seq := donations_id_seq db_3_7;
     state := Some {| goal := 5000; bio := "hello" |} |}.

(** The default of [ADMIN_PASSWORD]. *)
Definition secret : string := "lilia#2024".

(** The object [{ toString: 1 }] of a JSON body. *)
Definition toString_1 : Atom :=
  Obj ("{" +:+ String dquote ("toString" +:+ String dquote ":1}")) true.

(** The ledger after two submissions of the largest amount the
    [integer] column takes. *)
Definition db_large : Db :=
  (recordDonation
     (recordDonation empty_db 1000 (donation 2147483647 [int 1])).1
     2000 (donation 2147483647 [int 2])).1.

(** *** Histories

    The requests that can change the database, and the database after
    a sequence of them; the two [GET] handlers change nothing. *)
Inductive Request :=
| Donate (now : Z) (req : DonationBody)
| UpdateState (x_admin_key : option string) (req : StateBody).

Definition step (ADMIN_PASSWORD : string) (db : Db) (r : Request) : Db :=
  match r with
  | Donate now req => (recordDonation db now req).1
  | UpdateState key req => (updateState ADMIN_PASSWORD db key req).1
  end.

Definition run (ADMIN_PASSWORD : string) (rs : list Request) : Db :=
  foldl (step ADMIN_PASSWORD) empty_db rs.

(** A donation request as the page sends it: when [numbers] is an
    array, its elements are integral Numbers. *)
Definition integral_numbers (r : Request) : Prop :=
  match r with
  | Donate _ req => forall l, b_numbers req = Arr l -> exists ns, l = map int ns
  | UpdateState _ _ => True
  end.

End Terms.

(** ** Vocabulary of the statements about histories *)

Module LedgerTerms.
Import Text JS PG Csv Server Terms.

(** No number of a record is held by a later record: the lists are
    pairwise disjoint. *)
Fixpoint disjoint_records (nss : list (list Z)) : Prop :=
  match nss with
  | [] => True
  | ns :: rest => Forall (fun n => n ∉ concat rest) ns /\ disjoint_records rest
  end.

(** The [id]s grow along the table, and none is beyond the sequence. *)
Fixpoint ids_increasing (bound : Z) (l : list Donation) : Prop :=
  match l with
  | [] => True
  | d :: r => Forall (fun x => id d < id x) r /\ id d <= bound /\ ids_increasing bound r
  end.

(** A donation as a visitor means it: an amount, the numbers claimed,
    the payment method and the donor's details, submitted at [p_now]. *)
Record Pledge := {
  p_now : Z;
  p_amount : Z;
  p_numbers : list Z;
  p_method : string;
  p_name : string;
  p_phone : string;
  p_address : string
}.

(** The JSON body for a pledge. *)
Definition body_of (p : Pledge) : DonationBody :=
  {| b_amount := Num (Int (p_amount p));
     b_numbers := Arr (map int (p_numbers p));
     b_method := Str (p_method p);
     b_donorName := Str (p_name p);
     b_donorPhone := Str (p_phone p);
     b_donorAddress := Str (p_address p) |}.

Definition request_of (p : Pledge) : Request := Donate (p_now p) (body_of p).

(** The pledge passes the four checks, its numbers fit [integer] and
    its donor texts are ones a [text] column stores: they hold no
    character U+0000. *)
Definition valid_pledge (p : Pledge) : Prop :=
  0 < p_amount p
  /\ p_numbers p <> []
  /\ Forall (fun n => in_int4 n = true) (p_numbers p)
  /\ p_method p ∈ methods
  /\ (p_name p <> EmptyString /\ contains nul (p_name p) = false)
  /\ (p_phone p <> EmptyString /\ contains nul (p_phone p) = false)
  /\ (p_address p <> EmptyString /\ contains nul (p_address p) = false).

(** The sum of the pledged amounts. *)
Definition pledged (ps : list Pledge) : Z := foldr Z.add 0 (map p_amount ps).

(** The numbers of a submission sent as decimal strings. *)
Definition as_strings (ns : list Z) : list Atom := map (fun n => Str (dec_Z n)) ns.

End LedgerTerms.

(** ** Vocabulary of the statements about the page *)

Module PageTerms.
Import Text JS PG Csv Server Terms LedgerTerms Page.

(** A run of white space and nothing else: characters of one byte
    ([w1]), of two ([w2]) or of three ([w3]). *)
Inductive white_run (w1 : ascii -> bool) (w2 : ascii -> ascii -> bool)
    (w3 : ascii -> ascii -> ascii -> bool) : string -> Prop :=
| run_end : white_run w1 w2 w3 EmptyString
| run_1 a s :
    w1 a = true -> white_run w1 w2 w3 s -> white_run w1 w2 w3 (String a s)
| run_2 a b s :
    w2 a b = true -> white_run w1 w2 w3 s -> white_run w1 w2 w3 (String a (String b s))
| run_3 a b c s :
    w3 a b c = true -> white_run w1 w2 w3 s ->
    white_run w1 w2 w3 (String a (String b (String c s))).

(** Nothing but white space, as JavaScript has it. *)
Definition blank (s : string) : Prop := white_run is_space white2 white3 s.

(** None of the characters [sanitizeInput] replaces. *)
Definition no_markup (s : string) : Prop :=
  contains "<" s = false /\ contains ">" s = false /\ contains dquote s = false
  /\ contains "'" s = false /\ contains "&" s = false.

(** Every character of the text passes the test. *)
Fixpoint all_chars (p : ascii -> bool) (s : string) : bool :=
  match s with
  | EmptyString => true
  | String c r => p c && all_chars p r
  end.

(** The characters of a list of decimal numerals: digits, the minus
    sign and the comma. *)
Definition numeral_char (c : ascii) : bool :=
  (if digit c is Some _ then true else false) || Ascii.eqb c "-" || Ascii.eqb c ",".

(** The body of a manual entry for the numbers [ns]. *)
Definition manual_entry (ns : list Z) : DonationBody :=
  {| b_amount := Num (Int (total ns));
     b_numbers := Arr (map int ns);
     b_method := Str "manual";
     b_donorName := Str "Manual Entry (Admin)";
     b_donorPhone := Str "N/A";
     b_donorAddress := Str "N/A" |}.

(** A number of the grid. *)
Definition on_the_grid (n : Z) : Prop := 1 <= n <= 80.

(** The selection after the buttons [clicks] were pressed in turn,
    starting with nothing selected. *)
Definition selection (donations : gset Z) (clicks : list Z) : list Z :=
  foldl (toggleNumber donations) [] clicks.

(** The bodies the page hands to [apiDonate]: the one of
    [confirmDonation], for a selection made on the grid and a modal
    that [processDonation] opened, and the one of
    [markNumbersAsDonated] in an unlocked admin panel. *)
Inductive sent_by_page : DonationBody -> Prop :=
| sent_confirm donations clicks pay name phone address shown req :
    Forall (fun n => n ∈ grid) clicks ->
    processDonation (selection donations clicks) pay = Some shown ->
    confirmDonation (selection donations clicks) pay name phone address = Some req ->
    sent_by_page req
| sent_manual text req :
    markNumbersAsDonated true text = Some req ->
    sent_by_page req.


End PageTerms.

(** * Properties *)

#[local] Arguments String.append : simpl nomatch.
#[local] Arguments JS.Number_toString : simpl never.

(** ** Decimal text is read back as the number it prints *)

Module TextFacts.
Import Text JS PG.

(** The conversions on the values the source comments on or the
    page sends. *)
Example Number_toString_examples :
  Number_toString (Int 70) = "70"
  /\ Number_toString (Int (-70)) = "-70"
  /\ Number_toString (Int (10 ^ 21)) = "1e+21"
  /\ Number_toString (Frac 127 1) = "12.7"
  /\ Number_toString (Frac 1 7) = "1e-7".
Proof. repeat split. Qed.

Example parseInt_examples :
  parseInt (Str "42") = Returns (Some 42)
  /\ parseInt (Str "  -12px") = Returns (Some (-12))
  /\ parseInt (Num (Frac 127 1)) = Returns (Some 12)
  /\ parseInt (Arr [Num (Int 42)]) = Returns (Some 42)
  /\ parseInt (Str "abc") = Returns None
  /\ parseInt Null = Returns None
  /\ parseInt (Str "0") = Returns (Some 0)
  /\ parseInt (Str "0x10") = Returns (Some 0)
  /\ parseInt (Str (String "194" (String "160" "42"))) = Returns (Some 42)
  /\ parseInt (Obj "{}" false) = Returns None
  /\ parseInt (Obj "{}" true) = Throws.
Proof. repeat split. Qed.

Example trim_examples :
  trim "  a b  " = "a b"
  /\ trim (String "194" (String "160" "abc")) = "abc"
  /\ trim (String "a" (String "226" (String "128" (String "168" " ")))) = "a"
  /\ trim (String "194" (String "160" " ")) = EmptyString
  /\ trim (String "160" "a") = String "160" "a".
Proof. repeat split. Qed.

Example string_to_array_examples :
  string_to_array "3,7" = ["3"; "7"]
  /\ string_to_array EmptyString = []
  /\ string_to_array "," = [EmptyString; EmptyString].
Proof. repeat split. Qed.

Example int4in_examples :
  int4in " 7 " = Ok 7
  /\ int4in "-2147483648" = Ok (-2147483648)
  /\ int4in "2147483648" = Rejected
  /\ int4in "1.5" = Rejected
  /\ int4in EmptyString = Rejected
  /\ int4in "0x10" = Ok 16
  /\ int4in "-0o17" = Ok (-15)
  /\ int4in "0b_101" = Ok 5
  /\ int4in "1_000" = Ok 1000
  /\ int4in "_1" = Rejected
  /\ int4in "1__0" = Rejected
  /\ int4in "1_" = Rejected
  /\ int4in "0x" = Rejected
  /\ int4in (String "194" (String "160" "7")) = Rejected.
Proof. repeat split. Qed.

Lemma digits_acc_uint d rest acc :
  digits_acc (NilEmpty.string_of_uint d +:+ rest) acc = digits_acc rest (uint_acc d acc).
Proof.
  revert acc. induction d; intros acc; simpl; try reflexivity; apply IHd.
Qed.

Lemma uint_acc_of_lu d d' :
  Z.of_N (DecimalPos.Unsigned.of_lu (Decimal.revapp d d')) = uint_acc d (Z.of_N (DecimalPos.Unsigned.of_lu d')).
Proof.
  revert d'. induction d; intros d'; simpl; try reflexivity;
    rewrite IHd; f_equal; simpl DecimalPos.Unsigned.of_lu; lia.
Qed.

Lemma uint_acc_to_uint n : uint_acc (N.to_uint n) 0 = Z.of_N n.
Proof.
  rewrite <- (DecimalN.Unsigned.of_to n) at 2.
  unfold N.of_uint. rewrite DecimalPos.Unsigned.of_uint_alt.
  unfold Decimal.rev. rewrite uint_acc_of_lu. reflexivity.
Qed.

Lemma digits_acc_dec n rest acc :
  acc = 0 -> digits_acc (dec n +:+ rest) acc = digits_acc rest (Z.of_N n).
Proof.
  intros ->. unfold dec. rewrite digits_acc_uint, uint_acc_to_uint. reflexivity.
Qed.

Lemma digit_not_special c v :
  digit c = Some v ->
  is_space c = false /\ c <> "-"%char /\ c <> "+"%char /\ c <> ","%char /\ c <> "."%char /\ c <> "e"%char.
Proof.
  destruct c as [[] [] [] [] [] [] [] []]; vm_compute; intros H;
    first [discriminate H | repeat split; discriminate].
Qed.

Lemma string_of_uint_head d :
  d <> Decimal.Nil ->
  exists c r v, NilEmpty.string_of_uint d = String c r /\ digit c = Some v.
Proof.
  destruct d; intros H; try congruence; simpl; eauto 10.
Qed.

Lemma to_uint_nonnil n : N.to_uint n <> Decimal.Nil.
Proof.
  destruct n; simpl; [discriminate | apply DecimalPos.Unsigned.to_uint_nonnil].
Qed.

Lemma dec_head n : exists c r v, dec n = String c r /\ digit c = Some v.
Proof. apply string_of_uint_head, to_uint_nonnil. Qed.

Lemma append_nil_r (s : string) : s +:+ "" = s.
Proof. induction s; simpl; congruence. Qed.

Lemma append_assoc (a b c : string) : (a +:+ b) +:+ c = a +:+ (b +:+ c).
Proof. induction a; simpl; congruence. Qed.

Lemma digits_us_uint d acc :
  digits_us digit 10 (NilEmpty.string_of_uint d) acc = Some (uint_acc d acc, EmptyString).
Proof.
  revert acc. induction d; intros acc; simpl; try reflexivity; apply IHd.
Qed.

Lemma int_literal_uint d :
  d <> Decimal.Nil ->
  int_literal (NilEmpty.string_of_uint d) = Some (uint_acc d 0, EmptyString).
Proof.
  intros Hd.
  assert (Hdec : decimal (NilEmpty.string_of_uint d) = Some (uint_acc d 0, EmptyString)).
  { destruct (string_of_uint_head d Hd) as (c & r & v & E & D).
    unfold decimal. rewrite E, D, <- E. apply digits_us_uint. }
  destruct d as [| d' | | | | | | | | |]; try congruence; try exact Hdec.
  destruct d'; exact Hdec.
Qed.

Lemma int_literal_dec n : int_literal (dec n) = Some (Z.of_N n, EmptyString).
Proof.
  unfold dec. rewrite int_literal_uint by apply to_uint_nonnil.
  now rewrite uint_acc_to_uint.
Qed.

Lemma read_digits_dec n : read_digits (dec n) = Some (Z.of_N n, EmptyString).
Proof.
  destruct (dec_head n) as (c & r & v & E & D).
  unfold read_digits. rewrite E, D, <- E.
  rewrite <- (append_nil_r (dec n)), digits_acc_dec by reflexivity. reflexivity.
Qed.

Lemma skip_space_dec n : skip_space (dec n) = dec n.
Proof.
  destruct (dec_head n) as (c & r & v & E & D). rewrite E. simpl.
  destruct (digit_not_special _ _ D) as (-> & _). reflexivity.
Qed.

Lemma read_sign_dec n : read_sign (dec n) = (false, dec n).
Proof.
  destruct (dec_head n) as (c & r & v & E & D). rewrite E.
  destruct (digit_not_special _ _ D) as (_ & Hm & Hp & _).
  unfold read_sign.
  destruct c as [[] [] [] [] [] [] [] []]; try reflexivity; contradiction.
Qed.

Lemma int4in_dec_Z z : int4in (dec_Z z) = to_int4 z.
Proof.
  unfold int4in, dec_Z. destruct (Z.ltb_spec z 0).
  - cbn [skip_space is_space]. change (is_space "-") with false. cbv iota.
    cbn [read_sign]. rewrite int_literal_dec. cbn [skip_space].
    f_equal. lia.
  - rewrite skip_space_dec, read_sign_dec, int_literal_dec. cbn [skip_space].
    f_equal. lia.
Qed.

Lemma int4in_point_or_e d x rest :
  x = "e"%char \/ x = "."%char ->
  int4in (String d (String x rest)) = Rejected /\
  int4in (String "-" (String d (String x rest))) = Rejected.
Proof.
  intros [-> | ->]; destruct d as [[] [] [] [] [] [] [] []]; split; reflexivity.
Qed.

Lemma int4in_exponent_form s n :
  int4in (exponent_form s n) = Rejected /\
  int4in ("-" +:+ exponent_form s n) = Rejected.
Proof.
  destruct s as [|d r]; [split; reflexivity|].
  unfold exponent_form. destruct r as [|c r]; simpl.
  - apply int4in_point_or_e. now left.
  - apply int4in_point_or_e. now right.
Qed.

Lemma Number_toString_small z :
  Z.abs z < 10 ^ 21 -> Number_toString (Int z) = dec_Z z.
Proof.
  intros H. unfold Number_toString.
  destruct (Z.ltb_spec (Z.abs z) (10 ^ 21)); [reflexivity | lia].
Qed.

Lemma in_int4_small z : in_int4 z = true -> Z.abs z < 10 ^ 21.
Proof.
  unfold in_int4, int4_min, int4_max. intros [?%Z.leb_le ?%Z.leb_le]%andb_true_iff.
  assert (2147483648 < 10 ^ 21) by reflexivity. lia.
Qed.

Lemma int4in_Number_toString z : int4in (Number_toString (Int z)) = to_int4 z.
Proof.
  unfold Number_toString. destruct (Z.ltb_spec (Z.abs z) (10 ^ 21)) as [H|H].
  - apply int4in_dec_Z.
  - unfold to_int4. destruct (in_int4 z) eqn:E.
    + apply in_int4_small in E. lia.
    + destruct (z <? 0); [apply int4in_exponent_form|].
      change ("" +:+ ?s) with s. apply int4in_exponent_form.
Qed.

(** Splitting at the separator undoes joining with it. *)

Lemma split_no_sep sep s : contains sep s = false -> split sep s = [s].
Proof.
  induction s as [|c r IH]; simpl; [reflexivity|].
  intros [Hc Hr]%orb_false_iff. rewrite Ascii.eqb_sym, Hc, (IH Hr). reflexivity.
Qed.

Lemma split_app sep s rest :
  contains sep s = false -> split sep (s +:+ String sep rest) = s :: split sep rest.
Proof.
  induction s as [|c r IH]; simpl.
  - intros _. rewrite Ascii.eqb_refl. reflexivity.
  - intros [Hc Hr]%orb_false_iff. rewrite Ascii.eqb_sym, Hc, (IH Hr). reflexivity.
Qed.

Lemma split_join sep l :
  l <> [] -> Forall (fun s => contains sep s = false) l ->
  split sep (join (String sep EmptyString) l) = l.
Proof.
  induction l as [|x [|y r] IH]; intros Hne Hall; [congruence | |].
  - simpl. apply split_no_sep. now inversion Hall.
  - inversion Hall as [|? ? Hx Hr]; subst.
    change (join (String sep "") (x :: y :: r))
      with (x +:+ String sep (join (String sep "") (y :: r))).
    rewrite split_app by assumption. f_equal. apply IH; [discriminate | assumption].
Qed.

End TextFacts.

(** ** Queries over rows that hold decimal integers *)

Module PGFacts.
Import Text JS PG Terms TextFacts.

Lemma bind_Ok {A B} (r : Result A) (f : A -> Result B) b :
  (x ← r; f x) = Ok b <-> exists a, r = Ok a /\ f a = Ok b.
Proof.
  destruct r as [a|]; simpl; split.
  - eauto.
  - now intros (a' & [= <-] & H).
  - discriminate.
  - now intros (a' & [=] & _).
Qed.

Lemma traverse_Forall2 {A B} (f : A -> Result B) l r :
  traverse f l = Ok r <-> Forall2 (fun a b => f a = Ok b) l r.
Proof.
  revert r. induction l as [|a l IH]; intros r; simpl.
  - split; [intros [= <-]; constructor | now inversion 1].
  - rewrite bind_Ok. split.
    + intros (b & Hb & (bs & Hbs & [= <-])%bind_Ok). constructor; [assumption | now apply IH].
    + inversion 1 as [|? b ? bs Hb Hbs]; subst. exists b. split; [assumption|].
      apply bind_Ok. exists bs. split; [now apply IH | reflexivity].
Qed.

Lemma traverse_map_Ok {A B} (f : A -> Result B) (g : B -> A) l :
  Forall (fun b => f (g b) = Ok b) l -> traverse f (map g l) = Ok l.
Proof.
  induction 1 as [|b l Hb _ IH]; simpl; [reflexivity|].
  rewrite Hb. simpl. rewrite IH. reflexivity.
Qed.

Lemma to_int4_Ok z z' : to_int4 z = Ok z' <-> in_int4 z = true /\ z' = z.
Proof.
  unfold to_int4. destruct (in_int4 z); split; try discriminate.
  - now intros [= <-].
  - now intros [_ ->].
  - now intros [? _].
Qed.

Lemma contains_comma_uint d : contains "," (NilEmpty.string_of_uint d) = false.
Proof. induction d; simpl; auto. Qed.

Lemma contains_comma_dec_Z z : contains "," (dec_Z z) = false.
Proof.
  unfold dec_Z, dec. destruct (z <? 0); simpl; apply contains_comma_uint.
Qed.

Lemma dec_Z_nonempty z : dec_Z z <> EmptyString.
Proof.
  unfold dec_Z. destruct (z <? 0); [discriminate|].
  destruct (dec_head (Z.abs_N z)) as (c & r & v & -> & _). discriminate.
Qed.

Lemma join_nonempty sep x l : x <> EmptyString -> join sep (x :: l) <> EmptyString.
Proof.
  destruct x; [congruence|]. destruct l; simpl; discriminate.
Qed.

(** [string_to_array] gives back the numerals a comma-join was made of. *)
Lemma string_to_array_join ns :
  string_to_array (join "," (map dec_Z ns)) = map dec_Z ns.
Proof.
  destruct ns as [|n ns]; [reflexivity|].
  unfold string_to_array.
  destruct (join "," (map dec_Z (n :: ns))) eqn:E.
  - exfalso. revert E. apply join_nonempty, dec_Z_nonempty.
  - rewrite <- E. apply split_join; [discriminate|].
    apply List.Forall_forall. intros t (z & <- & _)%in_map_iff. apply contains_comma_dec_Z.
Qed.

Lemma existsb_throws_ints ns : existsb throws (map int ns) = false.
Proof. induction ns as [|n ns IH]; [reflexivity | exact IH]. Qed.

Lemma Array_join_ints ns :
  Forall (fun n => in_int4 n = true) ns ->
  Array_join "," (map int ns) = Returns (join "," (map dec_Z ns)).
Proof.
  intros H. unfold Array_join. rewrite existsb_throws_ints. do 2 f_equal.
  rewrite map_map.
  apply map_ext_in. intros n Hn. rewrite List.Forall_forall in H.
  simpl. apply Number_toString_small, in_int4_small, H, Hn.
Qed.

(** What the array parameter of the conflict query is for a list of
    integral Numbers: they must all fit [integer]. *)
Lemma int_array_param_ints ns arr :
  int_array_param (map int ns) = Ok arr <->
  Forall (fun n => in_int4 n = true) ns /\ arr = map Some ns.
Proof.
  unfold int_array_param. rewrite traverse_Forall2.
  revert arr. induction ns as [|n ns IH]; intros arr; simpl.
  - split; [inversion 1; now split | intros [_ ->]; constructor].
  - split.
    + inversion 1 as [|? b ? bs Hb Hbs]; subst.
      apply IH in Hbs as [Hns ->].
      cbn in Hb. rewrite int4in_Number_toString in Hb.
      destruct (to_int4 n) as [z|] eqn:E; [|discriminate].
      apply to_int4_Ok in E as [E ->]. injection Hb as <-. split; [constructor|]; auto.
    + intros [Hall ->]. inversion Hall as [|? ? Hn Hns]; subst.
      constructor; [|apply IH; now split].
      cbn. rewrite int4in_Number_toString. unfold to_int4. rewrite Hn. reflexivity.
Qed.

(** A row that holds integers unnests to them. *)
Lemma unnest_numbers_join d ns :
  numbers d = join "," (map dec_Z ns) ->
  Forall (fun n => in_int4 n = true) ns ->
  unnest_numbers d = Ok ns.
Proof.
  intros E H. unfold unnest_numbers. rewrite E, string_to_array_join.
  apply traverse_map_Ok. eapply Forall_impl; [exact H|].
  intros n Hn. simpl in Hn. rewrite int4in_dec_Z. unfold to_int4. now rewrite Hn.
Qed.

Lemma ledger_holds_numbers db nss : ledger_holds db nss -> ledger_numbers db nss.
Proof.
  unfold ledger_holds, ledger_numbers. intros H.
  eapply Forall2_impl; [exact H|].
  intros d ns [E Hn]. now apply unnest_numbers_join.
Qed.

(** A string goes into a [text] column unless it holds U+0000. *)
Lemma text_param_Str s : contains nul s = false -> text_param (Str s) = Ok s.
Proof. intros H. unfold text_param. simpl. now rewrite H. Qed.

Lemma text_param_Str_inv s t : text_param (Str s) = Ok t -> t = s /\ contains nul s = false.
Proof.
  unfold text_param. simpl. destruct (contains nul s); [discriminate|].
  now intros [= <-].
Qed.

Lemma free_text_param v :
  free_text v -> exists s, v = Atomic (Str s) /\ text_param v = Ok s /\ truthy v = true.
Proof.
  intros (s & -> & Hne & Hnul). exists s. split; [reflexivity|].
  split; [now apply text_param_Str|]. now destruct s.
Qed.

End PGFacts.

(** ** The ledger: [GET /api/state] and [POST /api/donations] *)

Module Ledger.
Import Text JS PG Server Terms TextFacts PGFacts.

(** Case analysis on the three field checks of [recordDonation], in
    the order they run; [tac] closes the goal of a failed check. *)
Ltac field_checks tac :=
  match goal with
  | |- context [negb (Number_isInteger ?a) || le_zero ?a] =>
      destruct (negb (Number_isInteger a) || le_zero a); [tac|]
  end;
  match goal with
  | |- context [negb (includes methods ?m)] =>
      destruct (negb (includes methods m)); [tac|]
  end;
  match goal with
  | |- context [negb (truthy ?n) || negb (truthy ?p) || negb (truthy ?d)] =>
      destruct (negb (truthy n) || negb (truthy p) || negb (truthy d)); [tac|]
  end.

(** [recordDonation] by cases on [numbers]: the first check passes
    exactly for a non-empty array, and the conflict test for a
    non-empty list of conflicts. *)
Lemma recordDonation_cases db now req :
  recordDonation db now req =
  match b_numbers req with
  | Arr ((_ :: _) as numbers) =>
      if negb (Number_isInteger (b_amount req)) || le_zero (b_amount req)
      then (db, Reply 400 (BError "invalid amount"))
      else if negb (includes methods (b_method req))
      then (db, Reply 400 (BError "invalid method"))
      else if negb (truthy (b_donorName req)) || negb (truthy (b_donorPhone req))
              || negb (truthy (b_donorAddress req))
      then (db, Reply 400 (BError "donor info required"))
      else
        match select_conflicts db numbers with
        | Rejected => (db, server_error)
        | Ok rows =>
            match List.filter (has (list_to_set rows)) numbers with
            | (_ :: _) as conflicts =>
                (db, Reply 409 (BConflict "numbers already taken" conflicts))
            | [] =>
                match Array_join "," numbers with
                | Throws => (db, server_error)
                | Returns csv =>
                    match insert_donation db now (b_amount req)
                            (Str csv) (b_method req)
                            (b_donorName req) (b_donorPhone req) (b_donorAddress req) with
                    | Rejected => (db, server_error)
                    | Ok db' => (db', Reply 201 BOk)
                    end
                end
            end
        end
  | _ => (db, Reply 400 (BError "numbers[] required"))
  end.
Proof.
  unfold recordDonation.
  destruct (b_numbers req) as [a|[|a l]]; try reflexivity.
  cbn [Array_isArray elements_of length Nat.eqb negb orb].
  field_checks ltac:(reflexivity).
  destruct (select_conflicts db (a :: l)); [|reflexivity].
  destruct (List.filter _ _); reflexivity.
Qed.

Lemma e_ledger db nss : ledger_numbers db nss -> e db = Ok (concat nss).
Proof.
  intros H. unfold e. apply traverse_Forall2 in H. rewrite H. reflexivity.
Qed.

Lemma list_to_set_concat (nss : list (list Z)) :
  list_to_set (concat nss) =@{gset Z} ⋃ (list_to_set <$> nss).
Proof.
  induction nss as [|ns nss IH]; simpl; [reflexivity|].
  rewrite list_to_set_app_L, IH. reflexivity.
Qed.

Lemma amount_check_passes v :
  positive_integer v -> negb (Number_isInteger v) || le_zero v = false.
Proof.
  intros (z & -> & Hz). simpl. apply Z.leb_gt. exact Hz.
Qed.

Lemma amount_check_fails v :
  ~ positive_integer v -> negb (Number_isInteger v) || le_zero v = true.
Proof.
  intros H. destruct v as [[| | |[z|]| |]|]; try reflexivity.
  simpl. apply Z.leb_le. destruct (Z.le_gt_cases z 0); [assumption|].
  exfalso. apply H. exists z. split; [reflexivity | lia].
Qed.

Lemma method_check_passes v : known_method v -> negb (includes methods v) = false.
Proof.
  intros (m & -> & Hm). simpl. rewrite bool_decide_eq_true_2; auto.
Qed.

Lemma method_check_fails v : ~ known_method v -> negb (includes methods v) = true.
Proof.
  intros H. destruct v as [[| | | |m|]|]; try reflexivity.
  simpl. rewrite bool_decide_eq_false_2; [reflexivity|].
  intros Hm. apply H. now exists m.
Qed.

(** The conflict list of the handler, for a submission of integral
    Numbers: those of them that some stored record holds. *)
Lemma has_filter (S : gset Z) ns :
  List.filter (has S) (map int ns) = map int (filter (.∈ S) ns).
Proof.
  induction ns as [|n ns IH]; [reflexivity|].
  simpl. rewrite filter_cons. unfold bool_decide.
  destruct (decide_rel elem_of n S), (decide (n ∈ S)); try contradiction;
    simpl; now rewrite IH.
Qed.

Lemma filter_agree {A} (P Q : A -> Prop) `{!forall x, Decision (P x)}
    `{!forall x, Decision (Q x)} (l : list A) :
  (forall x, x ∈ l -> P x <-> Q x) -> filter P l = filter Q l.
Proof.
  induction l as [|x l IH]; intros Hag; [reflexivity|].
  rewrite !filter_cons.
  assert (Hx : P x <-> Q x) by (apply Hag; left).
  assert (Hl : filter P l = filter Q l) by (apply IH; intros y Hy; apply Hag; now right).
  destruct (decide (P x)), (decide (Q x)); try tauto; now rewrite Hl.
Qed.

Lemma conflicts_are_overlap taken ns :
  List.filter (has (list_to_set (List.filter (fun n => eq_any n (map Some ns)) taken)))
    (map int ns)
  = map int (filter (.∈ taken) ns).
Proof.
  rewrite has_filter. f_equal. apply filter_agree. intros n Hn.
  rewrite elem_of_list_to_set, list_elem_of_In, filter_In, <- list_elem_of_In.
  unfold eq_any. rewrite bool_decide_eq_true. split; [tauto|].
  intros H. split; [assumption|]. apply list_elem_of_fmap. now exists n.
Qed.

Lemma select_conflicts_ints db ns taken :
  Forall (fun n => in_int4 n = true) ns ->
  e db = Ok taken ->
  select_conflicts db (map int ns)
  = Ok (List.filter (fun n => eq_any n (map Some ns)) taken).
Proof.
  intros Hns He. unfold select_conflicts.
  assert (int_array_param (map int ns) = Ok (map Some ns)) as ->
    by now apply int_array_param_ints.
  simpl. rewrite He. reflexivity.
Qed.

Lemma total_amount_app l d : total_amount (l ++ [d]) = total_amount l + amount d.
Proof.
  unfold total_amount. rewrite map_app, foldr_app. simpl.
  induction (map amount l) as [|x xs IH]; simpl; lia.
Qed.

Lemma getState_ledger db nss :
  ledger_numbers db nss ->
  in_int4 (total_amount (donations db)) = true ->
  in_int4 (Z.of_nat (length (donations db))) = true ->
  getState db
  = Reply 200 (BState (total_amount (donations db))
                      (Z.of_nat (length (donations db)))
                      (from_option goal 3500 (state db))
                      (from_option bio EmptyString (state db))
                      (elements (list_to_set (concat nss) : gset Z))).
Proof.
  intros Hl Hsum Hcount.
  unfold getState, select_totals, select_taken, to_int4.
  fold (total_amount (donations db)).
  rewrite Hsum, Hcount, (e_ledger _ _ Hl). simpl.
  destruct (state db); reflexivity.
Qed.

(** C2, as the code has it.  For a ledger whose records hold
    comma-joined integers of the 32-bit range, with a sum of amounts
    and a count that fit the [integer] the query casts them to,
    [getState] answers 200 with [raised] the sum of the amounts (0 for
    an empty ledger), [donationCount] the number of records,
    [takenNumbers] a duplicate-free list whose set is the union of the
    records' number sets, and [goal] and [bio] those of the settings
    row, or 3500 and the empty string when that row is absent. *)
Theorem getState_aggregates (db : Db) (nss : list (list Z)) :
  ledger_holds db nss ->
  in_int4 (total_amount (donations db)) = true ->
  in_int4 (Z.of_nat (length (donations db))) = true ->
  exists taken,
    getState db
    = Reply 200 (BState (total_amount (donations db))
                        (Z.of_nat (length (donations db)))
                        (from_option goal 3500 (state db))
                        (from_option bio EmptyString (state db))
                        taken)
    /\ NoDup taken
    /\ list_to_set taken =@{gset Z} ⋃ (list_to_set <$> nss)
    /\ (donations db = [] -> total_amount (donations db) = 0)
    /\ (state db = None ->
        from_option goal 3500 (state db) = 3500 /\
        from_option bio EmptyString (state db) = EmptyString).
Proof.
  intros Hl%ledger_holds_numbers Hsum Hcount.
  exists (elements (list_to_set (concat nss) : gset Z)).
  split; [now apply getState_ledger|].
  split; [apply NoDup_elements|].
  split; [rewrite list_to_set_elements_L; apply list_to_set_concat|].
  split; [now intros -> | now intros ->].
Qed.

(** C1, as the code has it.  Over a ledger whose records hold
    comma-joined integers of the 32-bit range, when the numbers of a
    request are integers of that range and a stored record holds at
    least one of them, nothing is written, whatever the other fields
    are, so [getState] answers as before; and the request, once past
    the field checks that run first, is answered 409 with [conflicts]
    the submitted numbers that some stored record holds, in the order
    submitted. *)
Theorem recordDonation_conflict (db : Db) (now : Z) (req : DonationBody)
    (ns : list Z) (nss : list (list Z)) :
  b_numbers req = Arr (map int ns) ->
  Forall (fun n => in_int4 n = true) ns ->
  ledger_holds db nss ->
  (exists n, n ∈ ns /\ n ∈ concat nss) ->
  (recordDonation db now req).1 = db
  /\ getState (recordDonation db now req).1 = getState db
  /\ (passes_field_checks req ->
      (recordDonation db now req).2
      = Reply 409 (BConflict "numbers already taken"
                     (map int (filter (.∈ concat nss) ns))))
  /\ (forall n, n ∈ filter (.∈ concat nss) ns <->
                n ∈ ns /\ exists l, l ∈ nss /\ n ∈ l).
Proof.
  intros Hnum Hns Hl%ledger_holds_numbers (n & Hn & Hc).
  assert (E : (recordDonation db now req).1 = db /\
              (passes_field_checks req ->
               (recordDonation db now req).2
               = Reply 409 (BConflict "numbers already taken"
                              (map int (filter (.∈ concat nss) ns))))).
  { rewrite recordDonation_cases. rewrite Hnum.
    destruct ns as [|n0 ns0]; [now apply elem_of_nil in Hn|].
    cbn [map].
    destruct (negb (Number_isInteger (b_amount req)) || le_zero (b_amount req)) eqn:Ea.
    { split; [reflexivity|]. intros (Ha & _). rewrite (amount_check_passes _ Ha) in Ea.
      discriminate. }
    destruct (negb (includes methods (b_method req))) eqn:Em.
    { split; [reflexivity|]. intros (_ & Hm & _). rewrite (method_check_passes _ Hm) in Em.
      discriminate. }
    destruct (negb (truthy (b_donorName req)) || negb (truthy (b_donorPhone req))
              || negb (truthy (b_donorAddress req))) eqn:Ed.
    { split; [reflexivity|]. intros (_ & _ & Hdn & Hdp & Hda).
      rewrite Hdn, Hdp, Hda in Ed. discriminate. }
    change (int n0 :: map int ns0) with (map int (n0 :: ns0)).
    rewrite (select_conflicts_ints _ _ _ Hns (e_ledger _ _ Hl)), conflicts_are_overlap.
    assert (Hin : n ∈ filter (.∈ concat nss) (n0 :: ns0))
      by (apply list_elem_of_filter; now split).
    destruct (filter (.∈ concat nss) (n0 :: ns0)) as [|c cs];
      [now apply elem_of_nil in Hin | now split]. }
  destruct E as [E1 E2].
  split; [exact E1|]. split; [now rewrite E1|]. split; [exact E2|].
  intros m. rewrite list_elem_of_filter, (list_elem_of_In (concat nss) m), in_concat.
  setoid_rewrite <- list_elem_of_In. tauto.
Qed.

Lemma contains_nul_uint d : contains nul (NilEmpty.string_of_uint d) = false.
Proof. induction d; simpl; auto. Qed.

Lemma contains_nul_dec_Z z : contains nul (dec_Z z) = false.
Proof.
  unfold dec_Z, dec. destruct (z <? 0); simpl; apply contains_nul_uint.
Qed.

Lemma contains_append c s t : contains c (s +:+ t) = contains c s || contains c t.
Proof.
  induction s as [|d s IH]; simpl; [reflexivity|]. now rewrite IH, orb_assoc.
Qed.

Lemma contains_join c sep l :
  contains c sep = false ->
  Forall (fun s => contains c s = false) l ->
  contains c (join sep l) = false.
Proof.
  intros Hsep. induction 1 as [|s l Hs Hl IH]; [reflexivity|].
  destruct l as [|t l]; [exact Hs|].
  change (join sep (s :: t :: l)) with (s +:+ sep +:+ join sep (t :: l)).
  now rewrite !contains_append, Hs, Hsep, IH.
Qed.

Lemma contains_nul_numerals ns : contains nul (join "," (map dec_Z ns)) = false.
Proof.
  apply contains_join; [reflexivity|]. apply List.Forall_forall.
  intros s (z & <- & _)%in_map_iff. apply contains_nul_dec_Z.
Qed.

Lemma methods_no_nul m : m ∈ methods -> contains nul m = false.
Proof.
  unfold methods. rewrite !elem_of_cons, elem_of_nil.
  intros [->|[->|[->|[->|[->|[]]]]]]; reflexivity.
Qed.

Lemma valid_fields_checks req : valid_fields req -> passes_field_checks req.
Proof.
  intros (Ha & Hm & (n & _ & _ & Hn)%free_text_param & (p & _ & _ & Hp)%free_text_param
          & (a & _ & _ & Hd)%free_text_param).
  split; [exact Ha|]. split; [exact Hm|]. now repeat split.
Qed.

Lemma free_text_Str s : s <> EmptyString -> contains nul s = false -> free_text (Str s).
Proof. intros H1 H2. now exists s. Qed.

Lemma valid_fields_donation a l : 0 < a -> valid_fields (donation a l).
Proof.
  intros Ha. split; [now exists a|].
  split; [exists "venmo"; split; [reflexivity | apply (bool_decide_unpack _); reflexivity]|].
  repeat split; now apply free_text_Str.
Qed.

(** An insertion of an amount that fits, a text of numbers without
    U+0000, a known method and donor texts: the row that is written. *)
Lemma insert_donation_Ok db now a csv m tn tp ta :
  in_int4 a = true ->
  contains nul csv = false ->
  m ∈ methods ->
  contains nul tn = false -> contains nul tp = false -> contains nul ta = false ->
  insert_donation db now (Num (Int a)) (Str csv) (Str m) (Str tn) (Str tp) (Str ta)
  = Ok {| donations := donations db ++
            [{| id := donations_id_seq db + 1; amount := a; numbers := csv;
                method := m; donor_name := tn; donor_phone := tp;
                donor_address := ta; created_at := now |}];
          donations_id_seq := donations_id_seq db + 1;
          state := state db |}.
Proof.
  intros Ha Hcsv Hm%methods_no_nul Hn Hp Hd.
  unfold insert_donation, int_param. cbn [prepareValue prepareAtom Atom_toString].
  rewrite int4in_Number_toString. unfold to_int4.
  rewrite Ha, !text_param_Str by assumption. reflexivity.
Qed.

(** What an insertion that is not refused wrote. *)
Lemma insert_donation_inv db now va vcsv vm vn vp vd db' :
  insert_donation db now va (Str vcsv) vm vn vp vd = Ok db' ->
  exists row,
    db' = {| donations := donations db ++ [row];
             donations_id_seq := donations_id_seq db + 1;
             state := state db |}
    /\ id row = donations_id_seq db + 1
    /\ int_param va = Ok (amount row)
    /\ numbers row = vcsv
    /\ text_param vm = Ok (method row)
    /\ text_param vn = Ok (donor_name row)
    /\ text_param vp = Ok (donor_phone row)
    /\ text_param vd = Ok (donor_address row)
    /\ created_at row = now.
Proof.
  unfold insert_donation.
  intros (a & Ha & (ns & Hns & (m & Hm & (dn & Hdn & (dp & Hdp & (da & Hda & [= <-])
    %bind_Ok)%bind_Ok)%bind_Ok)%bind_Ok)%bind_Ok)%bind_Ok.
  apply text_param_Str_inv in Hns as [-> _].
  eexists. split; [reflexivity|]. cbn. repeat split; assumption.
Qed.

(** What one submission does: nothing, with an answer other than
    201, or one row at the end of the table with the next [id], after
    a conflict query that found none of the elements. *)
Lemma recordDonation_effect db now req :
  ((recordDonation db now req).1 = db /\ status (recordDonation db now req).2 <> 201)
  \/ exists row rows,
       recordDonation db now req
       = ({| donations := donations db ++ [row];
             donations_id_seq := donations_id_seq db + 1;
             state := state db |}, Reply 201 BOk)
       /\ select_conflicts db (elements_of (b_numbers req)) = Ok rows
       /\ List.filter (has (list_to_set rows)) (elements_of (b_numbers req)) = []
       /\ id row = donations_id_seq db + 1
       /\ int_param (b_amount req) = Ok (amount row)
       /\ Array_join "," (elements_of (b_numbers req)) = Returns (numbers row)
       /\ text_param (b_method req) = Ok (method row)
       /\ text_param (b_donorName req) = Ok (donor_name row)
       /\ text_param (b_donorPhone req) = Ok (donor_phone row)
       /\ text_param (b_donorAddress req) = Ok (donor_address row)
       /\ created_at row = now.
Proof.
  rewrite recordDonation_cases.
  destruct (b_numbers req) as [a|[|a l]]; try (left; split; [reflexivity|cbn; lia]).
  field_checks ltac:(left; split; [reflexivity|cbn; lia]).
  cbn [elements_of].
  destruct (select_conflicts db (a :: l)) as [rows|]; [|left; split; [reflexivity|cbn; lia]].
  destruct (List.filter _ _) eqn:Hf; [|left; split; [reflexivity|cbn; lia]].
  destruct (Array_join "," (a :: l)) as [csv|]; [|left; split; [reflexivity|cbn; lia]].
  destruct (insert_donation _ _ _ _ _ _ _ _) as [db'|] eqn:Hi;
    [|left; split; [reflexivity|cbn; lia]].
  right. apply insert_donation_inv in Hi as (row & -> & H1 & H2 & <- & H).
  exists row, rows. split; [reflexivity|]. split; [reflexivity|]. split; [exact Hf|].
  split; [exact H1|]. split; [exact H2|]. split; [reflexivity | exact H].
Qed.

(** A 201 for integral Numbers: none of them is held by the rows the
    conflict query read, and all fit [integer]. *)
Lemma recordDonation_201_ints db now req ns :
  b_numbers req = Arr (map int ns) ->
  status (recordDonation db now req).2 = 201 ->
  ns <> [] /\ Forall (fun n => in_int4 n = true) ns.
Proof.
  intros Hnum H201.
  destruct (recordDonation_effect db now req) as [[_ Hno]|(row & rows & _ & Hq & _)];
    [contradiction|].
  rewrite Hnum in Hq. cbn [elements_of] in Hq.
  unfold select_conflicts in Hq. apply bind_Ok in Hq as (arr & Harr & _).
  apply int_array_param_ints in Harr as [Hns _]. split; [|exact Hns].
  intros ->. revert H201. rewrite recordDonation_cases. rewrite Hnum. discriminate.
Qed.

(** The scenario of the specification: the first submission is
    recorded, the state shows it, and a second submission that shares
    the number 7 is refused with exactly that number. *)
Example scenario :
  recordDonation empty_db 1000 (donation 10 [int 3; int 7]) = (db_3_7, Reply 201 BOk)
  /\ (exists taken, getState db_3_7 = Reply 200 (BState 10 1 3500 default_bio taken)
                    /\ list_to_set taken =@{gset Z} {[3; 7]})
  /\ recordDonation db_3_7 2000 (donation 16 [int 7; int 9])
     = (db_3_7, Reply 409 (BConflict "numbers already taken" [int 7])).
Proof.
  split; [reflexivity|]. split; [|reflexivity].
  eexists. split; [reflexivity|]. apply set_eq. intros x. set_solver.
Qed.

Lemma getState_aggregates_witness :
  exists taken,
    getState db_3_7
    = Reply 200 (BState 10 1 3500 default_bio taken)
    /\ NoDup taken
    /\ list_to_set taken =@{gset Z} ⋃ (list_to_set <$> [[3; 7]]).
Proof.
  destruct (getState_aggregates db_3_7 [[3; 7]]) as (taken & H1 & H2 & H3 & _).
  - repeat constructor.
  - reflexivity.
  - reflexivity.
  - exists taken. repeat split; assumption.
Defined.

(** C2 fails as stated: after two donations of 2147483647 the sum no
    longer fits the [integer] the query casts it to, and after a
    donation of two [null]s a row does not unnest; both ledgers are
    written by the handler itself, and [getState] answers 500. *)
Lemma getState_rejects :
  length (donations db_large) = 2%nat
  /\ getState db_large = server_error
  /\ (recordDonation db_3_7 2000 (donation 5 [Null; Null])).2 = Reply 201 BOk
  /\ getState (recordDonation db_3_7 2000 (donation 5 [Null; Null])).1 = server_error.
Proof. repeat split. Qed.

Lemma recordDonation_conflict_witness :
  recordDonation db_3_7 2000 (donation 16 [int 7; int 9])
  = (db_3_7, Reply 409 (BConflict "numbers already taken" [int 7])).
Proof.
  destruct (recordDonation_conflict db_3_7 2000 (donation 16 [int 7; int 9])
              [7; 9] [[3; 7]] eq_refl) as (H1 & _ & H2 & _).
  - repeat constructor.
  - repeat constructor.
  - exists 7. split; set_solver.
  - apply injective_projections; [exact H1|]. apply H2.
    unfold passes_field_checks, positive_integer, known_method; simpl.
    repeat split; eauto. exists 16; split; [reflexivity | lia].
    exists "venmo"; split; [reflexivity | set_solver].
Defined.

(** C1 fails as stated: with the taken number 7 and a second number
    beyond the 32-bit range the conflict query rejects and the answer
    is 500, and the taken number sent as a string is recorded. *)
Lemma conflict_not_reported :
  recordDonation db_3_7 2000 (donation 7 [int 7; int 2147483648]) = (db_3_7, server_error)
  /\ (recordDonation db_3_7 2000 (donation 7 [Str "7"])).2 = Reply 201 BOk
  /\ length (donations (recordDonation db_3_7 2000 (donation 7 [Str "7"])).1) = 2%nat.
Proof. repeat split. Qed.

(** C3, as the code has it.  A request whose [numbers] field is not a
    non-empty array (absent, not an array, or an empty array) is
    answered 400 and nothing is written.  The elements of a non-empty
    array are not inspected by the handler. *)
Theorem recordDonation_numbers_required (db : Db) (now : Z) (req : DonationBody) :
  ~ nonempty_array (b_numbers req) ->
  recordDonation db now req = (db, Reply 400 (BError "numbers[] required")).
Proof.
  intros H. rewrite recordDonation_cases.
  destruct (b_numbers req) as [a|[|a l]]; try reflexivity.
  exfalso. apply H. now exists a, l.
Qed.

Lemma recordDonation_numbers_required_witness :
  recordDonation empty_db 0 (donation 10 [])
  = (empty_db, Reply 400 (BError "numbers[] required")).
Proof.
  apply recordDonation_numbers_required.
  intros (a & l & [=]).
Defined.

(** C3 fails as stated: an array holding the string ["7"] is accepted
    and a record is written, and an array holding 1.5 makes the array
    parameter of the conflict query fail, which is answered 500. *)
Lemma non_integer_element_not_rejected :
  recordDonation empty_db 0 (donation 7 [Str "7"])
  = ({| donations := [{| id := 1; amount := 7; numbers := "7"; method := "venmo";
                         donor_name := "A"; donor_phone := "1"; donor_address := "X";
                         created_at := 0 |}];
        donations_id_seq := 1;
        state := state empty_db |}, Reply 201 BOk)
  /\ recordDonation empty_db 0 (donation 7 [Num (Frac 15 1)]) = (empty_db, server_error).
Proof. split; reflexivity. Qed.

(** What a 201 means for a submission of integral Numbers: one row is
    appended, the numbers fit [integer], and the row holds them. *)
Lemma recordDonation_recorded db db' now req ns :
  b_numbers req = Arr (map int ns) ->
  recordDonation db now req = (db', Reply 201 BOk) ->
  exists row,
    donations db' = donations db ++ [row]
    /\ state db' = state db
    /\ holds row ns
    /\ unnest_numbers row = Ok ns
    /\ ns <> [].
Proof.
  intros Hnum E.
  destruct (recordDonation_201_ints db now req ns Hnum) as [Hne Hns]; [now rewrite E|].
  destruct (recordDonation_effect db now req)
    as [[_ Hno]|(row & rows & E' & _ & _ & _ & _ & Hj & _)].
  { rewrite E in Hno. now contradiction Hno. }
  rewrite E in E'. injection E' as ->.
  rewrite Hnum in Hj. cbn [elements_of] in Hj. rewrite (Array_join_ints _ Hns) in Hj.
  injection Hj as Hj.
  exists row. split; [reflexivity|]. split; [reflexivity|].
  split; [now split|]. split; [now apply unnest_numbers_join | exact Hne].
Qed.

(** Only a 201 changes the database. *)
Lemma recordDonation_unchanged db now req :
  status (recordDonation db now req).2 <> 201 -> (recordDonation db now req).1 = db.
Proof.
  destruct (recordDonation_effect db now req) as [[E _]|(row & rows & E & _)];
    [now intros _|].
  rewrite E. intros H. now contradiction H.
Qed.

(** Submissions of integral Numbers keep the ledger one whose rows
    unnest. *)
Lemma ledger_numbers_kept db now req ns nss :
  b_numbers req = Arr (map int ns) ->
  ledger_numbers db nss ->
  exists nss', ledger_numbers (recordDonation db now req).1 nss'.
Proof.
  intros Hnum Hl.
  destruct (recordDonation_effect db now req) as [[E _]|(row & rows & E & _)].
  - rewrite E. now exists nss.
  - destruct (recordDonation_recorded db _ now req ns Hnum E)
      as (row' & Hrow & _ & _ & Hun & _).
    exists (nss ++ [ns]). rewrite E. unfold ledger_numbers. cbn [fst]. rewrite Hrow.
    apply Forall2_app; [exact Hl|]. now constructor.
Qed.

(** No submission touches the settings row. *)
Lemma recordDonation_state db now req :
  state (recordDonation db now req).1 = state db.
Proof.
  destruct (recordDonation_effect db now req) as [[E _]|(row & rows & E & _)];
    now rewrite E.
Qed.

(** Elements that are not numbers are not refused either, and a row
    written from two [null]s does not unnest: the number queries
    reject from then on.  This is why the statements about [getState]
    ask for a ledger whose rows unnest. *)
Example null_elements_recorded :
  (recordDonation db_3_7 2000 (donation 5 [Null; Null])).2 = Reply 201 BOk
  /\ getState (recordDonation db_3_7 2000 (donation 5 [Null; Null])).1 = server_error.
Proof. split; reflexivity. Qed.

(** C4 fails as stated: the number 100 is recorded. *)
Lemma out_of_range_number_recorded :
  exists row,
    recordDonation empty_db 0 (donation 100 [int 100])
    = ({| donations := [row]; donations_id_seq := 1; state := state empty_db |},
       Reply 201 BOk)
    /\ unnest_numbers row = Ok [100]
    /\ ~ (1 <= 100 <= 80).
Proof.
  eexists. split; [reflexivity|]. split; [reflexivity | lia].
Qed.

(** C4, as the code has it.  When a request whose numbers are integers
    is recorded, one row is appended, and the integers its [numbers]
    column holds are the submitted ones, a non-empty list: they lie in
    the range 1 to 80 exactly when the submitted numbers do, as the
    handler checks no range. *)
Theorem recordDonation_stores_submitted (db db' : Db) (now : Z)
    (req : DonationBody) (ns : list Z) :
  b_numbers req = Arr (map int ns) ->
  recordDonation db now req = (db', Reply 201 BOk) ->
  exists row,
    donations db' = donations db ++ [row]
    /\ unnest_numbers row = Ok ns
    /\ ns <> []
    /\ (Forall (fun n => 1 <= n <= 80) ns <->
        forall stored n, unnest_numbers row = Ok stored -> n ∈ stored -> 1 <= n <= 80).
Proof.
  intros Hnum E.
  destruct (recordDonation_recorded _ _ _ _ _ Hnum E) as (row & Hd & _ & _ & Hun & Hne).
  exists row. split; [exact Hd|]. split; [exact Hun|]. split; [exact Hne|]. split.
  - intros Hr stored n. rewrite Hun. intros [= <-]. revert n. now apply Forall_forall.
  - intros H. apply Forall_forall. intros n Hn. now apply (H ns).
Qed.

Lemma recordDonation_stores_submitted_witness :
  exists row,
    donations db_3_7 = donations empty_db ++ [row]
    /\ unnest_numbers row = Ok [3; 7].
Proof.
  destruct (recordDonation_stores_submitted empty_db db_3_7 1000
              (donation 10 [int 3; int 7]) [3; 7] eq_refl eq_refl)
    as (row & H1 & H2 & _).
  exists row. split; assumption.
Defined.

Lemma donor_check_fails req :
  empty_donor_field req ->
  negb (truthy (b_donorName req)) || negb (truthy (b_donorPhone req))
  || negb (truthy (b_donorAddress req)) = true.
Proof.
  intros H. rewrite !orb_true_iff, !negb_true_iff. unfold empty_donor_field in H. tauto.
Qed.

(** C5.  The checks run in the order numbers, amount, method, donor
    fields and the first that fails decides the answer; each of an
    amount that is not a positive integer, a method outside the five
    known ones and an empty donor field, whatever the other fields
    are, is answered 400 with the database as it was. *)
Theorem validation_order (db : Db) (now : Z) (req : DonationBody) :
  let r := recordDonation db now req in
  (~ nonempty_array (b_numbers req) ->
   r = (db, Reply 400 (BError "numbers[] required")))
  /\ (nonempty_array (b_numbers req) ->
      ~ positive_integer (b_amount req) ->
      r = (db, Reply 400 (BError "invalid amount")))
  /\ (nonempty_array (b_numbers req) ->
      positive_integer (b_amount req) ->
      ~ known_method (b_method req) ->
      r = (db, Reply 400 (BError "invalid method")))
  /\ (nonempty_array (b_numbers req) ->
      positive_integer (b_amount req) ->
      known_method (b_method req) ->
      empty_donor_field req ->
      r = (db, Reply 400 (BError "donor info required")))
  /\ (~ positive_integer (b_amount req) \/ ~ known_method (b_method req)
      \/ empty_donor_field req ->
      status r.2 = 400 /\ r.1 = db).
Proof.
  cbv zeta. rewrite recordDonation_cases.
  destruct (b_numbers req) as [a|[|a l]].
  1, 2: repeat split; try reflexivity; intros (? & ? & [=]).
  split; [intros H; exfalso; apply H; now exists a, l|].
  split; [intros _ H; now rewrite (amount_check_fails _ H)|].
  split; [intros _ Ha H;
          now rewrite (amount_check_passes _ Ha), (method_check_fails _ H)|].
  split; [intros _ Ha Hm H;
          now rewrite (amount_check_passes _ Ha), (method_check_passes _ Hm),
            (donor_check_fails _ H)|].
  destruct (negb (Number_isInteger (b_amount req)) || le_zero (b_amount req)) eqn:Ea;
    [now split|].
  destruct (negb (includes methods (b_method req))) eqn:Em; [now split|].
  destruct (negb (truthy (b_donorName req)) || negb (truthy (b_donorPhone req))
            || negb (truthy (b_donorAddress req))) eqn:Ed; [now split|].
  intros [H | [H | H]]; exfalso.
  - apply amount_check_fails in H. congruence.
  - apply method_check_fails in H. congruence.
  - apply donor_check_fails in H. congruence.
Qed.

(** A submission of integral Numbers that fit [integer], none of them
    stored, with valid fields: the row that is written. *)
Lemma recordDonation_accepts db now req a ns nss :
  b_numbers req = Arr (map int ns) ->
  ns <> [] ->
  Forall (fun n => in_int4 n = true) ns ->
  valid_fields req ->
  b_amount req = Atomic (Num (Int a)) ->
  in_int4 a = true ->
  ledger_numbers db nss ->
  Forall (fun n => n ∉ concat nss) ns ->
  exists row,
    recordDonation db now req
    = ({| donations := donations db ++ [row];
          donations_id_seq := donations_id_seq db + 1;
          state := state db |}, Reply 201 BOk)
    /\ id row = donations_id_seq db + 1
    /\ amount row = a
    /\ holds row ns
    /\ b_method req = Atomic (Str (method row))
    /\ b_donorName req = Atomic (Str (donor_name row))
    /\ b_donorPhone req = Atomic (Str (donor_phone row))
    /\ b_donorAddress req = Atomic (Str (donor_address row))
    /\ created_at row = now.
Proof.
  intros Hnum Hne Hns Hv Hamt Hia Hl Hfree.
  pose proof (valid_fields_checks _ Hv) as (Ha & Hm & Hdn & Hdp & Hda).
  destruct Hv as (_ & (m & Em & Hin) & (tn & En & _ & Hn) & (tp & Ep & _ & Hp)
                  & (ta & Ed & _ & Hd)).
  exists {| id := donations_id_seq db + 1; amount := a;
            numbers := join "," (map dec_Z ns); method := m;
            donor_name := tn; donor_phone := tp; donor_address := ta;
            created_at := now |}.
  split; [|now repeat split].
  rewrite recordDonation_cases. rewrite Hnum.
  destruct ns as [|n0 ns0]; [congruence|].
  cbn [map]. rewrite (amount_check_passes _ Ha), (method_check_passes _ Hm), Hdn, Hdp, Hda.
  cbn [negb orb].
  change (int n0 :: map int ns0) with (map int (n0 :: ns0)).
  rewrite (select_conflicts_ints _ _ _ Hns (e_ledger _ _ Hl)), conflicts_are_overlap.
  assert (filter (.∈ concat nss) (n0 :: ns0) = []) as ->.
  { clear -Hfree. induction Hfree as [|x l Hx _ IH]; [reflexivity|].
    now rewrite filter_cons_False. }
  cbn [map]. change (int n0 :: map int ns0) with (map int (n0 :: ns0)).
  rewrite (Array_join_ints _ Hns), Hamt, Em, En, Ep, Ed.
  rewrite (insert_donation_Ok db now a _ m tn tp ta Hia (contains_nul_numerals _)
             Hin Hn Hp Hd).
  reflexivity.
Qed.

(** C10, as the code has it.  A request with valid fields, whose
    numbers are integers of the 32-bit range none of which a stored
    record holds, is recorded even when a number occurs in it more
    than once: the answer is 201, one row is appended whose [numbers]
    column is the comma-join of the numbers as submitted, and
    [getState] then lists every submitted number exactly once.  The
    ledger holds comma-joined integers, and the totals fit the
    [integer] the state query casts them to. *)
Theorem recordDonation_duplicates (db : Db) (now a : Z) (req : DonationBody)
    (ns : list Z) (nss : list (list Z)) :
  b_numbers req = Arr (map int ns) ->
  ns <> [] ->
  Forall (fun n => in_int4 n = true) ns ->
  valid_fields req ->
  b_amount req = Atomic (Num (Int a)) ->
  ledger_holds db nss ->
  Forall (fun n => n ∉ concat nss) ns ->
  in_int4 (total_amount (donations db) + a) = true ->
  in_int4 (Z.of_nat (length (donations db)) + 1) = true ->
  in_int4 a = true ->
  exists row taken,
    recordDonation db now req
    = ({| donations := donations db ++ [row];
          donations_id_seq := donations_id_seq db + 1;
          state := state db |}, Reply 201 BOk)
    /\ amount row = a
    /\ numbers row = join "," (map dec_Z ns)
    /\ unnest_numbers row = Ok ns
    /\ getState (recordDonation db now req).1
       = Reply 200 (BState (total_amount (donations db) + a)
                           (Z.of_nat (length (donations db)) + 1)
                           (from_option goal 3500 (state db))
                           (from_option bio EmptyString (state db))
                           taken)
    /\ (forall n, n ∈ ns -> count_occ Z.eq_dec taken n = 1%nat).
Proof.
  intros Hnum Hne Hns Hv Hamt Hl%ledger_holds_numbers Hfree Hsum Hcount Hia.
  destruct (recordDonation_accepts db now req a ns nss Hnum Hne Hns Hv Hamt Hia Hl Hfree)
    as (row & E & _ & Ha & [Hrow _] & _).
  assert (Hun : unnest_numbers row = Ok ns) by now apply unnest_numbers_join.
  set (db' := {| donations := donations db ++ [row];
                 donations_id_seq := donations_id_seq db + 1;
                 state := state db |}) in *.
  assert (Hl' : ledger_numbers db' (nss ++ [ns])).
  { unfold ledger_numbers. simpl. apply Forall2_app; [exact Hl|]. now constructor. }
  exists row, (elements (list_to_set (concat (nss ++ [ns])) : gset Z)).
  split; [exact E|]. split; [exact Ha|].
  split; [exact Hrow|]. split; [exact Hun|]. split.
  - rewrite E. cbn [fst].
    rewrite (getState_ledger db' (nss ++ [ns]) Hl').
    + simpl. rewrite total_amount_app, length_app, Ha. simpl.
      repeat f_equal. lia.
    + simpl. now rewrite total_amount_app, Ha.
    + simpl. rewrite length_app. simpl.
      replace (Z.of_nat (length (donations db) + 1)) with (Z.of_nat (length (donations db)) + 1)
        by lia.
      exact Hcount.
  - intros n Hn. apply NoDup_count_occ'; [apply NoDup_ListNoDup, NoDup_elements|].
    apply list_elem_of_In, elem_of_elements, elem_of_list_to_set.
    rewrite concat_app. apply elem_of_app. right. simpl. now rewrite app_nil_r.
Qed.

(** C10 fails as stated: a value beyond the 32-bit range submitted
    twice is answered 500, and so is [7,7] with a donor name that
    holds U+0000; nothing is recorded. *)
Lemma duplicates_not_recorded :
  recordDonation empty_db 0 (donation 1 [int 2147483648; int 2147483648])
  = (empty_db, server_error)
  /\ recordDonation empty_db 0
       {| b_amount := Num (Int 14); b_numbers := Arr [int 7; int 7];
          b_method := Str "venmo"; b_donorName := Str (String nul "A");
          b_donorPhone := Str "1"; b_donorAddress := Str "X" |}
     = (empty_db, server_error).
Proof. split; reflexivity. Qed.

Lemma recordDonation_duplicates_witness :
  exists row taken,
    recordDonation db_3_7 2000 (donation 18 [int 9; int 9])
    = ({| donations := donations db_3_7 ++ [row];
          donations_id_seq := 2;
          state := state db_3_7 |}, Reply 201 BOk)
    /\ numbers row = "9,9"
    /\ getState (recordDonation db_3_7 2000 (donation 18 [int 9; int 9])).1
       = Reply 200 (BState 28 2 3500 default_bio taken)
    /\ count_occ Z.eq_dec taken 9 = 1%nat.
Proof.
  destruct (recordDonation_duplicates db_3_7 2000 18 (donation 18 [int 9; int 9])
              [9; 9] [[3; 7]]) as (row & taken & H1 & _ & H2 & _ & H3 & H4);
    try reflexivity.
  - discriminate.
  - repeat constructor.
  - apply valid_fields_donation. lia.
  - repeat constructor.
  - repeat constructor; apply (bool_decide_unpack _); reflexivity.
  - exists row, taken. repeat split; try assumption.
    apply H4. set_solver.
Defined.

End Ledger.

(** ** The admin operations: [POST /api/admin/state] and the shared secret *)

Module Admin.
Import Text JS PG Csv Server Terms TextFacts PGFacts Ledger.

Lemma isAuthed_spec pw key : isAuthed pw key = true <-> header_text key = pw.
Proof.
  unfold isAuthed, header_text.
  rewrite String.eqb_eq. destruct key as [[|c k]|]; reflexivity.
Qed.

Lemma isAuthed_false pw key : header_text key <> pw -> isAuthed pw key = false.
Proof.
  intros H. apply not_true_is_false. now rewrite isAuthed_spec.
Qed.

Lemma is_undefined_spec v : is_undefined v = true <-> v = Atomic Undefined.
Proof. destruct v as [[| | | | |]|]; split; try discriminate; reflexivity. Qed.

Lemma is_undefined_false v : v <> Atomic Undefined -> is_undefined v = false.
Proof. intros H. apply not_true_is_false. now rewrite is_undefined_spec. Qed.

Lemma update_bio_Ok db s :
  contains nul s = false ->
  update_bio db (Str s)
  = Ok {| donations := donations db; donations_id_seq := donations_id_seq db;
          state := (fun st => {| goal := goal st; bio := s |}) <$> state db |}.
Proof. intros H. unfold update_bio. now rewrite text_param_Str. Qed.

Lemma update_bio_Rejected db s : contains nul s = true -> update_bio db (Str s) = Rejected.
Proof. intros H. unfold update_bio, text_param. simpl. now rewrite H. Qed.

Lemma update_goal_Ok db g :
  in_int4 g = true ->
  update_goal db (Num (Int g))
  = Ok {| donations := donations db; donations_id_seq := donations_id_seq db;
          state := (fun st => {| goal := g; bio := bio st |}) <$> state db |}.
Proof.
  intros H. unfold update_goal, int_param. cbn [prepareValue prepareAtom Atom_toString].
  rewrite int4in_Number_toString. unfold to_int4. rewrite H. reflexivity.
Qed.

Lemma update_goal_Rejected db g : in_int4 g = false -> update_goal db (Num (Int g)) = Rejected.
Proof.
  intros H. unfold update_goal, int_param. cbn [prepareValue prepareAtom Atom_toString].
  rewrite int4in_Number_toString. unfold to_int4. now rewrite H.
Qed.

Lemma bio_accepted_dec req : bio_accepted req \/ ~ bio_accepted req.
Proof.
  unfold bio_accepted. destruct (is_undefined (b_bio req)) eqn:Eu.
  { left. left. now apply is_undefined_spec. }
  assert (Hu : b_bio req <> Atomic Undefined)
    by (intros H%is_undefined_spec; congruence).
  destruct (ToString (b_bio req)) as [s|] eqn:Es.
  - destruct (contains nul s) eqn:En.
    + right. intros [H | (s' & [= <-] & H)]; congruence.
    + left. right. now exists s.
  - right. intros [H | (s' & [=] & _)]. congruence.
Qed.

(** The handler by cases: first the bio, then the goal. *)
Lemma updateState_bio_fails pw db key req :
  isAuthed pw key = true ->
  ~ bio_accepted req ->
  updateState pw db key req = (db, server_error).
Proof.
  intros Hauth Hno. unfold updateState. rewrite Hauth. cbn [negb]. cbv zeta.
  destruct (is_undefined (b_bio req)) eqn:Eu.
  { exfalso. apply Hno. left. now apply is_undefined_spec. }
  cbn [negb]. destruct (ToString (b_bio req)) as [s|] eqn:Es; [|reflexivity].
  destruct (contains nul s) eqn:En; [now rewrite update_bio_Rejected|].
  exfalso. apply Hno. right. now exists s.
Qed.

Lemma updateState_bio_only pw db key req s :
  isAuthed pw key = true ->
  b_bio req <> Atomic Undefined ->
  b_goal req = Atomic Undefined ->
  ToString (b_bio req) = Returns s ->
  contains nul s = false ->
  updateState pw db key req
  = ({| donations := donations db; donations_id_seq := donations_id_seq db;
        state := (fun st => {| goal := goal st; bio := s |}) <$> state db |},
     Reply 200 BOk).
Proof.
  intros Hauth Hbio Hgoal Hs Hn. unfold updateState. rewrite Hauth. cbv zeta.
  rewrite (is_undefined_false _ Hbio), Hgoal, Hs, (update_bio_Ok _ _ Hn). reflexivity.
Qed.

(** The goal update, on the database the bio update left. *)
Lemma updateState_goal_step pw db key req :
  isAuthed pw key = true ->
  bio_accepted req ->
  b_goal req <> Atomic Undefined ->
  exists db1,
    donations db1 = donations db
    /\ donations_id_seq db1 = donations_id_seq db
    /\ goal <$> state db1 = goal <$> state db
    /\ updateState pw db key req
       = match parseInt (b_goal req) with
         | Throws => (db1, server_error)
         | Returns n =>
             if in_int4 (or_default n 3500)
             then ({| donations := donations db1;
                      donations_id_seq := donations_id_seq db1;
                      state := (fun st => {| goal := or_default n 3500; bio := bio st |})
                                 <$> state db1 |}, Reply 200 BOk)
             else (db1, server_error)
         end.
Proof.
  intros Hauth Hbio Hgoal. unfold updateState. rewrite Hauth. cbn [negb]. cbv zeta.
  rewrite (is_undefined_false _ Hgoal). cbn [negb].
  assert (Hstep : forall db1,
    match
      match parseInt (b_goal req) with
      | Returns n => update_goal db1 (Num (Int (or_default n 3500)))
      | Throws => Rejected
      end
    with
    | Ok db2 => (db2, Reply 200 BOk)
    | Rejected => (db1, server_error)
    end
    = match parseInt (b_goal req) with
      | Throws => (db1, server_error)
      | Returns n =>
          if in_int4 (or_default n 3500)
          then ({| donations := donations db1;
                   donations_id_seq := donations_id_seq db1;
                   state := (fun st => {| goal := or_default n 3500; bio := bio st |})
                              <$> state db1 |}, Reply 200 BOk)
          else (db1, server_error)
      end).
  { intros db1. destruct (parseInt (b_goal req)) as [n|]; [|reflexivity].
    destruct (in_int4 (or_default n 3500)) eqn:E.
    - now rewrite update_goal_Ok.
    - now rewrite update_goal_Rejected. }
  destruct Hbio as [Hu | (s & Hs & Hn)].
  - rewrite Hu. cbn [is_undefined negb]. exists db. now rewrite Hstep.
  - destruct (is_undefined (b_bio req)); cbn [negb].
    + exists db. now rewrite Hstep.
    + rewrite Hs, (update_bio_Ok _ _ Hn).
      exists {| donations := donations db; donations_id_seq := donations_id_seq db;
                state := (fun st => {| goal := goal st; bio := s |}) <$> state db |}.
      rewrite Hstep. split; [reflexivity|]. split; [reflexivity|]. split; [|reflexivity].
      cbn. now destruct (state db).
Qed.

(** Whatever the request, the tables of donations are as they were,
    and a settings row that exists stays. *)
Lemma updateState_tables pw db key req :
  donations (updateState pw db key req).1 = donations db
  /\ donations_id_seq (updateState pw db key req).1 = donations_id_seq db
  /\ (is_Some (state db) -> is_Some (state (updateState pw db key req).1)).
Proof.
  assert (Hb : forall d v d', update_bio d v = Ok d' ->
            donations d' = donations d /\ donations_id_seq d' = donations_id_seq d
            /\ (is_Some (state d) -> is_Some (state d'))).
  { intros d v d'. unfold update_bio. intros (g & _ & [= <-])%bind_Ok. cbn.
    repeat split. intros [st ->]. cbn. eauto. }
  assert (Hg : forall d v d', update_goal d v = Ok d' ->
            donations d' = donations d /\ donations_id_seq d' = donations_id_seq d
            /\ (is_Some (state d) -> is_Some (state d'))).
  { intros d v d'. unfold update_goal. intros (g & _ & [= <-])%bind_Ok. cbn.
    repeat split. intros [st ->]. cbn. eauto. }
  unfold updateState. destruct (negb (isAuthed pw key)); [now repeat split|]. cbv zeta.
  assert (Hbio : forall r,
    r = (if negb (is_undefined (b_bio req))
         then match ToString (b_bio req) with
              | Returns text => update_bio db (Str text)
              | Throws => Rejected
              end
         else Ok db) ->
    forall d, r = Ok d ->
      donations d = donations db /\ donations_id_seq d = donations_id_seq db
      /\ (is_Some (state db) -> is_Some (state d))).
  { intros r -> d. destruct (negb (is_undefined (b_bio req))).
    - destruct (ToString (b_bio req)); [apply Hb | discriminate].
    - intros [= <-]. now repeat split. }
  specialize (Hbio _ eq_refl).
  destruct (if negb (is_undefined (b_bio req)) then _ else _) as [db1|];
    [|now repeat split].
  destruct (Hbio db1 eq_refl) as (H1 & H2 & H3).
  destruct (negb (is_undefined (b_goal req))); [|cbn [fst]; now repeat split].
  destruct (parseInt (b_goal req)) as [n|]; [|cbn [fst]; now repeat split].
  destruct (update_goal db1 _) as [db2|] eqn:E; [|cbn [fst]; now repeat split].
  apply Hg in E as (E1 & E2 & E3). cbn [fst]. rewrite E1, E2.
  split; [exact H1|]. split; [exact H2|]. intros H. now apply E3, H3.
Qed.

(** The two columns of the settings row: a request without a bio
    leaves the bio, one without a goal leaves the goal. *)
Lemma updateState_columns pw db key req :
  (b_bio req = Atomic Undefined ->
   bio <$> state (updateState pw db key req).1 = bio <$> state db)
  /\ (b_goal req = Atomic Undefined ->
      goal <$> state (updateState pw db key req).1 = goal <$> state db).
Proof.
  assert (Hb : forall d v d', update_bio d v = Ok d' -> goal <$> state d' = goal <$> state d).
  { intros d v d'. unfold update_bio. intros (g & _ & [= <-])%bind_Ok. cbn.
    now destruct (state d). }
  assert (Hg : forall d v d', update_goal d v = Ok d' -> bio <$> state d' = bio <$> state d).
  { intros d v d'. unfold update_goal. intros (g & _ & [= <-])%bind_Ok. cbn.
    now destruct (state d). }
  unfold updateState. destruct (negb (isAuthed pw key)); [now split|]. cbv zeta. split.
  - intros ->. cbn [is_undefined negb].
    destruct (negb (is_undefined (b_goal req))); [|reflexivity].
    destruct (parseInt (b_goal req)) as [n|]; [|reflexivity].
    destruct (update_goal db _) as [db2|] eqn:E; [|reflexivity].
    cbn [fst]. now apply Hg in E.
  - intros ->. cbn [is_undefined negb].
    destruct (negb (is_undefined (b_bio req))); [|reflexivity].
    destruct (ToString (b_bio req)) as [s|]; [|reflexivity].
    destruct (update_bio db _) as [db1|] eqn:E; [|reflexivity].
    cbn [fst]. now apply Hb in E.
Qed.

(** C6 fails as stated: the goal 0 parses as the integer 0, and the
    goal stored is 3500. *)
Lemma goal_zero_stores_default :
  parseInt (Num (Int 0)) = Returns (Some 0)
  /\ updateState secret db_goal_5000 (Some secret)
       {| b_bio := Undefined; b_goal := Num (Int 0) |}
     = ({| donations := donations db_goal_5000;
           donations_id_seq := donations_id_seq db_goal_5000;
           state := Some {| goal := 3500; bio := "hello" |} |}, Reply 200 BOk).
Proof. split; reflexivity. Qed.

(** C6, as the code has it.  After an authenticated request with a
    [goal] field, on a settings row that exists: when the bio, if the
    request has one, is stored, the stored goal is [goal] parsed as an
    integer when that integer is not zero and fits the [integer]
    column, and 3500 when [goal] does not parse or parses to zero, and
    the answer is 200; when the bio is refused, when [parseInt] throws
    or when the parsed integer does not fit the column, the answer is
    500 and the stored goal is as it was. *)
Theorem updateState_goal (ADMIN_PASSWORD : string) (db : Db)
    (key : option string) (req : StateBody) (st : State) :
  isAuthed ADMIN_PASSWORD key = true ->
  state db = Some st ->
  b_goal req <> Atomic Undefined ->
  (bio_accepted req ->
   (forall z, parseInt (b_goal req) = Returns (Some z) -> z <> 0 -> in_int4 z = true ->
      goal <$> state (updateState ADMIN_PASSWORD db key req).1 = Some z
      /\ (updateState ADMIN_PASSWORD db key req).2 = Reply 200 BOk)
   /\ (parseInt (b_goal req) = Returns None \/ parseInt (b_goal req) = Returns (Some 0) ->
       goal <$> state (updateState ADMIN_PASSWORD db key req).1 = Some 3500
       /\ (updateState ADMIN_PASSWORD db key req).2 = Reply 200 BOk))
  /\ (~ bio_accepted req \/ parseInt (b_goal req) = Throws
      \/ (exists z, parseInt (b_goal req) = Returns (Some z) /\ z <> 0 /\ in_int4 z = false) ->
      goal <$> state (updateState ADMIN_PASSWORD db key req).1 = Some (goal st)
      /\ (updateState ADMIN_PASSWORD db key req).2 = server_error).
Proof.
  intros Hauth Hst Hgoal.
  assert (Hacc : bio_accepted req ->
    exists db1, goal <$> state db1 = Some (goal st)
      /\ updateState ADMIN_PASSWORD db key req
         = match parseInt (b_goal req) with
           | Throws => (db1, server_error)
           | Returns n =>
               if in_int4 (or_default n 3500)
               then ({| donations := donations db1;
                        donations_id_seq := donations_id_seq db1;
                        state := (fun st => {| goal := or_default n 3500; bio := bio st |})
                                   <$> state db1 |}, Reply 200 BOk)
               else (db1, server_error)
           end).
  { intros Hbio.
    destruct (updateState_goal_step _ db _ _ Hauth Hbio Hgoal) as (db1 & _ & _ & H1 & H2).
    exists db1. rewrite H1, Hst. now split. }
  split.
  - intros Hbio. destruct (Hacc Hbio) as (db1 & Hg1 & E). rewrite E. split.
    + intros z -> Hz Hfit.
      assert (or_default (Some z) 3500 = z) as ->
        by (destruct z; [congruence | reflexivity | reflexivity]).
      rewrite Hfit. cbn. destruct (state db1); [now split | discriminate].
    + intros [-> | ->]; cbn; (destruct (state db1); [now split | discriminate]).
  - intros [Hno | [Hthrow | (z & Hz & Hnz & Hout)]].
    + rewrite (updateState_bio_fails _ _ _ _ Hauth Hno). cbn. now rewrite Hst.
    + destruct (bio_accepted_dec req) as [Hy | Hno].
      * destruct (Hacc Hy) as (db1 & Hg1 & E). rewrite E, Hthrow. now split.
      * rewrite (updateState_bio_fails _ _ _ _ Hauth Hno). cbn. now rewrite Hst.
    + assert (Hd : or_default (Some z) 3500 = z)
        by (destruct z; [congruence | reflexivity | reflexivity]).
      destruct (bio_accepted_dec req) as [Hy | Hno].
      * destruct (Hacc Hy) as (db1 & Hg1 & E). rewrite E, Hz, Hd, Hout. now split.
      * rewrite (updateState_bio_fails _ _ _ _ Hauth Hno). cbn. now rewrite Hst.
Qed.

Lemma updateState_goal_witness :
  goal <$> state (updateState secret db_goal_5000 (Some secret)
                    {| b_bio := Undefined;
                       b_goal := Str (String "194" (String "160" "42px")) |}).1
  = Some 42
  /\ goal <$> state (updateState secret db_goal_5000 (Some secret)
                       {| b_bio := Undefined; b_goal := toString_1 |}).1
     = Some 5000.
Proof.
  split.
  - refine (proj1 (proj1 (proj1 (updateState_goal secret db_goal_5000 (Some secret)
                     {| b_bio := Undefined;
                        b_goal := Str (String "194" (String "160" "42px")) |}
                     {| goal := 5000; bio := "hello" |} eq_refl eq_refl _)
                     (or_introl eq_refl)) 42 eq_refl _ eq_refl)); discriminate.
  - refine (proj1 (proj2 (updateState_goal secret db_goal_5000 (Some secret)
                     {| b_bio := Undefined; b_goal := toString_1 |}
                     {| goal := 5000; bio := "hello" |} eq_refl eq_refl _)
                     (or_intror (or_introl eq_refl)))); discriminate.
Defined.

(** C7 fails as stated: a bio that holds U+0000 is refused by the
    database and a bio that is an object with a [toString] property
    of its own cannot be converted; the answer is 500, nothing is
    stored, and the next [getState] returns the old bio. *)
Lemma bio_not_stored :
  updateState secret db_goal_5000 (Some secret)
    {| b_bio := Str (String nul "x"); b_goal := Undefined |}
  = (db_goal_5000, server_error)
  /\ updateState secret db_goal_5000 (Some secret)
       {| b_bio := toString_1; b_goal := Undefined |}
     = (db_goal_5000, server_error)
  /\ (exists taken, getState db_goal_5000 = Reply 200 (BState 10 1 5000 "hello" taken)).
Proof. split; [reflexivity|]. split; [reflexivity|]. eexists. reflexivity. Qed.

(** C7, as the code has it.  On a settings row that exists, an
    authenticated request with only a [bio] field leaves the stored
    goal as it was; when the bio converts to a text without U+0000,
    the answer is 200, that text is stored, and the next [getState],
    over a ledger that holds integers and whose totals fit, returns it
    with everything else as before; when it does not, the answer is
    500 and nothing is stored.  An authenticated request without a
    [bio] field leaves the stored bio as it was. *)
Theorem updateState_frame (ADMIN_PASSWORD : string) (db : Db)
    (key : option string) (req : StateBody) (st : State) :
  isAuthed ADMIN_PASSWORD key = true ->
  state db = Some st ->
  (b_bio req <> Atomic Undefined -> b_goal req = Atomic Undefined ->
   goal <$> state (updateState ADMIN_PASSWORD db key req).1 = Some (goal st)
   /\ (forall s, ToString (b_bio req) = Returns s -> contains nul s = false ->
       updateState ADMIN_PASSWORD db key req
       = ({| donations := donations db;
             donations_id_seq := donations_id_seq db;
             state := Some {| goal := goal st; bio := s |} |},
          Reply 200 BOk)
       /\ forall nss,
            ledger_holds db nss ->
            in_int4 (total_amount (donations db)) = true ->
            in_int4 (Z.of_nat (length (donations db))) = true ->
            getState (updateState ADMIN_PASSWORD db key req).1
            = Reply 200 (BState (total_amount (donations db))
                                (Z.of_nat (length (donations db)))
                                (goal st) s
                                (elements (list_to_set (concat nss) : gset Z))))
   /\ (~ bio_accepted req ->
       updateState ADMIN_PASSWORD db key req = (db, server_error)))
  /\ (b_bio req = Atomic Undefined ->
      bio <$> state (updateState ADMIN_PASSWORD db key req).1 = Some (bio st)).
Proof.
  intros Hauth Hst. destruct (updateState_columns ADMIN_PASSWORD db key req) as [Hb Hg].
  split.
  - intros Hbio Hgoal. split; [now rewrite (Hg Hgoal), Hst|]. split.
    + intros s Hs Hn.
      assert (E : updateState ADMIN_PASSWORD db key req
        = ({| donations := donations db;
              donations_id_seq := donations_id_seq db;
              state := Some {| goal := goal st; bio := s |} |},
           Reply 200 BOk)).
      { rewrite (updateState_bio_only _ _ _ _ s Hauth Hbio Hgoal Hs Hn), Hst. reflexivity. }
      split; [exact E|].
      intros nss Hl%ledger_holds_numbers Hsum Hcount. rewrite E. cbn [fst].
      now rewrite (getState_ledger
                     {| donations := donations db;
                        donations_id_seq := donations_id_seq db;
                        state := Some {| goal := goal st; bio := s |} |} nss Hl).
    + now apply updateState_bio_fails.
  - intros Hbio. now rewrite (Hb Hbio), Hst.
Qed.

Lemma updateState_frame_witness :
  updateState secret db_goal_5000 (Some secret)
    {| b_bio := Str "new bio"; b_goal := Undefined |}
  = ({| donations := donations db_goal_5000;
        donations_id_seq := donations_id_seq db_goal_5000;
        state := Some {| goal := 5000; bio := "new bio" |} |}, Reply 200 BOk)
  /\ (exists taken,
        getState (updateState secret db_goal_5000 (Some secret)
                    {| b_bio := Str "new bio"; b_goal := Undefined |}).1
        = Reply 200 (BState 10 1 5000 "new bio" taken)).
Proof.
  destruct (proj1 (updateState_frame secret db_goal_5000 (Some secret)
                     {| b_bio := Str "new bio"; b_goal := Undefined |}
                     {| goal := 5000; bio := "hello" |} eq_refl eq_refl))
    as (_ & H & _); [discriminate | reflexivity |].
  destruct (H "new bio" eq_refl eq_refl) as [H1 H2].
  split; [exact H1|]. eexists. apply (H2 [[3; 7]]); [|reflexivity|reflexivity].
  repeat constructor.
Defined.

(** The settings row, once there, stays: [init] creates it and the
    admin operation only rewrites its columns. *)
Lemma init_settings_row db : is_Some (state (init db)).
Proof. unfold init, insert_state_default. simpl. destruct (state db); eauto. Qed.

Lemma updateState_settings_row pw db key req :
  is_Some (state db) -> is_Some (state (updateState pw db key req).1).
Proof. apply updateState_tables. Qed.

(** C8 fails as stated when the configured secret is the empty string:
    a request without the header is then authenticated, the export is
    served and the settings are changed. *)
Lemma missing_header_passes_empty_secret :
  isAuthed EmptyString None = true
  /\ status (exportCsv EmptyString db_3_7 None) = 200
  /\ updateState EmptyString db_goal_5000 None
       {| b_bio := Str "changed"; b_goal := Undefined |}
     = ({| donations := donations db_goal_5000;
           donations_id_seq := donations_id_seq db_goal_5000;
           state := Some {| goal := 5000; bio := "changed" |} |}, Reply 200 BOk).
Proof. repeat split. Qed.

(** C8, as the code has it.  For both admin operations, authentication
    succeeds exactly when the text of the [x-admin-key] header, the
    empty string when the header is missing, is the configured secret,
    compared as strings; a request whose header differs from the secret
    is answered 401 and the database is as it was, and so is a request
    without the header whenever the secret is not the empty string. *)
Theorem admin_auth (ADMIN_PASSWORD : string) (db : Db)
    (key : option string) (req : StateBody) :
  (isAuthed ADMIN_PASSWORD key = true <-> header_text key = ADMIN_PASSWORD)
  /\ (header_text key <> ADMIN_PASSWORD ->
      exportCsv ADMIN_PASSWORD db key = Reply 401 (BError "unauthorized")
      /\ updateState ADMIN_PASSWORD db key req = (db, Reply 401 (BError "unauthorized")))
  /\ (header_text key = ADMIN_PASSWORD ->
      status (exportCsv ADMIN_PASSWORD db key) <> 401
      /\ status (updateState ADMIN_PASSWORD db key req).2 <> 401)
  /\ (ADMIN_PASSWORD <> EmptyString -> key = None ->
      exportCsv ADMIN_PASSWORD db key = Reply 401 (BError "unauthorized")
      /\ updateState ADMIN_PASSWORD db key req = (db, Reply 401 (BError "unauthorized"))).
Proof.
  assert (Hno : header_text key <> ADMIN_PASSWORD ->
      exportCsv ADMIN_PASSWORD db key = Reply 401 (BError "unauthorized")
      /\ updateState ADMIN_PASSWORD db key req = (db, Reply 401 (BError "unauthorized"))).
  { intros H%isAuthed_false. unfold exportCsv, updateState. rewrite H. now split. }
  split; [apply isAuthed_spec|]. split; [exact Hno|]. split.
  - intros H%isAuthed_spec. unfold exportCsv, updateState. rewrite H. cbn [negb].
    split; [discriminate|]. cbv zeta.
    destruct (if negb (is_undefined (b_bio req)) then _ else _) as [db1|]; [|discriminate].
    destruct (if negb (is_undefined (b_goal req)) then _ else _) as [db2|]; discriminate.
  - intros Hne ->. apply Hno. simpl. congruence.
Qed.

End Admin.

(** ** The databases the handlers can produce *)

Module Histories.
Import Text JS PG Csv Server Terms TextFacts PGFacts Ledger Admin.

Lemma updateState_donations pw db key req :
  donations (updateState pw db key req).1 = donations db.
Proof. apply updateState_tables. Qed.

Lemma step_invariant pw db r nss :
  integral_numbers r ->
  is_Some (state db) -> ledger_numbers db nss ->
  is_Some (state (step pw db r)) /\ exists nss', ledger_numbers (step pw db r) nss'.
Proof.
  intros Hr Hst Hl. destruct r as [now req | key req]; simpl.
  - split; [now rewrite recordDonation_state|].
    destruct (b_numbers req) as [a|l] eqn:En.
    + exists nss. rewrite recordDonation_cases. now rewrite En.
    + destruct (Hr l En) as (ns & ->). now apply (ledger_numbers_kept _ _ _ ns nss).
  - split; [now apply updateState_settings_row|].
    exists nss. unfold ledger_numbers. now rewrite updateState_donations.
Qed.

(** After [init()] and any sequence of requests whose donations carry
    integral Numbers, the settings row exists and every stored row
    unnests: the conditions under which the ledger statements are
    made hold in every such database. *)
Theorem run_invariant (ADMIN_PASSWORD : string) (rs : list Request) :
  Forall integral_numbers rs ->
  is_Some (state (run ADMIN_PASSWORD rs))
  /\ exists nss, ledger_numbers (run ADMIN_PASSWORD rs) nss.
Proof.
  unfold run.
  assert (H0 : is_Some (state empty_db) /\ exists nss, ledger_numbers empty_db nss).
  { split; [apply init_settings_row | exists []; constructor]. }
  revert H0. generalize empty_db as db.
  induction rs as [|r rs IH]; intros db H0 Hall; [exact H0|].
  inversion Hall as [|? ? Hr Hrs]; subst. simpl.
  apply IH; [|exact Hrs].
  destruct H0 as (Hst & nss & Hl). now apply (step_invariant _ _ _ nss).
Qed.

End Histories.

(** ** The export: [GET /api/export.csv] *)

Module CsvExport.
Import Text JS PG Csv Server Terms TextFacts PGFacts Ledger Admin.

(** *** Reading back what [stringify] wrote *)

Lemma append_snoc (a : string) c (b : string) :
  (a +:+ String c EmptyString) +:+ b = a +:+ String c b.
Proof. now rewrite append_assoc. Qed.

Lemma needs_quote_cons c f :
  needs_quote (String c f) = false ->
  Ascii.eqb c dquote = false /\ Ascii.eqb c "," = false /\ Ascii.eqb c newline = false
  /\ needs_quote f = false.
Proof.
  unfold needs_quote. cbn [contains].
  rewrite !orb_false_iff, (Ascii.eqb_sym dquote), (Ascii.eqb_sym ","%char),
    (Ascii.eqb_sym newline). tauto.
Qed.

Lemma read_unquoted f acc row rest :
  needs_quote f = false ->
  read (f +:+ rest) Unquoted acc row = read rest Unquoted (acc +:+ f) row.
Proof.
  revert acc. induction f as [|c f IH]; intros acc H.
  - now rewrite append_nil_r.
  - apply needs_quote_cons in H as (_ & Hc & Hn & Hf).
    simpl. rewrite Hc, Hn, (IH _ Hf), append_snoc. reflexivity.
Qed.

Lemma read_quoted f acc row rest :
  read (double_quotes f +:+ String dquote rest) Quoted acc row
  = read rest QuoteInQuoted (acc +:+ f) row.
Proof.
  revert acc. induction f as [|c f IH]; intros acc.
  - simpl. now rewrite append_nil_r.
  - unfold double_quotes. cbn [map_chars]. fold (double_quotes f).
    destruct (Ascii.eqb c dquote) eqn:Hc.
    + apply Ascii.eqb_eq in Hc as ->. simpl.
      rewrite IH, append_snoc. reflexivity.
    + simpl. rewrite Hc, IH, append_snoc. reflexivity.
Qed.

(** A written field followed by a comma is read as that field. *)
Lemma read_field_comma f row rest :
  read (quote_field f +:+ String "," rest) FieldStart EmptyString row
  = read rest FieldStart EmptyString (row ++ [f]).
Proof.
  unfold quote_field. destruct (needs_quote f) eqn:H.
  - simpl. rewrite append_snoc, read_quoted. reflexivity.
  - destruct f as [|c f]; [reflexivity|].
    apply needs_quote_cons in H as (Hq & Hc & Hn & Hf).
    simpl. rewrite Hq, Hc, Hn, (read_unquoted _ _ _ _ Hf). reflexivity.
Qed.

(** A written field followed by a line feed ends the record. *)
Lemma read_field_newline f row rest :
  read (quote_field f +:+ String newline rest) FieldStart EmptyString row
  = (row ++ [f]) :: read rest FieldStart EmptyString [].
Proof.
  unfold quote_field. destruct (needs_quote f) eqn:H.
  - simpl. rewrite append_snoc, read_quoted. reflexivity.
  - destruct f as [|c f]; [reflexivity|].
    apply needs_quote_cons in H as (Hq & Hc & Hn & Hf).
    simpl. rewrite Hq, Hc, Hn, (read_unquoted _ _ _ _ Hf). reflexivity.
Qed.

Lemma read_line fields row rest :
  fields <> [] ->
  read (line fields +:+ rest) FieldStart EmptyString row
  = (row ++ fields) :: read rest FieldStart EmptyString [].
Proof.
  unfold line. rewrite append_assoc. change (String newline "" +:+ rest) with (String newline rest).
  revert row. induction fields as [|f [|g fs] IH]; intros row Hne; [congruence | |].
  - simpl. apply read_field_newline.
  - change (join "," (map quote_field (f :: g :: fs)))
      with (quote_field f +:+ String "," (join "," (map quote_field (g :: fs)))).
    rewrite append_assoc. change (String "," ?a +:+ ?b) with (String "," (a +:+ b)).
    rewrite read_field_comma, IH by discriminate.
    now rewrite <- app_assoc.
Qed.

Lemma read_lines rows :
  Forall (fun fields => fields <> []) rows ->
  records (String.concat EmptyString (map line rows)) = rows.
Proof.
  unfold records. induction 1 as [|r rows Hr _ IH]; [reflexivity|].
  assert (String.concat "" (map line (r :: rows))
          = line r +:+ String.concat "" (map line rows)) as ->.
  { simpl. destruct (map line rows); [now rewrite append_nil_r | reflexivity]. }
  rewrite (read_line _ [] _ Hr), IH. reflexivity.
Qed.

(** Reading what [stringify] wrote gives the header and then, record
    by record, the cast value of each column. *)
Lemma records_stringify first rest :
  first <> [] ->
  records (stringify (first :: rest))
  = map fst first :: map (fun r => map (get r) (map fst first)) (first :: rest).
Proof.
  intros Hne. unfold stringify.
  assert (Hcols : map fst first <> []) by (destruct first; [congruence | discriminate]).
  unfold records. rewrite (read_line _ [] _ Hcols). cbn [app]. f_equal.
  rewrite <- map_map. apply read_lines.
  apply List.Forall_forall. intros fields (r & <- & _)%in_map_iff.
  destruct (map fst first); [congruence | discriminate].
Qed.

(** *** The rows exported *)

Lemma insert_desc_perm d l : insert_desc d l ≡ₚ d :: l.
Proof.
  induction l as [|x l IH]; simpl; [reflexivity|].
  destruct (id x <? id d); [reflexivity|].
  rewrite IH. apply Permutation_swap.
Qed.

Lemma order_by_id_desc_perm l : order_by_id_desc l ≡ₚ l.
Proof.
  induction l as [|d l IH]; simpl; [reflexivity|].
  rewrite insert_desc_perm. now constructor.
Qed.

Lemma insert_desc_sorted d l : Sorted id_ge l -> Sorted id_ge (insert_desc d l).
Proof.
  induction 1 as [|x l Hs IH Hhd]; simpl; [repeat constructor|].
  destruct (Z.ltb_spec (id x) (id d)).
  - constructor; [now constructor|]. constructor. unfold id_ge. lia.
  - constructor; [exact IH|].
    destruct l as [|y l]; simpl.
    + constructor. unfold id_ge. lia.
    + destruct (id y <? id d); constructor; [unfold id_ge; lia|].
      now inversion Hhd.
Qed.

Lemma order_by_id_desc_sorted l : Sorted id_ge (order_by_id_desc l).
Proof.
  induction l as [|d l IH]; simpl; [constructor | now apply insert_desc_sorted].
Qed.

(** C9.  With the valid credential the answer is 200 with a CSV text
    that reads back as no record for an empty ledger and otherwise as
    the header followed by one record per stored donation (each stored
    donation once, highest [id] first), whose fields are, in this
    order, id, amount, numbers, method, donor name, donor phone,
    donor address and created_at. *)
Theorem exportCsv_rows (ADMIN_PASSWORD : string) (db : Db) (key : option string) :
  isAuthed ADMIN_PASSWORD key = true ->
  exists text rows,
    exportCsv ADMIN_PASSWORD db key = Reply 200 (BCsv text)
    /\ rows ≡ₚ donations db
    /\ Sorted id_ge rows
    /\ records text = match rows with
                      | [] => []
                      | _ => header :: map fields rows
                      end
    /\ length (map fields rows) = length (donations db).
Proof.
  intros Hauth. unfold exportCsv. rewrite Hauth. cbn [negb].
  exists (stringify (map (export_record) (order_by_id_desc (donations db)))),
    (order_by_id_desc (donations db)).
  split; [reflexivity|]. split; [apply order_by_id_desc_perm|].
  split; [apply order_by_id_desc_sorted|]. split.
  - destruct (order_by_id_desc (donations db)) as [|d l]; [reflexivity|].
    cbn [map]. rewrite records_stringify by discriminate.
    f_equal. change (export_record d :: map (export_record) l)
      with (map (export_record) (d :: l)).
    rewrite map_map. change (fields d :: map fields l) with (map fields (d :: l)).
    apply map_ext. intros r. reflexivity.
  - rewrite length_map. apply Permutation_length, order_by_id_desc_perm.
Qed.

Lemma exportCsv_rows_witness :
  exists text rows,
    exportCsv secret db_3_7 (Some secret) = Reply 200 (BCsv text)
    /\ rows ≡ₚ donations db_3_7
    /\ records text = match rows with
                      | [] => []
                      | _ => header :: map fields rows
                      end.
Proof.
  destruct (exportCsv_rows secret db_3_7 (Some secret) eq_refl)
    as (text & rows & H1 & H2 & _ & H3 & _).
  exists text, rows. repeat split; assumption.
Defined.

(** The export of the scenario's ledger, with a donor address that
    needs quoting. *)
Example export_example :
  let q := String dquote EmptyString in
  let nl := String newline EmptyString in
  exportCsv secret
    (recordDonation empty_db 1000
       {| b_amount := Num (Int 10); b_numbers := Arr [int 3; int 7];
          b_method := Str "zelle"; b_donorName := Str "A"; b_donorPhone := Str "1";
          b_donorAddress := Str "1 Main St, Austin" |}).1 (Some secret)
  = Reply 200 (BCsv
      ("id,amount,numbers,method,donor_name,donor_phone,donor_address,created_at" +:+ nl
       +:+ "1,10," +:+ q +:+ "3,7" +:+ q +:+ ",zelle,A,1," +:+ q +:+ "1 Main St, Austin"
       +:+ q +:+ ",1000" +:+ nl)).
Proof. reflexivity. Qed.

End CsvExport.

(** ** Histories of requests *)

Module Reach.
Import Text JS PG Csv Server Terms LedgerTerms TextFacts PGFacts Ledger Admin Histories CsvExport.

(** A 201 for integral Numbers over a ledger that unnests: none of
    them was stored, and all fit [integer]. *)
Lemma recordDonation_201_free db now req ns nss :
  b_numbers req = Arr (map int ns) ->
  ledger_numbers db nss ->
  status (recordDonation db now req).2 = 201 ->
  Forall (fun n => n ∉ concat nss) ns /\ Forall (fun n => in_int4 n = true) ns.
Proof.
  intros Hnum Hl. rewrite recordDonation_cases. rewrite Hnum.
  destruct ns as [|n0 ns0]; [discriminate|]. cbn [map].
  field_checks ltac:(discriminate).
  change (int n0 :: map int ns0) with (map int (n0 :: ns0)).
  destruct (select_conflicts db (map int (n0 :: ns0))) as [rows|] eqn:Hq; [|discriminate].
  pose proof Hq as Hq'.
  unfold select_conflicts in Hq'. apply bind_Ok in Hq' as (arr & Harr & _).
  apply int_array_param_ints in Harr as [Hns _].
  rewrite (select_conflicts_ints _ _ _ Hns (e_ledger _ _ Hl)) in Hq.
  injection Hq as <-.
  change (Some n0 :: map Some ns0) with (map Some (n0 :: ns0)).
  rewrite conflicts_are_overlap.
  destruct (filter _ (n0 :: ns0)) as [|c cs] eqn:Hfil; [|discriminate].
  intros _. split; [|exact Hns].
  apply Forall_forall. intros n Hn Hin.
  assert (Hc : n ∈ filter (.∈ concat nss) (n0 :: ns0))
    by (apply list_elem_of_filter; now split).
  rewrite Hfil in Hc. now apply elem_of_nil in Hc.
Qed.

Lemma disjoint_records_snoc nss ns :
  disjoint_records nss ->
  Forall (fun n => n ∉ concat nss) ns ->
  disjoint_records (nss ++ [ns]).
Proof.
  induction nss as [|l nss IH]; intros Hd Hfree; simpl.
  - split; [|exact I]. apply Forall_forall. intros n _. apply not_elem_of_nil.
  - destruct Hd as [Hl Hd]. split.
    + apply Forall_forall. intros n Hn. rewrite concat_app. simpl. rewrite app_nil_r.
      rewrite elem_of_app. intros [Hin|Hin].
      * rewrite Forall_forall in Hl. now apply (Hl n).
      * rewrite Forall_forall in Hfree. apply (Hfree n Hin).
        simpl. apply elem_of_app. now left.
    + apply IH; [exact Hd|].
      apply Forall_forall. intros n Hn Hin. rewrite Forall_forall in Hfree.
      apply (Hfree n Hn). simpl. apply elem_of_app. now right.
Qed.

(** Induction over histories. *)
Lemma run_ind (Q : Request -> Prop) (P : Db -> Prop) pw :
  P empty_db ->
  (forall db r, Q r -> P db -> P (step pw db r)) ->
  forall rs, Forall Q rs -> P (run pw rs).
Proof.
  intros H0 Hstep rs. unfold run. revert H0. generalize empty_db as db.
  induction rs as [|r rs IH]; intros db H0 Hall; [exact H0|].
  inversion Hall as [|? ? Hr Hrs]; subst. simpl.
  apply IH; [|exact Hrs]. now apply Hstep.
Qed.

Lemma Forall_True {A} (l : list A) : Forall (fun _ => True) l.
Proof. induction l; constructor; auto. Qed.

Lemma step_settings_row pw db r : is_Some (state db) -> is_Some (state (step pw db r)).
Proof.
  destruct r as [now req | key req]; simpl.
  - now rewrite recordDonation_state.
  - apply updateState_settings_row.
Qed.

Lemma init_present db : is_Some (state db) -> init db = db.
Proof. destruct db as [ds sq [st|]]; intros [x Hx]; [reflexivity | discriminate]. Qed.

(** X1.  After [init()] and any sequence of requests the settings row
    exists, and running [init()] again, as a restart of the server
    does, changes nothing: the donations, the goal and the bio are as
    they were. *)
Theorem init_again (ADMIN_PASSWORD : string) (rs : list Request) :
  is_Some (state (run ADMIN_PASSWORD rs))
  /\ init (run ADMIN_PASSWORD rs) = run ADMIN_PASSWORD rs.
Proof.
  assert (H : is_Some (state (run ADMIN_PASSWORD rs))).
  { apply (run_ind (fun _ => True) (fun db => is_Some (state db))).
    - apply init_settings_row.
    - intros db r _. apply step_settings_row.
    - apply Forall_True. }
  split; [exact H | now apply init_present].
Qed.

Lemma step_disjoint pw db r nss :
  integral_numbers r ->
  ledger_numbers db nss -> disjoint_records nss ->
  exists nss', ledger_numbers (step pw db r) nss' /\ disjoint_records nss'.
Proof.
  intros Hr Hl Hd. destruct r as [now req | key req]; simpl.
  - destruct (recordDonation_effect db now req) as [[E _]|(row & rows & E & _)].
    + rewrite E. now exists nss.
    + destruct (b_numbers req) as [a|l] eqn:En.
      { rewrite recordDonation_cases in E. rewrite En in E. discriminate. }
      destruct (Hr l En) as (ns & ->).
      destruct (recordDonation_201_free db now req ns nss En Hl) as [Hfree Hns];
        [now rewrite E|].
      destruct (recordDonation_recorded db _ now req ns En E)
        as (row' & Hrow & _ & _ & Hun & _).
      exists (nss ++ [ns]). split; [|now apply disjoint_records_snoc].
      rewrite E. unfold ledger_numbers. cbn [fst]. rewrite Hrow.
      apply Forall2_app; [exact Hl|]. now constructor.
  - exists nss. split; [|exact Hd]. unfold ledger_numbers. now rewrite updateState_donations.
Qed.

(** X2.  In every history whose donations carry integral Numbers, each
    stored row unnests to a list of integers and no number is held by
    two records: the conflict check, run before every insertion, keeps
    the claimed numbers unique across the ledger. *)
Theorem numbers_claimed_once (ADMIN_PASSWORD : string) (rs : list Request) :
  Forall integral_numbers rs ->
  exists nss,
    ledger_numbers (run ADMIN_PASSWORD rs) nss /\ disjoint_records nss.
Proof.
  apply (run_ind integral_numbers
           (fun db => exists nss, ledger_numbers db nss /\ disjoint_records nss)).
  - exists []. split; [constructor | exact I].
  - intros db r Hr (nss & Hl & Hd). now apply (step_disjoint _ _ _ nss).
Qed.

Lemma numbers_claimed_once_witness :
  exists nss,
    ledger_numbers
      (run secret [Donate 1000 (donation 10 [int 3; int 7]);
                   Donate 2000 (donation 16 [int 7; int 9]);
                   UpdateState (Some secret) {| b_bio := Str "hi"; b_goal := Undefined |};
                   Donate 3000 (donation 9 [int 9])]) nss
    /\ disjoint_records nss.
Proof.
  apply (numbers_claimed_once secret).
  repeat constructor; intros l [= <-];
    [exists [3; 7] | exists [7; 9] | exists [9]]; reflexivity.
Defined.


(** *** Row identifiers and the order of the export *)

Lemma ids_increasing_snoc b l row :
  ids_increasing b l -> id row = b + 1 -> ids_increasing (b + 1) (l ++ [row]).
Proof.
  intros H Hrow. induction l as [|d l IH]; simpl.
  - split; [constructor|]. split; [lia | exact I].
  - destruct H as (Hlt & Hb & Hl). split; [|split; [lia | now apply IH]].
    apply Forall_app. split; [exact Hlt|]. constructor; [lia | constructor].
Qed.

Lemma step_ids pw db r :
  ids_increasing (donations_id_seq db) (donations db) ->
  ids_increasing (donations_id_seq (step pw db r)) (donations (step pw db r)).
Proof.
  intros H. destruct r as [now req | key req]; simpl.
  - destruct (recordDonation_effect db now req)
      as [[E _]|(row & rows & E & _ & _ & Hid & _)];
      rewrite E; [exact H|].
    cbn. now apply ids_increasing_snoc.
  - destruct (updateState_tables pw db key req) as (E1 & E2 & _). now rewrite E1, E2.
Qed.

Lemma run_ids pw rs :
  ids_increasing (donations_id_seq (run pw rs)) (donations (run pw rs)).
Proof.
  apply (run_ind (fun _ => True)
           (fun db => ids_increasing (donations_id_seq db) (donations db))).
  - exact I.
  - intros db r _. apply step_ids.
  - apply Forall_True.
Qed.

Lemma insert_desc_smallest d l :
  Forall (fun x => id d < id x) l -> insert_desc d l = l ++ [d].
Proof.
  induction 1 as [|x l Hx _ IH]; simpl; [reflexivity|].
  destruct (Z.ltb_spec (id x) (id d)); [lia|]. now rewrite IH.
Qed.

Lemma order_by_id_desc_increasing b l :
  ids_increasing b l -> order_by_id_desc l = rev l.
Proof.
  induction l as [|d l IH]; simpl; [reflexivity|].
  intros (Hlt & _ & Hl). rewrite (IH Hl).
  apply insert_desc_smallest. apply Forall_forall. intros x Hx.
  rewrite Forall_forall in Hlt. apply Hlt. apply list_elem_of_In.
  apply in_rev. now apply list_elem_of_In.
Qed.

Lemma records_export d l :
  records (stringify (map export_record (d :: l))) = header :: map fields (d :: l).
Proof.
  cbn [map]. rewrite records_stringify by discriminate.
  f_equal. change (export_record d :: map (export_record) l)
    with (map (export_record) (d :: l)).
  rewrite map_map. change (fields d :: map fields l) with (map fields (d :: l)).
  apply map_ext. intros r. reflexivity.
Qed.

(** X3.  In every history the rows carry growing [id]s in the order of
    their insertion, so the export, which orders by [id] descending,
    lists the donations newest first: it is the table reversed. *)
Theorem export_newest_first (ADMIN_PASSWORD : string) (rs : list Request)
    (key : option string) :
  let db := run ADMIN_PASSWORD rs in
  ids_increasing (donations_id_seq db) (donations db)
  /\ order_by_id_desc (donations db) = rev (donations db)
  /\ (isAuthed ADMIN_PASSWORD key = true ->
      exportCsv ADMIN_PASSWORD db key
      = Reply 200 (BCsv (stringify (map export_record (rev (donations db)))))).
Proof.
  intros db. pose proof (run_ids ADMIN_PASSWORD rs) as H. fold db in H.
  split; [exact H|]. split; [now apply (order_by_id_desc_increasing _ _ H)|].
  intros Hauth. unfold exportCsv. rewrite Hauth. cbn [negb].
  now rewrite (order_by_id_desc_increasing _ _ H).
Qed.


Lemma int_param_int a z : int_param (Num (Int a)) = Ok z -> in_int4 a = true /\ z = a.
Proof.
  unfold int_param. cbn [prepareValue prepareAtom Atom_toString].
  rewrite int4in_Number_toString. apply to_int4_Ok.
Qed.

(** X4.  A donation that was just recorded heads the next export: read
    back as CSV, the text is the header, then the new donation with
    the next [id], the amount, the numbers joined by commas, the
    method, the donor's details and the instant as submitted, then the
    earlier donations, newest first. *)
Theorem recorded_then_exported (ADMIN_PASSWORD : string) (rs : list Request)
    (key : option string) (p : Pledge) (db' : Db) :
  let db := run ADMIN_PASSWORD rs in
  isAuthed ADMIN_PASSWORD key = true ->
  recordDonation db (p_now p) (body_of p) = (db', Reply 201 BOk) ->
  exists text,
    exportCsv ADMIN_PASSWORD db' key = Reply 200 (BCsv text)
    /\ records text
       = header
         :: [dec_Z (donations_id_seq db + 1);
             Number_toString (Int (p_amount p));
             join "," (map dec_Z (p_numbers p));
             p_method p; p_name p; p_phone p; p_address p;
             Number_toString (Int (p_now p))]
         :: map fields (rev (donations db)).
Proof.
  intros db Hauth E.
  pose proof (run_ids ADMIN_PASSWORD rs) as Hids. fold db in Hids.
  assert (Hns : Forall (fun n => in_int4 n = true) (p_numbers p)).
  { apply (recordDonation_201_ints db (p_now p) (body_of p)); [reflexivity|].
    now rewrite E. }
  destruct (recordDonation_effect db (p_now p) (body_of p))
    as [[_ Hno]|(row & rows & E' & _ & _ & Hid & Ha & Hnum & Hm & Hn & Hp & Hd & Hnow)].
  { rewrite E in Hno. now contradiction Hno. }
  rewrite E in E'. injection E' as ->.
  apply int_param_int in Ha as [_ Ha].
  apply text_param_Str_inv in Hm as [Hm _], Hn as [Hn _], Hp as [Hp _], Hd as [Hd _].
  change (elements_of (b_numbers (body_of p))) with (map int (p_numbers p)) in Hnum.
  rewrite (Array_join_ints _ Hns) in Hnum. injection Hnum as Hnum.
  assert (Hinc : ids_increasing (donations_id_seq db + 1) (donations db ++ [row]))
    by now apply ids_increasing_snoc.
  eexists. split.
  - unfold exportCsv. rewrite Hauth. cbn [negb donations].
    rewrite (order_by_id_desc_increasing _ _ Hinc). reflexivity.
  - rewrite rev_app_distr. cbn [rev app]. rewrite records_export. cbn [map].
    f_equal. f_equal. unfold fields.
    now rewrite Hid, Ha, <- Hnum, Hm, Hn, Hp, Hd, Hnow.
Qed.

Lemma recorded_then_exported_witness :
  exists text,
    exportCsv secret
      (recordDonation db_3_7 2000
         (body_of {| p_now := 2000; p_amount := 9; p_numbers := [9];
                     p_method := "zelle"; p_name := "Bo, Jr."; p_phone := "2";
                     p_address := "Y" |})).1 (Some secret)
    = Reply 200 (BCsv text)
    /\ records text
       = [ header;
           ["2"; "9"; "9"; "zelle"; "Bo, Jr."; "2"; "Y"; "2000"];
           ["1"; "10"; "3,7"; "venmo"; "A"; "1"; "X"; "1000"] ].
Proof.
  exact (recorded_then_exported secret [Donate 1000 (donation 10 [int 3; int 7])]
           (Some secret)
           {| p_now := 2000; p_amount := 9; p_numbers := [9];
              p_method := "zelle"; p_name := "Bo, Jr."; p_phone := "2";
              p_address := "Y" |} _ eq_refl eq_refl).
Defined.


(** *** Values the columns cannot hold *)

(** X5.  The handler checks no upper bound, and the 32-bit range of
    the [integer] columns shows as a failure of the queries: with
    valid fields, a submitted integer outside that range makes the
    conflict query reject, so the answer is 500 and nothing is
    written; and an amount outside it is never recorded, whatever the
    rest of the request. *)
Theorem beyond_integer_rejected (db : Db) (now : Z) (req : DonationBody) :
  (forall ns,
     b_numbers req = Arr (map int ns) ->
     passes_field_checks req ->
     Exists (fun n => in_int4 n = false) ns ->
     recordDonation db now req = (db, server_error))
  /\ (forall a,
        b_amount req = Atomic (Num (Int a)) ->
        in_int4 a = false ->
        (recordDonation db now req).1 = db
        /\ status (recordDonation db now req).2 <> 201).
Proof.
  split.
  - intros ns Hnum (Ha & Hm & Hdn & Hdp & Hda) Hex.
    rewrite recordDonation_cases. rewrite Hnum.
    destruct ns as [|n0 ns0]; [inversion Hex|]. cbn [map].
    rewrite (amount_check_passes _ Ha), (method_check_passes _ Hm), Hdn, Hdp, Hda.
    cbn [negb orb].
    change (int n0 :: map int ns0) with (map int (n0 :: ns0)).
    unfold select_conflicts.
    destruct (int_array_param (map int (n0 :: ns0))) as [arr|] eqn:Harr; [|reflexivity].
    apply int_array_param_ints in Harr as [Hns _].
    apply Exists_exists in Hex as (n & Hn & Hout).
    rewrite Forall_forall in Hns. rewrite (Hns n Hn) in Hout. discriminate.
  - intros a Hamt Hout.
    destruct (recordDonation_effect db now req)
      as [[E Hno]|(row & rows & _ & _ & _ & _ & Ha & _)]; [now split|].
    rewrite Hamt in Ha. apply int_param_int in Ha as [Ha _]. congruence.
Qed.

(** *** Numbers sent as strings *)

Lemma int_array_param_strings ns :
  Forall (fun n => in_int4 n = true) ns ->
  int_array_param (as_strings ns) = Ok (map Some ns).
Proof.
  induction 1 as [|n ns Hn _ IH]; [reflexivity|].
  unfold int_array_param, as_strings in *. cbn [map traverse prepareAtom Atom_toString].
  rewrite IH, int4in_dec_Z. unfold to_int4. rewrite Hn. reflexivity.
Qed.

Lemma has_strings S ns : List.filter (has S) (as_strings ns) = [].
Proof. induction ns as [|n ns IH]; [reflexivity | exact IH]. Qed.

Lemma Array_join_strings ns :
  Array_join "," (as_strings ns) = Returns (join "," (map dec_Z ns)).
Proof.
  unfold Array_join, as_strings.
  assert (existsb throws (map (fun n => Str (dec_Z n)) ns) = false) as ->
    by (induction ns as [|n ns IH]; [reflexivity | exact IH]).
  now rewrite map_map.
Qed.

(** A submission with valid fields whose elements the conflict query
    takes and finds none of: the row that is written. *)
Lemma recordDonation_inserts db now req a l rows csv :
  b_numbers req = Arr l ->
  l <> [] ->
  valid_fields req ->
  b_amount req = Atomic (Num (Int a)) ->
  in_int4 a = true ->
  select_conflicts db l = Ok rows ->
  List.filter (has (list_to_set rows)) l = [] ->
  Array_join "," l = Returns csv ->
  contains nul csv = false ->
  exists row,
    recordDonation db now req
    = ({| donations := donations db ++ [row];
          donations_id_seq := donations_id_seq db + 1;
          state := state db |}, Reply 201 BOk)
    /\ numbers row = csv
    /\ amount row = a.
Proof.
  intros Hnum Hne Hv Hamt Hia Hq Hf Hj Hcsv.
  pose proof (valid_fields_checks _ Hv) as (Ha & Hm & Hdn & Hdp & Hda).
  destruct Hv as (_ & (m & Em & Hin) & (tn & En & _ & Hn) & (tp & Ep & _ & Hp)
                  & (ta & Ed & _ & Hd)).
  exists {| id := donations_id_seq db + 1; amount := a;
            numbers := csv; method := m;
            donor_name := tn; donor_phone := tp; donor_address := ta;
            created_at := now |}.
  split; [|now split].
  rewrite recordDonation_cases. rewrite Hnum.
  destruct l as [|x l]; [congruence|].
  rewrite (amount_check_passes _ Ha), (method_check_passes _ Hm), Hdn, Hdp, Hda.
  cbn [negb orb]. rewrite Hq, Hf, Hj, Hamt, Em, En, Ep, Ed.
  now rewrite (insert_donation_Ok db now a csv m tn tp ta Hia Hcsv Hin Hn Hp Hd).
Qed.

(** X6.  The conflict test [already.has(n)] compares by strict
    equality, so a number sent as a decimal string is never found
    among the stored integers.  Over a ledger that holds integers, a
    submission with valid fields whose numbers are the decimal strings
    of integers of the 32-bit range is recorded whether or not those
    numbers are taken, and the new row holds the same integers, which
    two records then hold when they were taken. *)
Theorem string_numbers_not_checked (db : Db) (now a : Z) (req : DonationBody)
    (ns : list Z) (nss : list (list Z)) :
  b_numbers req = Arr (as_strings ns) ->
  ns <> [] ->
  Forall (fun n => in_int4 n = true) ns ->
  valid_fields req ->
  b_amount req = Atomic (Num (Int a)) ->
  in_int4 a = true ->
  ledger_holds db nss ->
  exists row,
    recordDonation db now req
    = ({| donations := donations db ++ [row];
          donations_id_seq := donations_id_seq db + 1;
          state := state db |}, Reply 201 BOk)
    /\ holds row ns
    /\ ledger_holds (recordDonation db now req).1 (nss ++ [ns]).
Proof.
  intros Hnum Hne Hns Hv Hamt Hia Hl.
  assert (Hne' : as_strings ns <> []) by (destruct ns; [congruence | discriminate]).
  assert (Hq : select_conflicts db (as_strings ns)
               = Ok (List.filter (fun n => eq_any n (map Some ns)) (concat nss))).
  { unfold select_conflicts. rewrite (int_array_param_strings _ Hns).
    cbn [mbind result_bind].
    now rewrite (e_ledger _ _ (ledger_holds_numbers _ _ Hl)). }
  destruct (recordDonation_inserts db now req a (as_strings ns) _ _ Hnum Hne' Hv Hamt Hia
              Hq (has_strings _ _) (Array_join_strings ns) (contains_nul_numerals ns))
    as (row & E & Hrow & _).
  exists row. split; [exact E|]. split; [now split|].
  rewrite E. unfold ledger_holds. cbn [fst donations].
  apply Forall2_app; [exact Hl|]. constructor; [now split | constructor].
Qed.

Lemma string_numbers_not_checked_witness :
  exists row,
    recordDonation db_3_7 2000 (donation 7 [Str "7"])
    = ({| donations := donations db_3_7 ++ [row];
          donations_id_seq := 2;
          state := state db_3_7 |}, Reply 201 BOk)
    /\ holds row [7]
    /\ ledger_holds (recordDonation db_3_7 2000 (donation 7 [Str "7"])).1 [[3; 7]; [7]].
Proof.
  apply (string_numbers_not_checked db_3_7 2000 7 (donation 7 [Str "7"]) [7] [[3; 7]]).
  - reflexivity.
  - discriminate.
  - repeat constructor.
  - apply valid_fields_donation. lia.
  - reflexivity.
  - reflexivity.
  - repeat constructor.
Defined.

(** *** A row that does not unnest *)

Lemma traverse_Rejected {A B} (f : A -> Result B) l :
  Exists (fun a => f a = Rejected) l -> traverse f l = Rejected.
Proof.
  induction 1 as [a l Ha | a l _ IH]; simpl.
  - now rewrite Ha.
  - rewrite IH. now destruct (f a).
Qed.

Lemma e_Rejected db :
  Exists (fun d => unnest_numbers d = Rejected) (donations db) -> e db = Rejected.
Proof. intros H. unfold e. now rewrite traverse_Rejected. Qed.

Lemma select_conflicts_Rejected db l : e db = Rejected -> select_conflicts db l = Rejected.
Proof.
  intros H. unfold select_conflicts. rewrite H. now destruct (int_array_param l).
Qed.

Lemma getState_Rejected db : e db = Rejected -> getState db = server_error.
Proof.
  intros H. unfold getState, select_taken. rewrite H.
  now destruct (select_totals db) as [[? ?]|].
Qed.

Lemma recordDonation_blocked db now req :
  e db = Rejected ->
  (recordDonation db now req).1 = db
  /\ status (recordDonation db now req).2 <> 201
  /\ (nonempty_array (b_numbers req) -> passes_field_checks req ->
      recordDonation db now req = (db, server_error)).
Proof.
  intros H. rewrite recordDonation_cases.
  destruct (b_numbers req) as [a|[|a l]] eqn:En.
  - repeat split; try (cbn; lia). intros (x & y & [=]).
  - repeat split; try (cbn; lia). intros (x & y & [=]).
  - rewrite (select_conflicts_Rejected _ _ H). split; [|split].
    + field_checks ltac:(reflexivity). reflexivity.
    + field_checks ltac:(cbn; lia). cbn; lia.
    + intros _ (Ha & Hm & Hdn & Hdp & Hda).
      rewrite (amount_check_passes _ Ha), (method_check_passes _ Hm), Hdn, Hdp, Hda.
      reflexivity.
Qed.

(** X7.  One stored row whose [numbers] text has an element that
    PostgreSQL does not read as an [integer] (the empty text between
    two commas, for one) takes the service down: the state query
    rejects, so [getState] answers 500, and so does every donation
    with a non-empty array of numbers that passes the field checks;
    no donation is recorded any more. *)
Theorem row_that_does_not_unnest (db : Db) :
  Exists (fun d => unnest_numbers d = Rejected) (donations db) ->
  getState db = server_error
  /\ forall now req,
       (recordDonation db now req).1 = db
       /\ status (recordDonation db now req).2 <> 201
       /\ (nonempty_array (b_numbers req) -> passes_field_checks req ->
           recordDonation db now req = (db, server_error)).
Proof.
  intros H%e_Rejected. split; [now apply getState_Rejected|].
  intros now req. now apply recordDonation_blocked.
Qed.

Lemma row_that_does_not_unnest_witness :
  getState (recordDonation db_3_7 2000 (donation 5 [Null; Null])).1 = server_error
  /\ recordDonation (recordDonation db_3_7 2000 (donation 5 [Null; Null])).1 3000
       (donation 9 [int 9])
     = ((recordDonation db_3_7 2000 (donation 5 [Null; Null])).1, server_error).
Proof.
  destruct (row_that_does_not_unnest
              (recordDonation db_3_7 2000 (donation 5 [Null; Null])).1) as [H1 H2].
  - apply Exists_cons_tl, Exists_cons_hd. reflexivity.
  - split; [exact H1|]. apply (H2 3000 (donation 9 [int 9])).
    + now exists (int 9), [].
    + split; [exists 9; split; [reflexivity | lia]|].
      split; [exists "venmo"; split; [reflexivity | apply (bool_decide_unpack _); reflexivity]|].
      repeat split.
Defined.

(** *** [null] elements *)

Lemma int_array_param_nulls k :
  int_array_param (replicate k Null) = Ok (replicate k None).
Proof.
  induction k as [|k IH]; [reflexivity|].
  unfold int_array_param in *. cbn [replicate traverse prepareAtom]. now rewrite IH.
Qed.

Lemma has_nulls S k : List.filter (has S) (replicate k Null) = [].
Proof. induction k as [|k IH]; [reflexivity | exact IH]. Qed.

Lemma Array_join_nulls k :
  Array_join "," (replicate k Null) = Returns (join "," (replicate k EmptyString)).
Proof.
  unfold Array_join.
  assert (existsb throws (replicate k Null) = false) as ->
    by (induction k as [|k IH]; [reflexivity | exact IH]).
  f_equal. f_equal. induction k as [|k IH]; [reflexivity|]. cbn. now rewrite IH.
Qed.

Lemma contains_nul_commas k : contains nul (join "," (replicate k EmptyString)) = false.
Proof.
  apply contains_join; [reflexivity|].
  induction k as [|k IH]; constructor; [reflexivity | exact IH].
Qed.

Lemma commas_rejected k :
  traverse int4in (split "," (join "," (replicate (S (S k)) EmptyString))) = Rejected.
Proof. reflexivity. Qed.

(** X8.  The elements of [numbers] are not looked at before the
    queries, and [null] passes them: over a ledger that holds
    integers, a submission of [null]s with valid fields and an amount
    of the 32-bit range is recorded.  One [null] stores the empty
    text, a donation that holds no number; two or more store commas
    only, a row that does not unnest, after which [getState] answers
    500. *)
Theorem null_numbers_recorded (db : Db) (now a : Z) (req : DonationBody)
    (k : nat) (nss : list (list Z)) :
  b_numbers req = Arr (replicate (S k) Null) ->
  valid_fields req ->
  b_amount req = Atomic (Num (Int a)) ->
  in_int4 a = true ->
  ledger_holds db nss ->
  exists row,
    recordDonation db now req
    = ({| donations := donations db ++ [row];
          donations_id_seq := donations_id_seq db + 1;
          state := state db |}, Reply 201 BOk)
    /\ numbers row = join "," (replicate (S k) EmptyString)
    /\ (k = 0%nat -> holds row [] /\ unnest_numbers row = Ok [])
    /\ ((0 < k)%nat ->
        unnest_numbers row = Rejected
        /\ getState (recordDonation db now req).1 = server_error).
Proof.
  intros Hnum Hv Hamt Hia Hl.
  assert (Hq : select_conflicts db (replicate (S k) Null)
               = Ok (List.filter (fun n => eq_any n (replicate (S k) None)) (concat nss))).
  { unfold select_conflicts. rewrite int_array_param_nulls.
    cbn [mbind result_bind].
    now rewrite (e_ledger _ _ (ledger_holds_numbers _ _ Hl)). }
  destruct (recordDonation_inserts db now req a (replicate (S k) Null) _ _ Hnum
              ltac:(discriminate) Hv Hamt Hia Hq (has_nulls _ _) (Array_join_nulls (S k))
              (contains_nul_commas (S k)))
    as (row & E & Hrow & _).
  exists row. split; [exact E|]. split; [exact Hrow|]. split.
  - intros ->. split; [split; [exact Hrow | constructor]|].
    unfold unnest_numbers. now rewrite Hrow.
  - intros Hk. destruct k as [|k]; [lia|].
    assert (Hun : unnest_numbers row = Rejected).
    { unfold unnest_numbers. rewrite Hrow.
      destruct (join "," (replicate (S (S k)) EmptyString)) eqn:Ej; [discriminate|].
      rewrite <- Ej. apply commas_rejected. }
    split; [exact Hun|]. rewrite E. cbn [fst].
    apply getState_Rejected, e_Rejected. cbn [donations].
    apply Exists_app. right. now constructor.
Qed.

Lemma null_numbers_recorded_witness :
  exists row,
    recordDonation db_3_7 2000 (donation 5 [Null; Null])
    = ({| donations := donations db_3_7 ++ [row];
          donations_id_seq := 2;
          state := state db_3_7 |}, Reply 201 BOk)
    /\ numbers row = ","
    /\ getState (recordDonation db_3_7 2000 (donation 5 [Null; Null])).1 = server_error.
Proof.
  destruct (null_numbers_recorded db_3_7 2000 5 (donation 5 [Null; Null]) 1 [[3; 7]])
    as (row & E & Hrow & _ & H).
  - reflexivity.
  - apply valid_fields_donation. lia.
  - reflexivity.
  - reflexivity.
  - repeat constructor.
  - exists row. split; [exact E|]. split; [exact Hrow | apply H; lia].
Defined.


(** *** The two updates of [POST /api/admin/state] *)

(** X9.  The bio and the goal are written by two separate [update]
    statements, the bio first, with no transaction around them: when
    the bio has a text without the character U+0000, and the goal
    reads as a number that does not fit the [integer] column, the
    request is answered 500, and the new bio is stored all the
    same. *)
Theorem bio_stored_goal_rejected (ADMIN_PASSWORD : string) (db : Db)
    (key : option string) (req : StateBody) (st : State) (s : string) (z : Z) :
  isAuthed ADMIN_PASSWORD key = true ->
  state db = Some st ->
  b_bio req <> Atomic Undefined ->
  ToString (b_bio req) = Returns s ->
  contains nul s = false ->
  parseInt (b_goal req) = Returns (Some z) ->
  in_int4 z = false ->
  updateState ADMIN_PASSWORD db key req
  = ({| donations := donations db;
        donations_id_seq := donations_id_seq db;
        state := Some {| goal := goal st; bio := s |} |},
     server_error).
Proof.
  intros Hauth Hst Hbio Hs Hnul Hz Hout. unfold updateState. rewrite Hauth. cbn [negb].
  rewrite (is_undefined_false _ Hbio). cbn [negb]. rewrite Hs.
  rewrite (update_bio_Ok _ _ Hnul).
  assert (Hgoal : b_goal req <> Atomic Undefined).
  { intros E. rewrite E in Hz. discriminate. }
  rewrite (is_undefined_false _ Hgoal). cbn [negb]. rewrite Hz.
  assert (Hd : or_default (Some z) 3500 = z).
  { unfold or_default. destruct z; [discriminate | reflexivity | reflexivity]. }
  rewrite Hd. rewrite (update_goal_Rejected _ _ Hout), Hst. reflexivity.
Qed.

Lemma bio_stored_goal_rejected_witness :
  updateState secret db_goal_5000 (Some secret)
    {| b_bio := Str "new bio"; b_goal := Str "4000000000" |}
  = ({| donations := donations db_goal_5000;
        donations_id_seq := donations_id_seq db_goal_5000;
        state := Some {| goal := 5000; bio := "new bio" |} |}, server_error).
Proof.
  apply (bio_stored_goal_rejected secret db_goal_5000 (Some secret)
           {| b_bio := Str "new bio"; b_goal := Str "4000000000" |}
           {| goal := 5000; bio := "hello" |} "new bio" 4000000000);
    try reflexivity; discriminate.
Defined.

(** *** The totals after a run of donations *)

Lemma disjoint_records_middle l1 ns l2 :
  disjoint_records (l1 ++ ns :: l2) ->
  Forall (fun n => n ∉ concat l1) ns /\ disjoint_records (l1 ++ [ns]).
Proof.
  induction l1 as [|l l1 IH]; simpl.
  - intros _. split; [|split; [|exact I]]; apply Forall_forall; intros n _;
      apply not_elem_of_nil.
  - intros [Hl Hd]. destruct (IH Hd) as [H1 H2]. split; [|split; [|exact H2]].
    + apply Forall_forall. intros n Hn. rewrite elem_of_app. intros [Hin|Hin].
      * rewrite Forall_forall in Hl. apply (Hl n Hin).
        rewrite concat_app. apply elem_of_app. right. simpl. apply elem_of_app. now left.
      * rewrite Forall_forall in H1. now apply (H1 n Hn).
    + apply Forall_forall. intros n Hn. rewrite Forall_forall in Hl.
      intros Hin. apply (Hl n Hn). rewrite concat_app in *. simpl in *.
      rewrite app_nil_r in Hin. apply elem_of_app in Hin as [Hin|Hin];
        apply elem_of_app; [now left | right; apply elem_of_app; now left].
Qed.

Lemma valid_pledge_fields p : valid_pledge p -> valid_fields (body_of p).
Proof.
  intros (Ha & _ & _ & Hm & [Hn Hn'] & [Hp Hp'] & [Hd Hd']).
  split; [now exists (p_amount p)|]. split; [now exists (p_method p)|].
  split; [|split]; eexists; (split; [reflexivity | now split]).
Qed.

Lemma foldl_pledges pw ps : forall db nss,
  ledger_holds db nss ->
  Forall valid_pledge ps ->
  Forall (fun p => in_int4 (p_amount p) = true) ps ->
  disjoint_records (nss ++ map p_numbers ps) ->
  let db' := foldl (step pw) db (map request_of ps) in
  ledger_holds db' (nss ++ map p_numbers ps)
  /\ total_amount (donations db') = total_amount (donations db) + pledged ps
  /\ length (donations db') = (length (donations db) + length ps)%nat
  /\ state db' = state db.
Proof.
  induction ps as [|p ps IH]; intros db nss Hl Hv Hfit Hd; simpl.
  - rewrite app_nil_r. unfold pledged. simpl. repeat split; [exact Hl | lia | lia].
  - inversion Hv as [|? ? Hp Hps]; subst. inversion Hfit as [|? ? Hfp Hfps]; subst.
    simpl in Hd. destruct (disjoint_records_middle _ _ _ Hd) as [Hfree _].
    pose proof Hp as (_ & Hne & Hns & _).
    destruct (recordDonation_accepts db (p_now p) (body_of p) (p_amount p) (p_numbers p) nss
                eq_refl Hne Hns (valid_pledge_fields _ Hp) eq_refl Hfp
                (ledger_holds_numbers _ _ Hl) Hfree)
      as (row & E & _ & Hamt & Hun & _).
    rewrite E. cbn [fst].
    set (db1 := {| donations := donations db ++ [row] |}).
    assert (Hl1 : ledger_holds db1 (nss ++ [p_numbers p])).
    { unfold ledger_holds. cbn. apply Forall2_app; [exact Hl|]. now constructor. }
    specialize (IH db1 (nss ++ [p_numbers p]) Hl1 Hps Hfps).
    rewrite <- app_assoc in IH. cbn [app] in IH. specialize (IH Hd).
    destruct IH as (H1 & H2 & H3 & H4). split; [exact H1|].
    split; [|split; [|exact H4]].
    + rewrite H2. cbn [db1 donations]. rewrite total_amount_app, Hamt.
      unfold pledged. simpl. lia.
    + rewrite H3. cbn [db1 donations]. rewrite length_app. simpl. lia.
Qed.

Lemma pledged_bounds ps :
  Forall valid_pledge ps ->
  Z.of_nat (length ps) <= pledged ps /\ Forall (fun p => 0 < p_amount p <= pledged ps) ps.
Proof.
  induction 1 as [|p ps Hp _ [IH1 IH2]]; unfold pledged in *; simpl.
  - split; [lia | constructor].
  - destruct Hp as (Ha & _). split; [lia|]. constructor; [lia|].
    eapply Forall_impl; [exact IH2|]. simpl. intros q Hq. lia.
Qed.

(** X10.  Donations submitted one after another to a fresh server
    are all recorded when each of them has a positive integer amount,
    a non-empty list of numbers of the 32-bit range, one of the five
    methods and non-empty donor texts without the character U+0000,
    when no number of one is a number of a later one, and when the
    amounts sum to at most 2147483647: the state then reports the sum
    of their amounts, their count, the default goal and bio, and as
    taken numbers exactly the numbers of all of them, each once; and
    the ledger holds their numbers, record by record. *)
Theorem totals_after_donations (ADMIN_PASSWORD : string) (ps : list Pledge) :
  Forall valid_pledge ps ->
  disjoint_records (map p_numbers ps) ->
  pledged ps <= int4_max ->
  exists taken,
    getState (run ADMIN_PASSWORD (map request_of ps))
    = Reply 200 (BState (pledged ps) (Z.of_nat (length ps)) 3500 default_bio taken)
    /\ NoDup taken
    /\ list_to_set taken =@{gset Z} ⋃ (list_to_set <$> map p_numbers ps)
    /\ ledger_holds (run ADMIN_PASSWORD (map request_of ps)) (map p_numbers ps).
Proof.
  intros Hv Hd Hsum.
  destruct (pledged_bounds ps Hv) as [Hlen Hamts].
  assert (Hfit : Forall (fun p => in_int4 (p_amount p) = true) ps).
  { eapply Forall_impl; [exact Hamts|]. simpl. intros p Hp.
    unfold in_int4, int4_min, int4_max in *. apply andb_true_iff.
    split; apply Z.leb_le; lia. }
  assert (Hl0 : ledger_holds empty_db []) by constructor.
  destruct (foldl_pledges ADMIN_PASSWORD ps empty_db [] Hl0 Hv Hfit Hd)
    as (Hl & Htot & Hcount & Hst).
  fold (run ADMIN_PASSWORD (map request_of ps)) in Hl, Htot, Hcount, Hst.
  cbn [app] in Hl. cbn in Htot, Hcount.
  exists (elements (list_to_set (concat (map p_numbers ps)) : gset Z)).
  split; [|split; [apply NoDup_elements|split; [|exact Hl]]].
  - rewrite (getState_ledger _ _ (ledger_holds_numbers _ _ Hl)).
    + rewrite Htot, Hcount, Hst. reflexivity.
    + rewrite Htot. unfold in_int4, int4_min, int4_max in *. apply andb_true_iff.
      split; apply Z.leb_le; lia.
    + rewrite Hcount. unfold in_int4, int4_min, int4_max in *. apply andb_true_iff.
      split; apply Z.leb_le; lia.
  - rewrite list_to_set_elements_L. apply list_to_set_concat.
Qed.

Lemma totals_after_donations_witness :
  exists taken,
    getState (run secret
      (map request_of
         [ {| p_now := 1000; p_amount := 10; p_numbers := [3; 7]; p_method := "venmo";
              p_name := "A"; p_phone := "1"; p_address := "X" |};
           {| p_now := 2000; p_amount := 18; p_numbers := [9; 9]; p_method := "manual";
              p_name := "B"; p_phone := "2"; p_address := "Y" |} ]))
    = Reply 200 (BState 28 2 3500 default_bio taken)
    /\ NoDup taken
    /\ list_to_set taken =@{gset Z} {[3; 7; 9]}.
Proof.
  destruct (totals_after_donations secret
      [ {| p_now := 1000; p_amount := 10; p_numbers := [3; 7]; p_method := "venmo";
           p_name := "A"; p_phone := "1"; p_address := "X" |};
        {| p_now := 2000; p_amount := 18; p_numbers := [9; 9]; p_method := "manual";
           p_name := "B"; p_phone := "2"; p_address := "Y" |} ])
    as (taken & H1 & H2 & H3 & _).
  - repeat constructor; try discriminate; try (cbn; lia);
      apply (bool_decide_unpack _); reflexivity.
  - cbn. repeat constructor; apply (bool_decide_unpack _); reflexivity.
  - cbn. unfold int4_max. lia.
  - exists taken. split; [exact H1|]. split; [exact H2|].
    rewrite H3. apply (bool_decide_unpack _). reflexivity.
Defined.


(** *** An append-only ledger *)

Lemma amount_check_inv v :
  negb (Number_isInteger v) || le_zero v = false -> positive_integer v.
Proof.
  destruct v as [[| | |[z|]| |]|]; simpl; try discriminate.
  intros H%Z.leb_gt. now exists z.
Qed.

Lemma method_check_inv v : negb (includes methods v) = false -> known_method v.
Proof.
  destruct v as [[| | | |m|]|]; simpl; try discriminate.
  intros H%negb_false_iff%bool_decide_eq_true. now exists m.
Qed.

(** A 201 means the amount and the method passed their checks. *)
Lemma recordDonation_201_fields db now req :
  status (recordDonation db now req).2 = 201 ->
  positive_integer (b_amount req) /\ known_method (b_method req).
Proof.
  rewrite recordDonation_cases.
  destruct (b_numbers req) as [a|[|a l]]; try discriminate.
  destruct (negb (Number_isInteger (b_amount req)) || le_zero (b_amount req)) eqn:Ea;
    [discriminate|].
  destruct (negb (includes methods (b_method req))) eqn:Em; [discriminate|].
  intros _. split; [now apply amount_check_inv | now apply method_check_inv].
Qed.

Lemma step_appends pw db r :
  Forall (fun d => 0 < amount d /\ method d ∈ methods) (donations db) ->
  donations db `prefix_of` donations (step pw db r)
  /\ Forall (fun d => 0 < amount d /\ method d ∈ methods) (donations (step pw db r)).
Proof.
  intros H. destruct r as [now req | key req]; simpl.
  - destruct (recordDonation_effect db now req)
      as [[E _]|(row & rows & E & _ & _ & _ & Hamt & _ & Hm & _)].
    + rewrite E. split; [reflexivity | exact H].
    + destruct (recordDonation_201_fields db now req) as [(z & Ez & Hz) (m & Em & Hin)];
        [now rewrite E|].
      rewrite Ez in Hamt. apply int_param_int in Hamt as [_ Hamt].
      rewrite Em in Hm. apply text_param_Str_inv in Hm as [Hm _].
      rewrite E. cbn [fst donations]. split; [now apply prefix_app_r|].
      apply Forall_app. split; [exact H|]. constructor; [|constructor].
      rewrite Hamt, Hm. now split.
  - rewrite updateState_donations. split; [reflexivity | exact H].
Qed.

(** X11.  The ledger only grows: whatever requests follow, in whatever
    order and with whatever bodies, the donations stored so far stay
    as they are at the head of the table, so no handler updates or
    deletes a donation; and every stored donation has a positive
    amount and one of the five methods. *)
Theorem ledger_append_only (ADMIN_PASSWORD : string) (rs rs' : list Request) :
  donations (run ADMIN_PASSWORD rs) `prefix_of` donations (run ADMIN_PASSWORD (rs ++ rs'))
  /\ Forall (fun d => 0 < amount d /\ method d ∈ methods)
       (donations (run ADMIN_PASSWORD rs)).
Proof.
  split.
  - unfold run. rewrite foldl_app. generalize (foldl (step ADMIN_PASSWORD) empty_db rs) as db.
    induction rs' as [|r rs' IH]; intros db; simpl; [reflexivity|].
    etransitivity; [|apply IH].
    assert (Hp : forall d r0, donations d `prefix_of` donations (step ADMIN_PASSWORD d r0)).
    { intros d [now req | key req]; simpl.
      - destruct (recordDonation_effect d now req) as [[E _]|(row & rows & E & _)]; rewrite E;
          [reflexivity | now apply prefix_app_r].
      - now rewrite updateState_donations. }
    apply Hp.
  - apply (run_ind (fun _ => True)
             (fun db => Forall (fun d => 0 < amount d /\ method d ∈ methods) (donations db))).
    + constructor.
    + intros db r _ H. now apply step_appends.
    + apply Forall_True.
Qed.

End Reach.

(** ** Properties of the page script *)

Module PageFacts.
Import Text JS PG Csv Server Terms LedgerTerms Page PageTerms.
Import TextFacts PGFacts Ledger.

(** *** White space at the two ends *)

Lemma string_length_ind (P : string -> Prop) :
  (forall s, (forall t, (String.length t < String.length s)%nat -> P t) -> P s) ->
  forall s, P s.
Proof.
  intros H s. induction (Nat.lt_wf_0_projected String.length s) as [s _ IH].
  apply H, IH.
Qed.

Section SkipChars.
Variable w1 : ascii -> bool.
Variable w2 : ascii -> ascii -> bool.
Variable w3 : ascii -> ascii -> ascii -> bool.

(** The text starts with a character that [skip_chars] drops. *)
Definition head_white (s : string) : bool :=
  match s with
  | String a r =>
      w1 a || match r with
              | String b r2 =>
                  w2 a b || match r2 with
                            | String c _ => w3 a b c
                            | EmptyString => false
                            end
              | EmptyString => false
              end
  | EmptyString => false
  end.

Lemma skip_chars_id s : head_white s = false -> skip_chars w1 w2 w3 s = s.
Proof.
  destruct s as [|a [|b [|c r]]]; cbn [head_white skip_chars]; try reflexivity.
  - rewrite orb_false_r. now intros ->.
  - rewrite orb_false_r. intros [-> ->]%orb_false_iff. reflexivity.
  - intros [-> [-> ->]%orb_false_iff]%orb_false_iff. reflexivity.
Qed.

(** The cases of [skip_chars], as an induction principle. *)
Lemma skip_chars_cases (P : string -> string -> Prop) :
  (forall s, head_white s = false -> P s s) ->
  (forall a r, w1 a = true ->
     P r (skip_chars w1 w2 w3 r) -> P (String a r) (skip_chars w1 w2 w3 r)) ->
  (forall a b r, w1 a = false -> w2 a b = true ->
     P r (skip_chars w1 w2 w3 r) -> P (String a (String b r)) (skip_chars w1 w2 w3 r)) ->
  (forall a b c r, w1 a = false -> w2 a b = false -> w3 a b c = true ->
     P r (skip_chars w1 w2 w3 r) ->
     P (String a (String b (String c r))) (skip_chars w1 w2 w3 r)) ->
  forall s, P s (skip_chars w1 w2 w3 s).
Proof.
  intros H0 H1 H2 H3 s. induction s as [s IH] using string_length_ind.
  destruct (head_white s) eqn:Eh.
  - destruct s as [|a [|b [|c r]]]; cbn [head_white skip_chars] in *; try discriminate.
    + rewrite orb_false_r in Eh. rewrite Eh. apply H1; [exact Eh|]. apply IH. simpl. lia.
    + rewrite orb_false_r in Eh. destruct (w1 a) eqn:E1.
      * apply H1; [exact E1|]. apply IH. simpl. lia.
      * cbn [orb] in Eh. rewrite Eh. apply H2; [exact E1 | exact Eh|]. apply IH. simpl. lia.
    + destruct (w1 a) eqn:E1.
      * apply H1; [exact E1|]. apply IH. simpl. lia.
      * destruct (w2 a b) eqn:E2.
        -- apply H2; [exact E1 | exact E2|]. apply IH. simpl. lia.
        -- cbn [orb] in Eh. rewrite Eh. apply H3; [exact E1 | exact E2 | exact Eh|].
           apply IH. simpl. lia.
  - rewrite (skip_chars_id _ Eh). now apply H0.
Qed.

Lemma skip_chars_suffix s : exists p, s = p +:+ skip_chars w1 w2 w3 s.
Proof.
  apply (skip_chars_cases (fun s t => exists p, s = p +:+ t)).
  - intros t _. now exists EmptyString.
  - intros a r _ [p Hp]. exists (String a p). cbn [String.append]. now f_equal.
  - intros a b r _ _ [p Hp]. exists (String a (String b p)). cbn [String.append].
    now do 2 f_equal.
  - intros a b c r _ _ _ [p Hp]. exists (String a (String b (String c p))).
    cbn [String.append]. now do 3 f_equal.
Qed.

Lemma skip_chars_head s : head_white (skip_chars w1 w2 w3 s) = false.
Proof. apply (skip_chars_cases (fun _ t => head_white t = false)); auto. Qed.

Lemma skip_chars_idem s :
  skip_chars w1 w2 w3 (skip_chars w1 w2 w3 s) = skip_chars w1 w2 w3 s.
Proof. apply skip_chars_id, skip_chars_head. Qed.

Lemma skip_chars_run s : skip_chars w1 w2 w3 s = EmptyString -> white_run w1 w2 w3 s.
Proof.
  apply (skip_chars_cases (fun s t => t = EmptyString -> white_run w1 w2 w3 s)).
  - intros t _ ->. constructor.
  - intros a r Ha IH E. apply run_1; auto.
  - intros a b r _ Hab IH E. apply run_2; auto.
  - intros a b c r _ _ Habc IH E. apply run_3; auto.
Qed.

Lemma run_skip_chars s :
  (forall a b, w2 a b = true -> w1 a = false) ->
  (forall a b c, w3 a b c = true -> w1 a = false /\ w2 a b = false) ->
  white_run w1 w2 w3 s -> skip_chars w1 w2 w3 s = EmptyString.
Proof.
  intros H12 H13. induction 1 as [|a s Ha _ IH|a b s Hab _ IH|a b c s Habc _ IH];
    cbn [skip_chars]; [reflexivity| | |].
  - now rewrite Ha.
  - now rewrite (H12 _ _ Hab), Hab.
  - destruct (H13 _ _ _ Habc) as [-> ->]. now rewrite Habc.
Qed.

Lemma head_white_prefix p q : head_white (p +:+ q) = false -> head_white p = false.
Proof.
  destruct p as [|a [|b [|c r]]]; cbn [head_white String.append]; [reflexivity| | |].
  - intros [-> _]%orb_false_iff. reflexivity.
  - intros [-> [-> _]%orb_false_iff]%orb_false_iff. reflexivity.
  - auto.
Qed.

Lemma head_white_run w r :
  white_run w1 w2 w3 w -> w <> EmptyString -> head_white (w +:+ r) = true.
Proof.
  intros [|a s Ha _|a b s Hab _|a b c s Habc _] Hne; [congruence| | |];
    cbn [String.append head_white].
  - now rewrite Ha.
  - now rewrite Hab, orb_true_r.
  - now rewrite Habc, !orb_true_r.
Qed.

Lemma white_run_app s t :
  white_run w1 w2 w3 s -> white_run w1 w2 w3 t -> white_run w1 w2 w3 (s +:+ t).
Proof.
  intros Hs Ht. induction Hs; cbn [String.append]; [exact Ht | | |];
    [apply run_1 | apply run_2 | apply run_3]; assumption.
Qed.

End SkipChars.

Lemma string_of_list_ascii_app l l' :
  string_of_list_ascii (l ++ l') = string_of_list_ascii l +:+ string_of_list_ascii l'.
Proof. induction l as [|c l IH]; simpl; [reflexivity | now rewrite IH]. Qed.

Lemma rev_string_cons a s : rev_string (String a s) = rev_string s +:+ String a EmptyString.
Proof. unfold rev_string. simpl. now rewrite string_of_list_ascii_app. Qed.

Lemma rev_string_app s t : rev_string (s +:+ t) = rev_string t +:+ rev_string s.
Proof.
  induction s as [|c s IH]; cbn [String.append].
  - change (rev_string EmptyString) with EmptyString. now rewrite append_nil_r.
  - now rewrite !rev_string_cons, IH, append_assoc.
Qed.

Lemma rev_string_involutive s : rev_string (rev_string s) = s.
Proof.
  unfold rev_string.
  now rewrite list_ascii_of_string_of_list_ascii, rev_involutive,
    string_of_list_ascii_of_string.
Qed.

Lemma rev_string_empty s : rev_string s = EmptyString -> s = EmptyString.
Proof. intros H. now rewrite <- (rev_string_involutive s), H. Qed.

Lemma white_run_rev w1 w2 w3 s :
  white_run w1 (fun a b => w2 b a) (fun a b c => w3 c b a) s ->
  white_run w1 w2 w3 (rev_string s).
Proof.
  induction 1 as [|a s Ha _ IH|a b s Hab _ IH|a b c s Habc _ IH];
    rewrite ?rev_string_cons, ?append_assoc; cbn [String.append].
  - constructor.
  - apply white_run_app; [exact IH|]. apply run_1; [exact Ha | constructor].
  - apply white_run_app; [exact IH|]. apply run_2; [exact Hab | constructor].
  - apply white_run_app; [exact IH|]. apply run_3; [exact Habc | constructor].
Qed.

(** The bytes of the white space of more than one byte are not those
    of ASCII characters. *)
Lemma is_space_low a : is_space a = true -> (nat_of_ascii a <= 32)%nat.
Proof.
  unfold is_space. cbv zeta.
  rewrite orb_true_iff, andb_true_iff, !Nat.leb_le, Nat.eqb_eq. lia.
Qed.

Lemma white2_high a b :
  white2 a b = true -> (128 <= nat_of_ascii a)%nat /\ (128 <= nat_of_ascii b)%nat.
Proof. unfold white2. rewrite andb_true_iff, !Nat.eqb_eq. lia. Qed.

Lemma white3_high a b c :
  white3 a b c = true ->
  (128 <= nat_of_ascii a)%nat /\ (128 <= nat_of_ascii b)%nat /\ (128 <= nat_of_ascii c)%nat
  /\ white2 a b = false /\ white2 c b = false.
Proof.
  unfold white3, white2. cbv zeta.
  rewrite !orb_true_iff, !andb_true_iff, !orb_true_iff, !andb_true_iff, !andb_false_iff,
    !Nat.eqb_eq, !Nat.leb_le, !Nat.eqb_neq.
  lia.
Qed.

Lemma low_not_space a : (32 < nat_of_ascii a)%nat -> is_space a = false.
Proof. intros H. apply not_true_is_false. intros E%is_space_low. lia. Qed.

Lemma high_not_space a : (128 <= nat_of_ascii a)%nat -> is_space a = false.
Proof. intros H. apply low_not_space. lia. Qed.

Lemma low_not_white2 a b :
  (nat_of_ascii a < 128)%nat \/ (nat_of_ascii b < 128)%nat -> white2 a b = false.
Proof. intros H. apply not_true_is_false. intros E%white2_high. lia. Qed.

Lemma low_not_white3 a b c :
  (nat_of_ascii a < 128)%nat \/ (nat_of_ascii b < 128)%nat \/ (nat_of_ascii c < 128)%nat ->
  white3 a b c = false.
Proof. intros H. apply not_true_is_false. intros E%white3_high. lia. Qed.

(** A text that starts with a visible ASCII character has no white
    space at its head, and none at its end when it ends with one. *)
Lemma head_white_low a r :
  (32 < nat_of_ascii a < 128)%nat -> head_white is_space white2 white3 (String a r) = false.
Proof.
  intros H. cbn [head_white]. rewrite low_not_space by lia.
  destruct r as [|b [|c r]]; [reflexivity| |];
    rewrite low_not_white2 by lia; [reflexivity|].
  now rewrite low_not_white3 by lia.
Qed.

Lemma head_white_rev_low a r :
  (32 < nat_of_ascii a < 128)%nat ->
  head_white is_space (fun a b => white2 b a) (fun a b c => white3 c b a) (String a r) = false.
Proof.
  intros H. cbn [head_white]. rewrite low_not_space by lia.
  destruct r as [|b [|c r]]; [reflexivity| |];
    rewrite low_not_white2 by lia; [reflexivity|].
  now rewrite low_not_white3 by lia.
Qed.

Lemma skip_white_run s : skip_white s = EmptyString <-> blank s.
Proof.
  split; [apply skip_chars_run|]. apply run_skip_chars.
  - intros a b H%white2_high. apply high_not_space. lia.
  - intros a b c H%white3_high. split; [apply high_not_space; lia | tauto].
Qed.

Lemma skip_white_rev_run s : skip_white_rev s = EmptyString -> blank (rev_string s).
Proof. intros H%skip_chars_run. now apply white_run_rev. Qed.

Lemma trim_blank s : trim s = EmptyString <-> blank s.
Proof.
  split.
  - unfold trim. intros H%rev_string_empty%skip_white_rev_run.
    rewrite rev_string_involutive in H. apply skip_white_run in H.
    unfold skip_white in H. rewrite skip_chars_idem in H. now apply skip_white_run.
  - intros H%skip_white_run. unfold trim. now rewrite H.
Qed.

(** What [trim] returns neither starts nor ends with white space. *)
Lemma trim_head s : head_white is_space white2 white3 (trim s) = false.
Proof.
  unfold trim. set (t := skip_white s).
  destruct (skip_chars_suffix is_space (fun a b => white2 b a)
              (fun a b c => white3 c b a) (rev_string t)) as [p Hp].
  fold (skip_white_rev (rev_string t)) in Hp.
  apply (head_white_prefix _ _ _ _ (rev_string p)).
  rewrite <- rev_string_app, <- Hp, rev_string_involutive. apply skip_chars_head.
Qed.

Lemma trim_last s :
  head_white is_space (fun a b => white2 b a) (fun a b c => white3 c b a)
    (rev_string (trim s)) = false.
Proof. unfold trim. rewrite rev_string_involutive. apply skip_chars_head. Qed.

Lemma trim_idem s : trim (trim s) = trim s.
Proof.
  unfold trim at 1. unfold skip_white, skip_white_rev.
  rewrite (skip_chars_id _ _ _ _ (trim_head s)), (skip_chars_id _ _ _ _ (trim_last s)).
  apply rev_string_involutive.
Qed.

Lemma trim_no_outer_white s w r :
  blank w -> w <> EmptyString -> trim s <> w +:+ r /\ trim s <> r +:+ w.
Proof.
  intros Hw Hne. split; intros E.
  - pose proof (trim_head s) as H. rewrite E, (head_white_run _ _ _ _ _ Hw Hne) in H.
    discriminate.
  - pose proof (trim_last s) as H. rewrite E, rev_string_app in H.
    rewrite head_white_run in H; [discriminate| |].
    + apply (white_run_rev is_space (fun a b => white2 b a) (fun a b c => white3 c b a)).
      exact Hw.
    + intros E'. now apply rev_string_empty in E'.
Qed.

Lemma contains_app c s t : contains c (s +:+ t) = contains c s || contains c t.
Proof.
  induction s as [|d s IH]; simpl; [reflexivity|]. now rewrite IH, orb_assoc.
Qed.

Lemma contains_rev_string c s : contains c (rev_string s) = contains c s.
Proof.
  induction s as [|d s IH]; [reflexivity|].
  rewrite rev_string_cons, contains_app, IH. cbn [contains].
  rewrite orb_false_r. apply orb_comm.
Qed.

Lemma contains_skip_chars c w1 w2 w3 s :
  contains c s = false -> contains c (skip_chars w1 w2 w3 s) = false.
Proof.
  intros H. destruct (skip_chars_suffix w1 w2 w3 s) as [p Hp].
  rewrite Hp, contains_app in H. now apply orb_false_iff in H as [_ H].
Qed.

Lemma contains_trim c s : contains c s = false -> contains c (trim s) = false.
Proof.
  intros H. unfold trim. rewrite contains_rev_string.
  apply contains_skip_chars. rewrite contains_rev_string. now apply contains_skip_chars.
Qed.

(** *** [sanitizeInput] *)

Ltac by_entity d tac :=
  unfold entity;
  destruct (Ascii.eqb_spec d "<") as [->|?]; [tac|];
  destruct (Ascii.eqb_spec d ">") as [->|?]; [tac|];
  destruct (Ascii.eqb_spec d dquote) as [->|?]; [tac|];
  destruct (Ascii.eqb_spec d "'") as [->|?]; [tac|];
  destruct (Ascii.eqb_spec d "&") as [->|?]; [tac|].

Lemma entity_cases c :
  entity c = String c EmptyString \/ exists r, entity c = String "&" r.
Proof.
  unfold entity.
  repeat (destruct (Ascii.eqb c _); [right; eexists; reflexivity|]). now left.
Qed.

Lemma entity_plain c :
  (nat_of_ascii c <= 32 \/ 128 <= nat_of_ascii c)%nat -> entity c = String c EmptyString.
Proof.
  intros H.
  by_entity c ltac:(destruct H as [H|H]; apply Nat.leb_le in H; vm_compute in H;
                    discriminate H).
  reflexivity.
Qed.

Lemma entity_no_markup c d :
  In c ["<"; ">"; dquote; "'"]%char -> contains c (entity d) = false.
Proof.
  intros Hc. by_entity d ltac:(destruct Hc as [<-|[<-|[<-|[<-|[]]]]]; reflexivity).
  cbn [contains]. rewrite orb_false_r. apply Ascii.eqb_neq.
  destruct Hc as [<-|[<-|[<-|[<-|[]]]]]; congruence.
Qed.

Lemma contains_map_entity c s :
  (forall d, contains c (entity d) = false) -> contains c (map_chars entity s) = false.
Proof.
  intros H. induction s as [|d s IH]; simpl; [reflexivity|].
  now rewrite contains_app, H, IH.
Qed.

(** A character that no entity holds stays out of the text. *)
Lemma contains_map_entity_other c s :
  contains c "&lt;&gt;&quot;&#x27;&amp;" = false ->
  contains c s = false -> contains c (map_chars entity s) = false.
Proof.
  intros Hc. induction s as [|d s IH]; cbn [contains map_chars]; [reflexivity|].
  intros [Hd Hs]%orb_false_iff. rewrite contains_app, (IH Hs), orb_false_r.
  cbn [contains] in Hc. repeat apply orb_false_iff in Hc as [? Hc].
  by_entity d ltac:(cbn [contains];
                    repeat (apply orb_false_iff; split; [assumption|]); reflexivity).
  cbn [contains]. now rewrite Hd.
Qed.

Lemma map_entity_cons s a t :
  map_chars entity s = String a t ->
  a = "&"%char \/ exists s', s = String a s' /\ map_chars entity s' = t.
Proof.
  destruct s as [|c s]; [discriminate|]. cbn [map_chars].
  destruct (entity_cases c) as [E|[r E]]; rewrite E; cbn [String.append];
    intros [= <- <-]; [right; eauto | now left].
Qed.

Lemma blank_map_id t : blank t -> map_chars entity t = t.
Proof.
  induction 1 as [|a s Ha _ IH|a b s Hab _ IH|a b c s Habc _ IH]; cbn [map_chars];
    [reflexivity| | |].
  - apply is_space_low in Ha. rewrite entity_plain, IH by lia. reflexivity.
  - apply white2_high in Hab. rewrite !entity_plain, IH by lia. reflexivity.
  - apply white3_high in Habc. rewrite !entity_plain, IH by lia. reflexivity.
Qed.

Lemma ampersand_low : (nat_of_ascii "&" < 128)%nat.
Proof. apply Nat.ltb_lt. reflexivity. Qed.

Lemma blank_unmap t : blank t -> forall s, map_chars entity s = t -> s = t.
Proof.
  induction 1 as [|a t Ha _ IH|a b t Hab _ IH|a b c t Habc _ IH]; intros s E.
  - destruct s as [|c s]; [reflexivity|]. cbn [map_chars] in E.
    destruct (entity_cases c) as [E1|[r E1]]; rewrite E1 in E; discriminate.
  - apply map_entity_cons in E as [->|(s1 & -> & E)]; [discriminate|].
    now rewrite (IH _ E).
  - apply white2_high in Hab.
    apply map_entity_cons in E as [->|(s1 & -> & E)]; [pose proof ampersand_low; lia|].
    apply map_entity_cons in E as [->|(s2 & -> & E)]; [pose proof ampersand_low; lia|].
    now rewrite (IH _ E).
  - apply white3_high in Habc.
    apply map_entity_cons in E as [->|(s1 & -> & E)]; [pose proof ampersand_low; lia|].
    apply map_entity_cons in E as [->|(s2 & -> & E)]; [pose proof ampersand_low; lia|].
    apply map_entity_cons in E as [->|(s3 & -> & E)]; [pose proof ampersand_low; lia|].
    now rewrite (IH _ E).
Qed.

Lemma blank_map_entity s : blank (map_chars entity s) <-> blank s.
Proof.
  split.
  - intros H. pose proof (blank_unmap _ H s eq_refl) as E. congruence.
  - intros H. now rewrite (blank_map_id _ H).
Qed.

Lemma map_entity_no_markup s : no_markup s -> map_chars entity s = s.
Proof.
  unfold no_markup. induction s as [|c s IH]; cbn [contains map_chars]; [reflexivity|].
  intros (H1 & H2 & H3 & H4 & H5).
  apply orb_false_iff in H1 as [H1 H1'], H2 as [H2 H2'], H3 as [H3 H3'],
    H4 as [H4 H4'], H5 as [H5 H5'].
  rewrite IH by tauto. unfold entity.
  rewrite (Ascii.eqb_sym c "<"), H1, (Ascii.eqb_sym c ">"), H2,
    (Ascii.eqb_sym c dquote), H3, (Ascii.eqb_sym c "'"), H4, (Ascii.eqb_sym c "&"), H5.
  reflexivity.
Qed.

(** X12.  What [sanitizeInput] hands on holds no angle bracket and no
    quote, and no white space at either end, where white space is what
    JavaScript takes for it, the characters beyond ASCII included: it
    neither starts nor ends with a run of white space, and trimming
    it again changes nothing; it is empty exactly for a text of white
    space only, and it is the text as typed when that holds none of
    the five replaced characters and no outer white space. *)
Theorem sanitizeInput_result (input : string) :
  contains "<" (sanitizeInput input) = false
  /\ contains ">" (sanitizeInput input) = false
  /\ contains dquote (sanitizeInput input) = false
  /\ contains "'" (sanitizeInput input) = false
  /\ trim (sanitizeInput input) = sanitizeInput input
  /\ (forall w r, blank w -> w <> EmptyString ->
        sanitizeInput input <> w +:+ r /\ sanitizeInput input <> r +:+ w)
  /\ (sanitizeInput input = EmptyString <-> blank input)
  /\ (no_markup input -> trim input = input -> sanitizeInput input = input).
Proof.
  unfold sanitizeInput.
  repeat (split; [apply contains_trim, contains_map_entity; intros d;
                  apply entity_no_markup; simpl; tauto|]).
  split; [apply trim_idem|]. split; [intros w r; apply trim_no_outer_white|]. split.
  - rewrite trim_blank. apply blank_map_entity.
  - intros Hm Ht. now rewrite (map_entity_no_markup _ Hm).
Qed.


(** *** The selection on the grid *)

Lemma grid_spec n : n ∈ grid <-> on_the_grid n.
Proof.
  unfold grid, on_the_grid. rewrite list_elem_of_fmap. split.
  - intros (k & -> & Hk). apply list_elem_of_In, in_seq in Hk. lia.
  - intros H. exists (Z.to_nat n). split; [lia|].
    apply list_elem_of_In, in_seq. lia.
Qed.

Lemma indexOf_None l n : indexOf l n = None <-> n ∉ l.
Proof.
  induction l as [|x l IH]; simpl.
  - split; [intros _; apply not_elem_of_nil | reflexivity].
  - rewrite not_elem_of_cons. destruct (Z.eqb_spec x n) as [->|Hx].
    + split; [discriminate | tauto].
    + destruct (indexOf l n); simpl.
      * split; [discriminate|]. intros [_ H]. apply IH in H. discriminate.
      * split; [|reflexivity]. intros _. split; [congruence | now apply IH].
Qed.

Lemma indexOf_Some l n i :
  indexOf l n = Some i ->
  exists l1 l2, (l = l1 ++ n :: l2) /\ (n ∉ l1) /\ (delete i l = l1 ++ l2).
Proof.
  revert i. induction l as [|x l IH]; intros i; simpl; [discriminate|].
  destruct (Z.eqb_spec x n) as [->|Hx].
  - intros [= <-]. exists [], l. repeat split. apply not_elem_of_nil.
  - destruct (indexOf l n) as [j|] eqn:E; simpl; [|discriminate].
    intros [= <-]. destruct (IH j eq_refl) as (l1 & l2 & -> & Hn & Hd).
    exists (x :: l1), l2. split; [reflexivity|]. split.
    + apply not_elem_of_cons. split; [congruence | exact Hn].
    + simpl. now rewrite Hd.
Qed.

(** One press: the selection stays free of repetitions, and only the
    pressed number changes sides, unless it is taken. *)
Lemma toggleNumber_spec donations sel n :
  NoDup sel ->
  NoDup (toggleNumber donations sel n)
  /\ forall m, m ∈ toggleNumber donations sel n <->
       (if decide (m = n /\ n ∉ donations) then m ∉ sel else m ∈ sel).
Proof.
  intros Hnd. unfold toggleNumber.
  destruct (bool_decide_reflect (n ∈ donations)) as [Ht|Ht].
  - split; [exact Hnd|]. intros m. destruct (decide _) as [[_ ?]|_]; tauto.
  - destruct (indexOf sel n) as [i|] eqn:E.
    + destruct (indexOf_Some _ _ _ E) as (l1 & l2 & -> & Hn1 & ->).
      apply NoDup_app in Hnd as (H1 & H12 & H2).
      apply NoDup_cons in H2 as [Hn2 H2].
      split.
      * apply NoDup_app. repeat split; [exact H1 | | exact H2].
        intros x Hx Hx2. apply (H12 x Hx). now right.
      * intros m.
        destruct (decide _) as [[-> _]|Hm]; rewrite !elem_of_app, elem_of_cons; [tauto|].
        assert (m <> n) by tauto. tauto.
    + apply indexOf_None in E. split.
      * apply NoDup_app. repeat split; [exact Hnd | | apply NoDup_singleton].
        intros x Hx ->%list_elem_of_singleton. contradiction.
      * intros m. rewrite elem_of_app, list_elem_of_singleton.
        destruct (decide _) as [[-> _]|Hm]; [tauto|].
        assert (m <> n) by tauto. tauto.
Qed.

Lemma selection_snoc donations clicks n :
  selection donations (clicks ++ [n])
  = toggleNumber donations (selection donations clicks) n.
Proof. unfold selection. now rewrite foldl_app. Qed.

Lemma selection_spec donations clicks :
  NoDup (selection donations clicks)
  /\ forall m, m ∈ selection donations clicks <->
       (m ∉ donations) /\ Nat.odd (count_occ Z.eq_dec clicks m) = true.
Proof.
  induction clicks as [|n clicks [IH1 IH2]] using rev_ind.
  - split; [constructor|]. intros m. simpl. split; [intros []%elem_of_nil|].
    intros [_ H]. discriminate.
  - rewrite selection_snoc.
    destruct (toggleNumber_spec donations _ n IH1) as [H1 H2].
    split; [exact H1|]. intros m. rewrite H2, count_occ_app. simpl.
    destruct (decide _) as [[-> Hn]|Hm].
    + rewrite IH2. destruct (Z.eq_dec n n) as [_|]; [|congruence].
      rewrite Nat.add_1_r, Nat.odd_succ, <- Nat.negb_odd.
      destruct (Nat.odd _); simpl; split.
      * intros H. exfalso. apply H. now split.
      * intros [_ [=]].
      * intros _. now split.
      * intros _ [_ [=]].
    + rewrite IH2. destruct (Z.eq_dec n m) as [<-|Hne].
      * assert (n ∈ donations) by (destruct (decide (n ∈ donations)); tauto). tauto.
      * now rewrite Nat.add_0_r.
Qed.

(** X13.  Whatever buttons of the grid are pressed, in whatever order,
    the selection holds no number twice and only numbers of the grid
    that the last state read did not report as taken: a number is
    selected exactly when it is not taken and was pressed an odd
    number of times. *)
Theorem selection_after_clicks (donations : gset Z) (clicks : list Z) :
  Forall (fun n => n ∈ grid) clicks ->
  NoDup (selection donations clicks)
  /\ Forall on_the_grid (selection donations clicks)
  /\ (forall m, m ∈ selection donations clicks <->
        (m ∉ donations) /\ Nat.odd (count_occ Z.eq_dec clicks m) = true).
Proof.
  intros Hg. destruct (selection_spec donations clicks) as [H1 H2].
  split; [exact H1|]. split; [|exact H2].
  apply Forall_forall. intros m [_ Hm]%H2. apply grid_spec.
  rewrite Forall_forall in Hg. apply Hg, list_elem_of_In.
  apply (count_occ_In Z.eq_dec). destruct (count_occ Z.eq_dec clicks m); [discriminate | lia].
Qed.

Lemma selection_after_clicks_witness :
  NoDup (selection {[3]} [5; 7; 3; 5; 9; 5])
  /\ Forall on_the_grid (selection {[3]} [5; 7; 3; 5; 9; 5])
  /\ selection {[3]} [5; 7; 3; 5; 9; 5] = [7; 9; 5].
Proof.
  destruct (selection_after_clicks {[3]} [5; 7; 3; 5; 9; 5]) as (H1 & H2 & _).
  - repeat constructor; apply (bool_decide_unpack _); reflexivity.
  - split; [exact H1|]. split; [exact H2 | reflexivity].
Defined.


(** *** The bodies the page sends *)

Lemma total_acc ns acc : foldl Z.add acc ns = acc + total ns.
Proof.
  unfold total. revert acc. induction ns as [|n ns IH]; intros acc; simpl; [lia|].
  rewrite (IH (acc + n)), (IH (0 + n)). lia.
Qed.

Lemma total_cons n ns : total (n :: ns) = n + total ns.
Proof. unfold total at 1. simpl. rewrite total_acc. lia. Qed.

Lemma total_pos ns : ns <> [] -> Forall on_the_grid ns -> 0 < total ns.
Proof.
  assert (H0 : forall l, Forall on_the_grid l -> 0 <= total l).
  { induction 1 as [|x l Hx _ IH]; [reflexivity|]. rewrite total_cons.
    unfold on_the_grid in Hx. lia. }
  intros Hne Hall. destruct Hall as [|n ns Hn Hns]; [congruence|].
  rewrite total_cons. specialize (H0 _ Hns). unfold on_the_grid in Hn. lia.
Qed.

Lemma on_grid_numbers (nums : list (option Z)) :
  Forall (fun n => on_grid n = true) nums ->
  exists ns, nums = map Some ns /\ Forall on_the_grid ns.
Proof.
  induction 1 as [|n nums Hn _ (ns & -> & Hns)]; [now exists []|].
  destruct n as [z|]; [|discriminate]. exists (z :: ns). split; [reflexivity|].
  constructor; [|exact Hns]. unfold on_the_grid.
  apply andb_true_iff in Hn as [?%Z.leb_le ?%Z.leb_le]. lia.
Qed.

Lemma foldl_plus ns acc : foldl plus (Some acc) (map Some ns) = Some (foldl Z.add acc ns).
Proof. revert acc. induction ns as [|n ns IH]; intros acc; simpl; [reflexivity | apply IH]. Qed.

Lemma modal_methods_known pay : pay ∈ modal_methods -> pay ∈ methods.
Proof.
  unfold modal_methods. rewrite !elem_of_cons, elem_of_nil.
  intros [->|[->|[->|[->|[]]]]]; apply (bool_decide_unpack _); reflexivity.
Qed.

Lemma nonempty_truthy s : String.eqb s EmptyString = false -> truthy (Str s) = true.
Proof. now destruct s. Qed.

(** What [markNumbersAsDonated] sends, when it sends. *)
Lemma markNumbersAsDonated_Some auth text req :
  markNumbersAsDonated auth text = Some req ->
  auth = true
  /\ exists ns,
       ns <> [] /\ Forall on_the_grid ns
       /\ map Some ns
          = List.filter on_grid
              (map (fun n => parseInt_no_radix (trim n)) (split "," (sanitizeInput text)))
       /\ req = {| b_amount := Num (Int (total ns));
                   b_numbers := Arr (map int ns);
                   b_method := Str "manual";
                   b_donorName := Str "Manual Entry (Admin)";
                   b_donorPhone := Str "N/A";
                   b_donorAddress := Str "N/A" |}.
Proof.
  unfold markNumbersAsDonated. destruct auth; [|discriminate]. cbn [negb].
  destruct (String.eqb _ _); [discriminate|].
  set (nums := List.filter on_grid _).
  assert (Hall : Forall (fun n => on_grid n = true) nums).
  { apply List.Forall_forall. intros n Hn. now apply filter_In in Hn as [_ Hn]. }
  destruct (on_grid_numbers nums Hall) as (ns & E & Hns). rewrite E.
  destruct ns as [|n0 ns0]; [discriminate|].
  cbn [map length Nat.eqb]. intros [= <-]. split; [reflexivity|].
  exists (n0 :: ns0). split; [discriminate|]. split; [exact Hns|]. split; [reflexivity|].
  change (Some n0 :: map Some ns0) with (map Some (n0 :: ns0)).
  rewrite foldl_plus. cbn [json_number]. f_equal. f_equal. rewrite map_map. reflexivity.
Qed.

(** What the page sends has the shape the data model asks for. *)
Lemma sent_by_page_shape req :
  sent_by_page req ->
  exists ns,
    ns <> [] /\ Forall on_the_grid ns
    /\ b_numbers req = Arr (map int ns)
    /\ b_amount req = Atomic (Num (Int (total ns)))
    /\ passes_field_checks req.
Proof.
  intros [donations clicks pay name phone address shown req0 Hg Hp Hc | text req0 Hm].
  - destruct (selection_spec donations clicks) as [_ Hsel].
    assert (Hgrid : Forall on_the_grid (selection donations clicks)).
    { apply Forall_forall. intros m [_ Hm]%Hsel. apply grid_spec.
      rewrite Forall_forall in Hg. apply Hg, list_elem_of_In.
      apply (count_occ_In Z.eq_dec).
      destruct (count_occ Z.eq_dec clicks m); [discriminate | lia]. }
    set (sel := selection donations clicks) in *.
    unfold processDonation in Hp.
    destruct sel as [|n0 sel0] eqn:Esel; [discriminate|]. cbn [length Nat.eqb orb] in Hp.
    destruct (String.eqb pay EmptyString) eqn:Epay; [discriminate|].
    destruct (bool_decide_reflect (pay ∈ modal_methods)) as [Hpay|]; [|discriminate].
    unfold confirmDonation in Hc.
    destruct (String.eqb (sanitizeInput name) EmptyString) eqn:En; [discriminate|].
    destruct (String.eqb (sanitizeInput phone) EmptyString) eqn:Eph; [discriminate|].
    destruct (String.eqb (sanitizeInput address) EmptyString) eqn:Ea; [discriminate|].
    cbn [orb] in Hc. injection Hc as <-.
    exists (n0 :: sel0). split; [discriminate|]. split; [exact Hgrid|].
    split; [reflexivity|]. split; [reflexivity|].
    split; [exists (total (n0 :: sel0)); split; [reflexivity|];
            apply total_pos; [discriminate | exact Hgrid]|].
    split; [exists pay; split; [reflexivity | now apply modal_methods_known]|].
    cbn [b_donorName b_donorPhone b_donorAddress].
    repeat split; now apply nonempty_truthy.
  - apply markNumbersAsDonated_Some in Hm as (_ & ns & Hne & Hns & _ & ->).
    exists ns. split; [exact Hne|]. split; [exact Hns|].
    split; [reflexivity|]. split; [reflexivity|].
    split; [exists (total ns); split; [reflexivity | now apply total_pos]|].
    split; [exists "manual"; split; [reflexivity | apply (bool_decide_unpack _); reflexivity]|].
    repeat split.
Qed.

(** X14.  A donation the page sends, from the modal or from the admin
    panel, is never refused by the validation: it carries a non-empty
    list of integers between 1 and 80, as amount their sum, a known
    method and donor fields that are not empty, so the server answers
    201, 409 or 500, but not 400. *)
Theorem page_donation_passes_validation (req : DonationBody) :
  sent_by_page req ->
  (exists ns,
     ns <> [] /\ Forall on_the_grid ns
     /\ b_numbers req = Arr (map int ns)
     /\ b_amount req = Atomic (Num (Int (total ns))))
  /\ passes_field_checks req
  /\ forall db now, status (recordDonation db now req).2 <> 400.
Proof.
  intros (ns & Hne & Hns & Hnum & Hamt & Hf)%sent_by_page_shape.
  split; [now exists ns|]. split; [exact Hf|].
  intros db now. rewrite recordDonation_cases. rewrite Hnum.
  destruct ns as [|n0 ns0]; [congruence|]. cbn [map].
  destruct Hf as (Ha & Hm & Hdn & Hdp & Hda).
  rewrite (amount_check_passes _ Ha), (method_check_passes _ Hm), Hdn, Hdp, Hda.
  cbn [negb orb].
  destruct (select_conflicts db _); [|cbn; lia].
  destruct (List.filter _ _); [|cbn; lia].
  destruct (Array_join _ _); [|cbn; lia].
  destruct (insert_donation _ _ _ _ _ _ _ _); cbn; lia.
Qed.

Lemma page_donation_passes_validation_witness :
  passes_field_checks
    {| b_amount := Num (Int 12); b_numbers := Arr [int 7; int 5];
       b_method := Str "venmo"; b_donorName := Str "Ann O&#x27;Hara";
       b_donorPhone := Str "555"; b_donorAddress := Str "1 Main St" |}
  /\ status (recordDonation db_3_7 2000
               {| b_amount := Num (Int 12); b_numbers := Arr [int 7; int 5];
                  b_method := Str "venmo"; b_donorName := Str "Ann O&#x27;Hara";
                  b_donorPhone := Str "555"; b_donorAddress := Str "1 Main St" |}).2 <> 400.
Proof.
  destruct (page_donation_passes_validation
              {| b_amount := Num (Int 12); b_numbers := Arr [int 7; int 5];
                 b_method := Str "venmo"; b_donorName := Str "Ann O&#x27;Hara";
                 b_donorPhone := Str "555"; b_donorAddress := Str "1 Main St" |})
    as (_ & H1 & H2).
  - apply (sent_confirm ∅ [7; 5] "venmo" " Ann O'Hara" "555" "1 Main St " ("venmo", 12)).
    + repeat constructor; apply (bool_decide_unpack _); reflexivity.
    + reflexivity.
    + reflexivity.
  - split; [exact H1 | apply H2].
Defined.


(** *** A typed list of numbers *)

Lemma all_chars_app p s t : all_chars p (s +:+ t) = all_chars p s && all_chars p t.
Proof. induction s as [|c s IH]; simpl; [reflexivity|]. now rewrite IH, andb_assoc. Qed.

Lemma numeral_char_spec c :
  numeral_char c = true ->
  is_space c = false /\ entity c = String c EmptyString
  /\ (Ascii.eqb c "x" || Ascii.eqb c "X" = false).
Proof.
  destruct c as [[] [] [] [] [] [] [] []]; intros H;
    first [discriminate H | repeat split].
Qed.

Lemma all_chars_uint d : all_chars numeral_char (NilEmpty.string_of_uint d) = true.
Proof. induction d; simpl; auto. Qed.

Lemma all_chars_dec n : all_chars numeral_char (dec n) = true.
Proof. apply all_chars_uint. Qed.

Lemma all_chars_dec_Z z : all_chars numeral_char (dec_Z z) = true.
Proof. unfold dec_Z. destruct (z <? 0); [apply all_chars_dec | apply all_chars_dec]. Qed.

Lemma all_chars_join l :
  Forall (fun s => all_chars numeral_char s = true) l ->
  all_chars numeral_char (join "," l) = true.
Proof.
  induction 1 as [|s l Hs Hl IH]; [reflexivity|].
  destruct l as [|t l]; [exact Hs|].
  change (join "," (s :: t :: l)) with (s +:+ "," +:+ join "," (t :: l)).
  now rewrite !all_chars_app, Hs, IH.
Qed.

Lemma map_entity_numeral s : all_chars numeral_char s = true -> map_chars entity s = s.
Proof.
  induction s as [|c s IH]; simpl; [reflexivity|].
  intros [Hc Hs]%andb_true_iff. destruct (numeral_char_spec c Hc) as (_ & -> & _).
  now rewrite (IH Hs).
Qed.

Lemma numeral_char_low c : numeral_char c = true -> (32 < nat_of_ascii c < 128)%nat.
Proof.
  destruct c as [[] [] [] [] [] [] [] []]; intros H;
    first [discriminate H | split; apply Nat.ltb_lt; reflexivity].
Qed.

Lemma all_chars_rev p s : all_chars p (rev_string s) = all_chars p s.
Proof.
  induction s as [|c s IH]; [reflexivity|].
  rewrite rev_string_cons, all_chars_app, IH. cbn [all_chars].
  rewrite andb_true_r. apply andb_comm.
Qed.

Lemma skip_white_numeral s : all_chars numeral_char s = true -> skip_white s = s.
Proof.
  destruct s as [|a r]; [reflexivity|]. cbn [all_chars]. intros [Ha _]%andb_true_iff.
  now apply skip_chars_id, head_white_low, numeral_char_low.
Qed.

Lemma skip_white_rev_numeral s : all_chars numeral_char s = true -> skip_white_rev s = s.
Proof.
  destruct s as [|a r]; [reflexivity|]. cbn [all_chars]. intros [Ha _]%andb_true_iff.
  now apply skip_chars_id, head_white_rev_low, numeral_char_low.
Qed.

Lemma trim_numeral s : all_chars numeral_char s = true -> trim s = s.
Proof.
  intros H. unfold trim. rewrite (skip_white_numeral _ H).
  rewrite skip_white_rev_numeral by now rewrite all_chars_rev.
  apply rev_string_involutive.
Qed.

Lemma sanitizeInput_numerals s : all_chars numeral_char s = true -> sanitizeInput s = s.
Proof.
  intros H. unfold sanitizeInput. rewrite (map_entity_numeral _ H). now apply trim_numeral.
Qed.

(** No [0x] at the head of a decimal numeral. *)
Lemma decimal_branch n (neg : bool) :
  match dec n with
  | String c (String x r) =>
      if Ascii.eqb c "0" && (Ascii.eqb x "x" || Ascii.eqb x "X")
      then match r with
           | String h _ =>
               if hex_digit h is Some _
               then Some (if neg then - hex_acc r 0 else hex_acc r 0) else None
           | EmptyString => None
           end
      else (fun p : Z * string => if neg then - p.1 else p.1) <$> read_digits (dec n)
  | _ => (fun p : Z * string => if neg then - p.1 else p.1) <$> read_digits (dec n)
  end = Some (if neg then - Z.of_N n else Z.of_N n).
Proof.
  pose proof (all_chars_dec n) as H. rewrite read_digits_dec.
  destruct (dec n) as [|c [|x r]]; try reflexivity.
  simpl in H. apply andb_true_iff in H as [_ [Hx _]%andb_true_iff].
  destruct (numeral_char_spec x Hx) as (_ & _ & ->). now rewrite andb_false_r.
Qed.

Lemma parseInt_no_radix_dec_Z z : parseInt_no_radix (dec_Z z) = Some z.
Proof.
  unfold parseInt_no_radix. rewrite (skip_white_numeral _ (all_chars_dec_Z z)).
  unfold dec_Z. destruct (Z.ltb_spec z 0).
  - cbn [read_sign]. rewrite (decimal_branch _ true). f_equal. lia.
  - rewrite read_sign_dec, (decimal_branch _ false). f_equal. lia.
Qed.

Lemma filter_on_grid ns :
  List.filter on_grid (map Some ns) = map Some (filter on_the_grid ns).
Proof.
  induction ns as [|n ns IH]; [reflexivity|].
  cbn [map List.filter on_grid]. rewrite filter_cons, IH. unfold on_the_grid.
  destruct (Z.leb_spec 1 n), (Z.leb_spec n 80), (decide (1 <= n <= 80));
    try lia; reflexivity.
Qed.

(** X15.  A list of decimal numerals separated by commas, typed into
    the manual entry of an unlocked admin panel, is sent as the
    numbers among them that lie between 1 and 80, in the order typed
    and with repetitions kept, with their sum as the amount; the other
    numbers are dropped without a word, and nothing is sent when none
    is left. *)
Theorem markNumbersAsDonated_numerals (ns : list Z) :
  markNumbersAsDonated true (join "," (map dec_Z ns))
  = match filter on_the_grid ns with
    | [] => None
    | kept => Some (manual_entry kept)
    end.
Proof.
  assert (Hall : all_chars numeral_char (join "," (map dec_Z ns)) = true).
  { apply all_chars_join. apply List.Forall_forall.
    intros s (z & <- & _)%in_map_iff. apply all_chars_dec_Z. }
  unfold markNumbersAsDonated. cbn [negb]. rewrite (sanitizeInput_numerals _ Hall).
  destruct ns as [|n0 ns0]; [reflexivity|].
  assert (String.eqb (join "," (map dec_Z (n0 :: ns0))) EmptyString = false) as ->.
  { apply String.eqb_neq. cbn [map]. apply join_nonempty, dec_Z_nonempty. }
  rewrite split_join; [|discriminate|].
  2:{ apply List.Forall_forall. intros s (z & <- & _)%in_map_iff.
      apply contains_comma_dec_Z. }
  rewrite map_map.
  assert (map (fun x => parseInt_no_radix (trim (dec_Z x))) (n0 :: ns0)
          = map Some (n0 :: ns0)) as ->.
  { apply map_ext. intros z. rewrite (trim_numeral _ (all_chars_dec_Z z)).
    apply parseInt_no_radix_dec_Z. }
  rewrite filter_on_grid.
  destruct (filter on_the_grid (n0 :: ns0)) as [|k0 ks]; [reflexivity|].
  cbn [map length Nat.eqb].
  change (Some k0 :: map Some ks) with (map Some (k0 :: ks)).
  rewrite foldl_plus. unfold manual_entry. cbn [json_number].
  f_equal. f_equal. rewrite map_map. reflexivity.
Qed.


End PageFacts.

(** ** The page and the server together *)

Module PageAndServer.
Import Text JS PG Csv Server Terms LedgerTerms Page PageTerms.
Import TextFacts PGFacts Ledger Admin Histories Reach PageFacts.




(** *** A donation made on a fresh view *)




Lemma sanitizeInput_no_nul s : contains nul s = false -> contains nul (sanitizeInput s) = false.
Proof.
  intros H. unfold sanitizeInput. apply contains_trim.
  now apply contains_map_entity_other.
Qed.



(** *** Reset *)

(** X18.  [Reset All Data] of the admin panel sends the default bio
    and goal.  A server whose secret is the one typed into the script
    then stores the defaults of a fresh installation and deletes no
    donation; a server with another secret answers 401 and changes
    nothing. *)
Theorem reset_keeps_donations (ADMIN_PASSWORD : string) (db : Db) (st : State)
    (req : StateBody) :
  state db = Some st ->
  resetAllData true true = Some req ->
  (ADMIN_PASSWORD = Page.ADMIN_PASSWORD ->
   updateState ADMIN_PASSWORD db (Some Page.ADMIN_PASSWORD) req
   = ({| donations := donations db;
         donations_id_seq := donations_id_seq db;
         state := state empty_db |}, Reply 200 BOk))
  /\ (ADMIN_PASSWORD <> Page.ADMIN_PASSWORD ->
      updateState ADMIN_PASSWORD db (Some Page.ADMIN_PASSWORD) req = (db, unauthorized)).
Proof.
  intros Hst [= <-]. split.
  - intros ->. unfold updateState.
    assert (isAuthed Page.ADMIN_PASSWORD (Some Page.ADMIN_PASSWORD) = true) as ->
      by reflexivity.
    cbn [negb b_bio b_goal is_undefined ToString throws Atom_toString].
    rewrite update_bio_Ok by reflexivity.
    assert (parseInt (Num (Int 3500)) = Returns (Some 3500)) as -> by reflexivity.
    cbn [or_default].
    rewrite update_goal_Ok by reflexivity. cbn [donations donations_id_seq state].
    rewrite Hst. reflexivity.
  - intros Hne. unfold updateState. rewrite isAuthed_false; [reflexivity|].
    cbn. congruence.
Qed.

Lemma reset_keeps_donations_witness :
  updateState secret db_goal_5000 (Some Page.ADMIN_PASSWORD)
    {| b_bio := Str default_bio; b_goal := Num (Int 3500) |}
  = ({| donations := donations db_3_7;
        donations_id_seq := 1;
        state := Some {| goal := 3500; bio := default_bio |} |}, Reply 200 BOk).
Proof.
  apply (reset_keeps_donations secret db_goal_5000 {| goal := 5000; bio := "hello" |}
           {| b_bio := Str default_bio; b_goal := Num (Int 3500) |} eq_refl eq_refl).
  reflexivity.
Defined.

(** *** The bio typed into the admin panel *)

Lemma authenticateAdmin_unlocked pws : forall auth,
  foldl authenticateAdmin auth pws = true <-> auth = true \/ Page.ADMIN_PASSWORD ∈ pws.
Proof.
  induction pws as [|pw pws IH]; intros auth; simpl.
  - split; [now left | intros [H|H]; [exact H | now apply elem_of_nil in H]].
  - rewrite IH, elem_of_cons. unfold authenticateAdmin.
    destruct (String.eqb_spec pw Page.ADMIN_PASSWORD) as [->|Hne].
    + split; [intros _; right; now left | intros _; now left].
    + split; [tauto|]. intros [H|[H|H]]; [now left | congruence | now right].
Qed.

(** X19.  [updateBio] sends something only from a panel that was
    unlocked by typing the secret of the script, and what it sends is
    the typed text after [sanitizeInput].  On an existing settings
    row, and for a typed text without the character U+0000, a server
    with that secret stores this text as the bio and keeps the goal
    and the donations; a server with another secret answers 401 and
    changes nothing. *)
Theorem updateBio_stored (ADMIN_PASSWORD : string) (db : Db) (st : State)
    (typed : list string) (bioText : string) (req : StateBody) :
  state db = Some st ->
  updateBio (foldl authenticateAdmin false typed) bioText = Some req ->
  contains nul bioText = false ->
  Page.ADMIN_PASSWORD ∈ typed
  /\ req = {| b_bio := Str (sanitizeInput bioText); b_goal := Undefined |}
  /\ (ADMIN_PASSWORD = Page.ADMIN_PASSWORD ->
      updateState ADMIN_PASSWORD db (Some Page.ADMIN_PASSWORD) req
      = ({| donations := donations db;
            donations_id_seq := donations_id_seq db;
            state := Some {| goal := goal st; bio := sanitizeInput bioText |} |},
         Reply 200 BOk))
  /\ (ADMIN_PASSWORD <> Page.ADMIN_PASSWORD ->
      updateState ADMIN_PASSWORD db (Some Page.ADMIN_PASSWORD) req = (db, unauthorized)).
Proof.
  intros Hst. unfold updateBio.
  destruct (foldl authenticateAdmin false typed) eqn:Eauth; [|discriminate].
  cbn [negb]. intros [= <-] Hnul. split; [|split; [reflexivity|split]].
  - apply authenticateAdmin_unlocked in Eauth as [[=]|H]. exact H.
  - intros ->. unfold updateState.
    assert (isAuthed Page.ADMIN_PASSWORD (Some Page.ADMIN_PASSWORD) = true) as ->
      by reflexivity.
    cbn [negb b_bio b_goal is_undefined ToString throws Atom_toString].
    rewrite update_bio_Ok by now apply sanitizeInput_no_nul.
    cbn [donations donations_id_seq state]. rewrite Hst. reflexivity.
  - intros Hne. unfold updateState. rewrite isAuthed_false; [reflexivity|].
    cbn. congruence.
Qed.

Lemma updateBio_stored_witness :
  updateState secret db_goal_5000 (Some Page.ADMIN_PASSWORD)
    {| b_bio := Str "Tom &amp; I &lt;3 Tanzania"; b_goal := Undefined |}
  = ({| donations := donations db_3_7;
        donations_id_seq := 1;
        state := Some {| goal := 5000; bio := "Tom &amp; I &lt;3 Tanzania" |} |},
     Reply 200 BOk).
Proof.
  destruct (updateBio_stored secret db_goal_5000 {| goal := 5000; bio := "hello" |}
              ["guess"; "lilia#2024"] "  Tom & I <3 Tanzania "
              {| b_bio := Str "Tom &amp; I &lt;3 Tanzania"; b_goal := Undefined |}
              eq_refl eq_refl eq_refl) as (_ & _ & H & _).
  apply H. reflexivity.
Defined.

End PageAndServer.
